(** * Macro regimes and rate-shock analysis: a shallow embedding

    The analytical core of the repository (regime_classifier.py,
    performance_analyzer.py, scenario_analysis.py and config.py) is
    translated into Rocq definitions, and the properties the
    specification states about it are proved, or refuted, on them.

    Conventions of the embedding.
    - A Python/numpy float is a real number or NaN: [float := option R],
      [None] being NaN.  Arithmetic is exact; rounding error, overflow and
      infinities of binary64 are outside the model (a division by zero
      yields NaN).
    - A pandas Timestamp is an integer count of nanoseconds.
    - A DataFrame is an index together with a finite map from column names
      to columns; every column is a list of cells.
    - A Python exception is a value of [exn]; code that can raise returns a
      [result].
    - Objects that are shared between a component and its caller live in a
      heap of DataFrames and are passed around by reference.
    - Console output ([print]) is not modelled. *)

From Stdlib Require Import Reals Lra Lia ZArith.
From stdpp Require Import gmap strings list sorting.

Open Scope R_scope.

(** ** Floats, exceptions *)

Abbreviation float := (option R) (only parsing).
Definition NaN : float := None.

#[global] Instance Rlt_rel_dec : RelDecision Rlt := Rlt_dec.
#[global] Instance Rgt_rel_dec : RelDecision Rgt := Rgt_dec.
#[global] Instance Req_rel_dec : RelDecision (@eq R) := Req_dec_T.
#[global] Instance R_inhabited : Inhabited R := populate 0.

(** [pd.notna(x)] *)
Definition notna {A} (x : option A) : bool :=
  match x with Some _ => true | None => false end.

(** [x > y] and [x < y] for a float [x]: a comparison with NaN is False. *)
Definition float_gt (x : float) (y : R) : bool :=
  match x with Some a => bool_decide (a > y) | None => false end.
Definition float_lt (x : float) (y : R) : bool :=
  match x with Some a => bool_decide (a < y) | None => false end.

Definition fsub (a b : float) : float :=
  match a, b with Some x, Some y => Some (x - y) | _, _ => None end.
Definition fmul (a b : float) : float :=
  match a, b with Some x, Some y => Some (x * y) | _, _ => None end.
Definition fadd (a b : float) : float :=
  match a, b with Some x, Some y => Some (x + y) | _, _ => None end.
Definition fdiv (a b : float) : float :=
  match a, b with
  | Some x, Some y => if decide (y = 0) then None else Some (x / y)
  | _, _ => None
  end.

Inductive exn : Type :=
  | KeyError (key : string)
  | ValueError (msg : string)
  | TypeError (msg : string)
  | IndexError (msg : string).

Inductive result (A : Type) : Type :=
  | Ok (a : A)
  | Raise (e : exn).
Arguments Ok {A} a.
Arguments Raise {A} e.

#[global] Instance result_ret : MRet result := @Ok.
#[global] Instance result_bind : MBind result := fun A B f m =>
  match m with Ok a => f a | Raise e => Raise e end.
#[global] Instance result_fmap : FMap result := fun A B f m =>
  match m with Ok a => Ok (f a) | Raise e => Raise e end.

(** A loop that threads a value and stops at the first exception. *)
Fixpoint foldlM {A B} (f : B -> A -> result B) (b : B) (xs : list A)
  : result B :=
  match xs with
  | [] => Ok b
  | x :: xs' => f b x ≫= fun b' => foldlM f b' xs'
  end.

Definition is_Ok {A} (r : result A) : Prop := exists a, r = Ok a.
Definition is_Raise {A} (r : result A) : Prop := exists e, r = Raise e.

(** ** Regime labels (the strings 'TIGHTENING', 'EASING', 'STRESS', 'NORMAL') *)

Inductive Regime : Type := TIGHTENING | EASING | STRESS | NORMAL.

#[global] Instance Regime_eq_dec : EqDecision Regime.
Proof. solve_decision. Defined.

(** ** config.py *)

Record Config : Type := {
  RATE_CHANGE_THRESHOLD : R;
  VIX_STRESS_THRESHOLD : R;
  VIX_LOOKBACK : nat;
  SHOCK_YIELD_THRESHOLD : R;
  SHOCK_HORIZON : nat;
  SHOCK_LOOKBACK : nat;
  PORTFOLIO_WEIGHTS : list (string * R);
  TICKERS : list string;
  ROLLING_CORR_WINDOW : nat;
  QUARTERLY_LOOKBACK : nat;
  ANNUALIZATION_FACTOR : nat
}.

(** The values of [class Config]. *)
Definition default_config : Config := {|
  RATE_CHANGE_THRESHOLD := 20 / 100;
  VIX_STRESS_THRESHOLD := 25;
  VIX_LOOKBACK := 5;
  SHOCK_YIELD_THRESHOLD := 70 / 100;
  SHOCK_HORIZON := 63;
  SHOCK_LOOKBACK := 21;
  PORTFOLIO_WEIGHTS := [("SPY"%string, 60 / 100); ("TLT"%string, 30 / 100);
                        ("GLD"%string, 10 / 100)];
  TICKERS := ["SPY"%string; "TLT"%string; "GLD"%string];
  ROLLING_CORR_WINDOW := 60;
  QUARTERLY_LOOKBACK := 63;
  ANNUALIZATION_FACTOR := 252
|}.

(** ** The part of pandas the code uses *)

Abbreviation Timestamp := Z (only parsing).

Module pd.

(** A column holds floats, regime labels (an object column, where a
    missing label is NaN) or booleans. *)
Inductive column : Type :=
  | FloatCol (xs : list float)
  | StrCol (xs : list (option Regime))
  | BoolCol (xs : list bool).

Record DataFrame : Type := {
  index : list Timestamp;
  columns : gmap string column
}.

(** [len(df)] *)
Definition len (df : DataFrame) : nat := length (index df).

(** [df[name]]: KeyError when the column is absent. *)
Definition getitem (df : DataFrame) (name : string) : result column :=
  match columns df !! name with
  | Some c => Ok c
  | None => Raise (KeyError name)
  end.

Definition as_float (c : column) : result (list float) :=
  match c with
  | FloatCol xs => Ok xs
  | _ => Raise (TypeError "numeric column expected")
  end.

Definition as_str (c : column) : result (list (option Regime)) :=
  match c with
  | StrCol xs => Ok xs
  | _ => Raise (TypeError "label column expected")
  end.

Definition float_column (df : DataFrame) (name : string) : result (list float) :=
  getitem df name ≫= as_float.

Definition str_column (df : DataFrame) (name : string)
  : result (list (option Regime)) :=
  getitem df name ≫= as_str.

(** [df[name] = c] *)
Definition setitem (df : DataFrame) (name : string) (c : column) : DataFrame :=
  {| index := index df; columns := <[name := c]> (columns df) |}.

(** [name in df.columns] *)
Definition has_column (df : DataFrame) (name : string) : bool :=
  bool_decide (is_Some (columns df !! name)).

(** [s.iloc[i]] for a position the caller keeps in range. *)
Definition iloc {A} `{Inhabited A} (xs : list A) (i : nat) : A := xs !!! i.

(** [s.shift(k)]: the values move down by [k] rows, NaN fills the top. *)
Definition shift {A} (k : nat) (xs : list (option A)) : list (option A) :=
  take (length xs) (replicate k None ++ xs).

(** [s.diff(k)] is [s - s.shift(k)]. *)
Definition diff (k : nat) (xs : list float) : list float :=
  zip_with fsub xs (shift k xs).

(** The rows a trailing window of [w] rows ending at row [i] covers. *)
Definition window {A} (w i : nat) (xs : list A) : list A :=
  drop (S i - w) (take (S i) xs).

Definition Rsum (xs : list R) : R := foldr Rplus 0 xs.

(** [dropna] on the values of a series. *)
Definition dropna {A} (xs : list (option A)) : list A := omap (fun x => x) xs.

(** Mean of the valid observations of a window, NaN when there are fewer
    than [min_periods] of them. *)
Definition window_mean (min_periods : nat) (xs : list float) : float :=
  let valid := dropna xs in
  if decide (min_periods <= length valid)%nat
  then (if decide (length valid = 0)%nat then None
        else Some (Rsum valid / INR (length valid)))
  else None.

(** [s.rolling(window=w, min_periods=m).mean()]; pandas refuses
    [min_periods > window]. *)
Definition rolling_mean (w min_periods : nat) (xs : list float)
  : result (list float) :=
  if decide (w < min_periods)%nat
  then Raise (ValueError "min_periods must be <= window")
  else Ok (map (fun i => window_mean min_periods (window w i xs))
               (seq 0 (length xs))).

(** Rows kept by a boolean mask: [s[mask]]. *)
Fixpoint select {A} (mask : list bool) (xs : list A) : list A :=
  match mask, xs with
  | b :: mask', x :: xs' =>
      if b then x :: select mask' xs' else select mask' xs'
  | _, _ => []
  end.

Definition col_select (mask : list bool) (c : column) : column :=
  match c with
  | FloatCol xs => FloatCol (select mask xs)
  | StrCol xs => StrCol (select mask xs)
  | BoolCol xs => BoolCol (select mask xs)
  end.

(** [df[mask]] *)
Definition df_select (mask : list bool) (df : DataFrame) : DataFrame :=
  {| index := select mask (index df);
     columns := col_select mask <$> columns df |}.

(** [df.loc[label, name] = v] on one column: every row whose index label
    equals [label] is written. *)
Definition loc_set {A} (idx : list Timestamp) (label : Timestamp) (v : A)
    (xs : list A) : list A :=
  zip_with (fun d old => if decide (d = label) then v else old) idx xs.

(** [df.loc[:t]]: the rows whose label is at most [t] (the index is
    increasing). *)
Definition truncate (t : Timestamp) (df : DataFrame) : DataFrame :=
  df_select (map (fun d => bool_decide (d <= t)%Z) (index df)) df.

(** [df.index.get_loc(label)] yields a row position only when exactly one
    row carries the label; an absent label is a KeyError, and a repeated
    one yields a slice or a mask, on which the integer arithmetic of the
    callers raises. *)
Fixpoint positions (label : Timestamp) (idx : list Timestamp) (i : nat)
  : list nat :=
  match idx with
  | [] => []
  | d :: idx' =>
      if decide (d = label) then i :: positions label idx' (S i)
      else positions label idx' (S i)
  end.

Definition get_loc (idx : list Timestamp) (label : Timestamp) : result nat :=
  match positions label idx 0 with
  | [] => Raise (KeyError "date")
  | [i] => Ok i
  | _ => Raise (TypeError "non-unique label")
  end.

End pd.

(** ** The part of numpy the code uses *)

#[global] Instance Rle_rel_dec : RelDecision Rle := Rle_dec.

Module np.
Import pd.

(** An array holding a NaN makes every reduction below NaN. *)
Definition finite (xs : list float) : option (list R) := mapM (fun x => x) xs.

Definition mean_R (xs : list R) : float :=
  if decide (length xs = 0)%nat then NaN
  else Some (Rsum xs / INR (length xs)).

(** Standard deviation with [ddof] delta degrees of freedom. *)
Definition std_R (ddof : nat) (xs : list R) : float :=
  match mean_R xs with
  | None => NaN
  | Some m =>
      if decide (length xs <= ddof)%nat then NaN
      else Some (sqrt (Rsum (map (fun x => (x - m) * (x - m)) xs)
                        / (INR (length xs) - INR ddof)))
  end.

Definition mean (xs : list float) : float := finite xs ≫= mean_R.
Definition std (xs : list float) : float := finite xs ≫= std_R 0.

(** Linear interpolation between the order statistics around position
    [q/100 * (n-1)] of the sorted values. *)
Definition percentile_R (q : R) (xs : list R) : R :=
  let sorted := merge_sort Rle xs in
  let pos := q / 100 * (INR (length xs) - 1) in
  let lo := Z.to_nat (Zfloor pos) in
  let a := sorted !!! lo in
  let b := sorted !!! (Nat.min (S lo) (length xs - 1)) in
  a + (pos - IZR (Zfloor pos)) * (b - a).

Definition median (xs : list float) : float :=
  match xs with
  | [] => NaN
  | _ => percentile_R 50 <$> finite xs
  end.

Section Percentile.
(** What [np.percentile] does on an empty array depends on the numpy
    release (NaN in older ones, an IndexError in newer ones); the
    repository pins none, so it is left open. *)
Variable percentile_of_empty : result float.

Definition percentile (xs : list float) (q : R) : result float :=
  match xs with
  | [] => percentile_of_empty
  | _ => Ok (percentile_R q <$> finite xs)
  end.
End Percentile.

Definition Rlist_min (x : R) (xs : list R) : R := foldr Rmin x xs.
Definition Rlist_max (x : R) (xs : list R) : R := foldr Rmax x xs.

(** [np.min] and [np.max] have no value on an empty array. *)
Definition min (xs : list float) : result float :=
  match xs with
  | [] => Raise (ValueError
      "zero-size array to reduction operation minimum which has no identity")
  | _ => Ok (match finite xs with
             | Some (y :: ys) => Some (Rlist_min y ys)
             | _ => NaN
             end)
  end.

Definition max (xs : list float) : result float :=
  match xs with
  | [] => Raise (ValueError
      "zero-size array to reduction operation maximum which has no identity")
  | _ => Ok (match finite xs with
             | Some (y :: ys) => Some (Rlist_max y ys)
             | _ => NaN
             end)
  end.

(** Round half to even. *)
Definition rint (x : R) : Z :=
  let f := Zfloor x in
  if decide (x - IZR f < 1 / 2) then f
  else if decide (x - IZR f > 1 / 2) then (f + 1)%Z
  else if Z.even f then f else (f + 1)%Z.

(** [round(x, ndigits)] *)
Definition round (x : float) (ndigits : nat) : float :=
  (fun v => IZR (rint (v * 10 ^ ndigits)) / 10 ^ ndigits) <$> x.

End np.

(** ** Shared objects *)

(** A reference to a DataFrame object. Two variables bound to the same
    reference are aliases: a write through one is seen through the other. *)
Abbreviation ref := nat (only parsing).

Module Heap.
Import pd.

Definition alloc (h : gmap ref DataFrame) (df : DataFrame)
  : ref * gmap ref DataFrame :=
  let r := fresh (dom h) in (r, <[r := df]> h).

(** Reading the object behind a reference; the references an object
    holds are always allocated, the error case is never taken by a
    program that only uses references it was given. *)
Definition deref (h : gmap ref DataFrame) (r : ref) : result DataFrame :=
  match h !! r with
  | Some df => Ok df
  | None => Raise (ValueError "dangling reference")
  end.
End Heap.

(** ** regime_classifier.py *)

Module RegimeClassifier.
Import pd Heap.

(** The object: [self.data], [self.config], [self.regime_data]. *)
Record t : Type := {
  data : ref;
  config : Config;
  regime_data : option ref
}.

(** [__init__]: [self.data = data.copy()]. *)
Definition init (data : DataFrame) (config : Config) (h : gmap ref DataFrame)
  : t * gmap ref DataFrame :=
  let '(r, h') := alloc h data in
  ({| data := r; config := config; regime_data := None |}, h').

(** Lines 51-67: the label of one row, STRESS > TIGHTENING > EASING >
    NORMAL. *)
Definition regime_rule (config : Config)
    (vix_level rate_chg yield_chg : float) : Regime :=
  let threshold := RATE_CHANGE_THRESHOLD config in
  let vix_threshold := VIX_STRESS_THRESHOLD config in
  if notna vix_level && float_gt vix_level vix_threshold then STRESS
  else if (notna rate_chg && float_gt rate_chg threshold)
          || (notna yield_chg && float_gt yield_chg threshold)
  then TIGHTENING
  else if (notna rate_chg && float_lt rate_chg (- threshold))
          || (notna yield_chg && float_lt yield_chg (- threshold))
  then EASING
  else NORMAL.

(** One turn of the loop of line 46, for row [i]; the write of line 69
    goes through the row's index label. *)
Definition label_row (config : Config) (idx : list Timestamp)
    (vix_ma rate_change yield_change : list float)
    (regime : list (option Regime)) (i : nat) : list (option Regime) :=
  let vix_level := iloc vix_ma i in
  let rate_chg := iloc rate_change i in
  let yield_chg := iloc yield_change i in
  loc_set idx (iloc idx i)
          (Some (regime_rule config vix_level rate_chg yield_chg)) regime.

(** [for i in range(lookback, len(df))] *)
Definition label_rows (config : Config) (idx : list Timestamp)
    (vix_ma rate_change yield_change : list float)
    (lookback : nat) (regime : list (option Regime))
  : list (option Regime) :=
  foldl (label_row config idx vix_ma rate_change yield_change) regime
        (seq lookback (length idx - lookback)).

(** Lines 26-69 of [classify_regimes]: the labelled copy of the panel. *)
Definition classify (config : Config) (data : DataFrame) : result DataFrame :=
  let df := data in
  let lookback := QUARTERLY_LOOKBACK config in
  fed_funds ← float_column df "FED_FUNDS";
  let rate_change := diff lookback fed_funds in
  let df := setitem df "RATE_CHANGE_QTR" (FloatCol rate_change) in
  treasury ← float_column df "TREASURY_10Y";
  let yield_change := diff lookback treasury in
  let df := setitem df "YIELD_CHANGE_QTR" (FloatCol yield_change) in
  vix ← float_column df "VIX";
  vix_ma ← rolling_mean (VIX_LOOKBACK config) 1 vix;
  let df := setitem df "VIX_MA" (FloatCol vix_ma) in
  let regime := replicate (len df) (Some NORMAL) in
  let regime :=
    label_rows config (index df) vix_ma rate_change yield_change
               lookback regime in
  Ok (setitem df "REGIME" (StrCol regime)).

(** [classify_regimes]: the labelled frame is stored in
    [self.regime_data] and the same object is returned. *)
Definition classify_regimes (self : t) (h : gmap ref DataFrame)
  : result (ref * t) * gmap ref DataFrame :=
  match deref h (data self) ≫= classify (config self) with
  | Raise e => (Raise e, h)
  | Ok df =>
      let '(r, h') := alloc h df in
      (Ok (r, {| data := data self; config := config self;
                 regime_data := Some r |}), h')
  end.

(** [a != b] on the cells of an object column; NaN differs from
    everything. *)
Definition cell_ne (a b : option Regime) : bool :=
  match a, b with
  | Some x, Some y => bool_decide (x <> y)
  | _, _ => true
  end.

(** [df[[names]]] *)
Definition project (df : DataFrame) (names : list string) : result DataFrame :=
  cols ← mapM (fun name => c ← getitem df name; Ok (name, c)) names;
  Ok {| index := index df; columns := list_to_map cols |}.

(** [identify_regime_transitions]: [df] is [self.regime_data] itself, so
    line 137 writes the column REGIME_SHIFT into that object. *)
Definition identify_regime_transitions (self : t) (h : gmap ref DataFrame)
  : result DataFrame * gmap ref DataFrame :=
  match regime_data self with
  | None => (Raise (ValueError "Must run classify_regimes() first"), h)
  | Some r =>
      match deref h r with
      | Raise e => (Raise e, h)
      | Ok df =>
          match str_column df "REGIME" with
          | Raise e => (Raise e, h)
          | Ok regime =>
              let prev := shift 1 regime in
              let regime_shift := zip_with cell_ne regime prev in
              let df := setitem df "REGIME_SHIFT" (BoolCol regime_shift) in
              let h := <[r := df]> h in
              let transitions := df_select regime_shift df in
              let transitions :=
                setitem transitions "PREV_REGIME"
                        (StrCol (select regime_shift prev)) in
              (project transitions
                 ["REGIME"; "PREV_REGIME"; "VIX"; "FED_FUNDS";
                  "TREASURY_10Y"]%string, h)
          end
      end
  end.

(** [get_data] hands out [self.regime_data] itself. *)
Definition get_data (self : t) : result ref :=
  match regime_data self with
  | None => Raise (ValueError "Must run classify_regimes() first")
  | Some r => Ok r
  end.

(** [a == b] on the cells of an object column; NaN equals nothing. *)
Definition cell_eq (a b : option Regime) : bool :=
  match a, b with
  | Some x, Some y => bool_decide (x = y)
  | _, _ => false
  end.

(** Lines 98-108 of [get_regime_summary]: one label meets the state
    [(durations, current_regime, current_duration)] of the scan;
    [current_regime] is Python's [None] before the first label. *)
Definition duration_step
    (st : list (option Regime * nat) * option (option Regime) * nat)
    (regime : option Regime)
  : list (option Regime * nat) * option (option Regime) * nat :=
  let '(durations, current_regime, current_duration) := st in
  match current_regime with
  | Some current =>
      if cell_eq regime current
      then (durations, current_regime, S current_duration)
      else (durations ++ [(current, current_duration)], Some regime, 1%nat)
  | None => (durations, Some regime, 1%nat)
  end.

(** Lines 94-115: the runs of equal labels, each with its length. *)
Definition durations (labels : list (option Regime))
  : list (option Regime * nat) :=
  let '(durations, current_regime, current_duration) :=
    foldl duration_step ([], None, 0%nat) labels in
  match current_regime with
  | Some current => durations ++ [(current, current_duration)]
  | None => durations
  end.

(** [df['REGIME'].value_counts()[regime]]: missing labels are not
    counted. *)
Definition value_count (labels : list (option Regime)) (regime : Regime)
  : nat :=
  length (filter (fun x => x = Some regime) labels).

(** The lengths of the runs of one regime: a group of
    [duration_df.groupby('regime')]. *)
Definition run_lengths (runs : list (option Regime * nat)) (regime : Regime)
  : list nat :=
  omap (fun run => if decide (run.1 = Some regime) then Some run.2 else None)
       runs.

(** A row of the summary. *)
Record SummaryRow : Type := {
  Days : nat;
  Percentage : float;
  Avg_Duration_Days : float
}.

(** [get_regime_summary]: the summary is indexed by regime and has a row
    for every regime that occurs; the rows are given by their index, the
    order [sort_values] puts them in is left out.  On an empty panel no
    run is recorded, the frame of runs has no column 'regime' and
    [groupby] raises. *)
Definition get_regime_summary (self : t) (h : gmap ref DataFrame)
  : result (Regime -> option SummaryRow) :=
  match regime_data self with
  | None => Raise (ValueError "Must run classify_regimes() first")
  | Some r =>
      df ← deref h r;
      labels ← str_column df "REGIME";
      let runs := durations labels in
      if decide (runs = []) then Raise (KeyError "regime")
      else
        Ok (fun regime =>
              let days := value_count labels regime in
              if decide (days = 0)%nat then None
              else Some
                {| Days := days;
                   Percentage :=
                     np.round
                       (np.round
                          (fmul (fdiv (Some (INR days)) (Some (INR (len df))))
                                (Some 100)) 2) 1;
                   Avg_Duration_Days :=
                     np.round
                       (np.mean_R (map INR (run_lengths runs regime))) 1 |})
  end.

End RegimeClassifier.

(** ** performance_analyzer.py *)

(** The analyzer keeps its frames by value: none of its methods writes
    into a frame another variable is bound to. *)
Module PerformanceAnalyzer.
Import pd.

Record t : Type := {
  data : DataFrame;
  config : Config;
  returns_data : option DataFrame
}.

(** [__init__] *)
Definition init (data : DataFrame) (config : Config) : t :=
  {| data := data; config := config; returns_data := None |}.

(** [s.pct_change()]: [s / s.shift(1) - 1] (the panel has no gaps to
    fill). *)
Definition pct_change (xs : list float) : list float :=
  zip_with (fun x prev => fsub (fdiv x prev) (Some 1)) xs (shift 1 xs).

Definition ret_col (ticker : string) : string := ticker +:+ "_RET".

(** [calculate_returns] *)
Definition add_returns (df : DataFrame) (ticker : string) : result DataFrame :=
  if has_column df ticker then
    prices ← float_column df ticker;
    Ok (setitem df (ret_col ticker) (FloatCol (pct_change prices)))
  else Ok df.

Definition calculate_returns (self : t) : result DataFrame * t :=
  match foldlM add_returns (data self) (TICKERS (config self)) with
  | Raise e => (Raise e, self)
  | Ok df =>
      (Ok df, {| data := data self; config := config self;
                 returns_data := Some df |})
  end.

(** [(1 + returns).cumprod()] *)
Fixpoint cumprod_from (acc : R) (xs : list R) : list R :=
  match xs with
  | [] => []
  | x :: xs' => (acc * x) :: cumprod_from (acc * x) xs'
  end.
Definition cumprod (xs : list R) : list R := cumprod_from 1 xs.

(** [s.expanding().max()] *)
Fixpoint expanding_max_from (m : R) (xs : list R) : list R :=
  match xs with
  | [] => []
  | x :: xs' => Rmax m x :: expanding_max_from (Rmax m x) xs'
  end.
Definition expanding_max (xs : list R) : list R :=
  match xs with
  | [] => []
  | x :: xs' => x :: expanding_max_from x xs'
  end.

(** [s.min()]: NaN cells are skipped; NaN when nothing is left. *)
Definition series_min (xs : list float) : float :=
  match dropna xs with
  | [] => NaN
  | y :: ys => Some (np.Rlist_min y ys)
  end.

(** Lines 61-74: the statistics of one (regime, asset) pair before they
    are rounded. *)
Record Metrics : Type := {
  ann_return : float;
  ann_vol : float;
  sharpe : float;
  max_dd : float;
  win_rate : float
}.

Definition drawdown (returns : list R) : list float :=
  let cum_ret := cumprod (map (fun r => 1 + r) returns) in
  let running_max := expanding_max cum_ret in
  zip_with (fun c m => fdiv (Some (c - m)) (Some m)) cum_ret running_max.

Definition metrics (ann_factor : nat) (returns : list R) : Metrics :=
  let ann_return :=
    fmul (fmul (np.mean_R returns) (Some (INR ann_factor))) (Some 100) in
  let ann_vol :=
    fmul (fmul (np.std_R 1 returns) (Some (sqrt (INR ann_factor))))
         (Some 100) in
  let sharpe :=
    if float_gt ann_vol 0 then fdiv ann_return ann_vol else Some 0 in
  let max_dd := fmul (series_min (drawdown returns)) (Some 100) in
  let win_rate :=
    fmul (fdiv (Some (INR (length (filter (fun r => r > 0) returns))))
               (Some (INR (length returns))))
         (Some 100) in
  {| ann_return := ann_return; ann_vol := ann_vol; sharpe := sharpe;
     max_dd := max_dd; win_rate := win_rate |}.

(** Lines 76-85: a row of the performance table. *)
Record PerformanceRecord : Type := {
  Regime_ : Regime;
  Asset : string;
  Ann_Return_pct : float;
  Ann_Vol_pct : float;
  Sharpe : float;
  Max_DD_pct : float;
  Win_Rate_pct : float;
  Observations : nat
}.

Definition make_record (regime : Regime) (ticker : string)
    (m : Metrics) (n : nat) : PerformanceRecord :=
  {| Regime_ := regime; Asset := ticker;
     Ann_Return_pct := np.round (ann_return m) 2;
     Ann_Vol_pct := np.round (ann_vol m) 2;
     Sharpe := np.round (sharpe m) 2;
     Max_DD_pct := np.round (max_dd m) 2;
     Win_Rate_pct := np.round (win_rate m) 1;
     Observations := n |}.

(** [df['REGIME'] == regime] *)
Definition eq_mask (c : column) (regime : Regime) : list bool :=
  match c with
  | StrCol xs =>
      map (fun x => match x with
                    | Some r => bool_decide (r = regime)
                    | None => false
                    end) xs
  | FloatCol xs => map (fun _ => false) xs
  | BoolCol xs => map (fun _ => false) xs
  end.

(** The body of the loop over tickers, lines 51-85. *)
Definition ticker_performance (config : Config) (df regime_data : DataFrame)
    (regime : Regime) (ticker : string)
  : result (list PerformanceRecord) :=
  if negb (has_column df (ret_col ticker)) then Ok []
  else
    col ← float_column regime_data (ret_col ticker);
    let returns := dropna col in
    if decide (length returns < 5)%nat then Ok []
    else Ok [make_record regime ticker
               (metrics (ANNUALIZATION_FACTOR config) returns)
               (length returns)].

(** The body of the loop over regimes, lines 45-85. *)
Definition one_regime_performance (config : Config) (df : DataFrame)
    (regime : Regime) : result (list PerformanceRecord) :=
  labels ← getitem df "REGIME";
  let regime_data := df_select (eq_mask labels regime) df in
  if decide (len regime_data < 10)%nat then Ok []
  else
    (@concat _) <$> mapM (ticker_performance config df regime_data regime)
                    (TICKERS config).

Definition regimes : list Regime := [TIGHTENING; EASING; STRESS; NORMAL].

(** [regime_performance] *)
Definition regime_performance (self : t) : result (list PerformanceRecord) :=
  match returns_data self with
  | None => Raise (ValueError "Must run calculate_returns() first")
  | Some df =>
      (@concat _) <$> mapM (one_regime_performance (config self) df) regimes
  end.

(** Lines 142-145: one entry of the weights meets the frame. *)
Definition add_weighted (df : DataFrame) (entry : string * R)
  : result DataFrame :=
  let '(ticker, weight) := entry in
  if has_column df (ret_col ticker) then
    portfolio ← float_column df "PORTFOLIO_RET";
    asset ← float_column df (ret_col ticker);
    Ok (setitem df "PORTFOLIO_RET"
          (FloatCol (zip_with fadd portfolio (map (fmul (Some weight)) asset))))
  else Ok df.

(** [calculate_portfolio_returns] *)
Definition calculate_portfolio_returns (self : t)
    (weights_arg : option (list (string * R))) : result DataFrame * t :=
  match returns_data self with
  | None => (Raise (ValueError "Must run calculate_returns() first"), self)
  | Some returns =>
      let weights :=
        match weights_arg with
        | Some w => w
        | None => PORTFOLIO_WEIGHTS (config self)
        end in
      let df :=
        setitem returns "PORTFOLIO_RET"
          (FloatCol (replicate (len returns) (Some 0))) in
      match foldlM add_weighted df weights with
      | Raise e => (Raise e, self)
      | Ok df' =>
          (Ok df', {| data := data self; config := config self;
                      returns_data := Some df' |})
      end
  end.

(** [get_data] *)
Definition get_data (self : t) : result DataFrame :=
  match returns_data self with
  | None => Raise (ValueError "Must run calculate_returns() first")
  | Some df => Ok df
  end.

End PerformanceAnalyzer.

(** ** scenario_analysis.py *)

(** As for the performance analyzer, the frames are kept by value. *)
Module RateShockAnalyzer.
Import pd.

(** A row of the frame of responses: the dict built at lines 82-95. *)
Record ShockResponse : Type := {
  shock_date : Timestamp;
  start_yield : float;
  end_yield : float;
  rets : list (string * float)
}.

Record t : Type := {
  data : DataFrame;
  config : Config;
  shock_dates : option (list Timestamp);
  shock_responses : option (list ShockResponse)
}.

(** [__init__] *)
Definition init (data : DataFrame) (config : Config) : t :=
  {| data := data; config := config;
     shock_dates := None; shock_responses := None |}.

(** [dict.get(key, default)] *)
Fixpoint dict_get {V} (key : string) (d : list (string * V)) (dflt : V) : V :=
  match d with
  | [] => dflt
  | (k, v) :: d' => if decide (k = key) then v else dict_get key d' dflt
  end.

Definition ns_per_day : Z := 86400000000000.

(** [delta.days]: the whole days of a Timedelta, rounded down. *)
Definition days (delta : Z) : Z := (delta `div` ns_per_day)%Z.

(** Lines 40-43: one candidate meets the scan state
    [(filtered_shocks, last_shock)]. *)
Definition filter_step (st : list Timestamp * option Timestamp)
    (date : Timestamp) : list Timestamp * option Timestamp :=
  let '(filtered_shocks, last_shock) := st in
  match last_shock with
  | None => (filtered_shocks ++ [date], Some date)
  | Some last =>
      if decide (days (date - last) > 180)%Z
      then (filtered_shocks ++ [date], Some date)
      else st
  end.

(** Lines 37-43. *)
Definition filter_shocks (shock_candidates : list Timestamp)
  : list Timestamp :=
  (foldl filter_step ([], None) shock_candidates).1.

(** Lines 28-34. *)
Definition shock_candidates (config : Config) (df : DataFrame)
  : result (list Timestamp) :=
  treasury ← float_column df "TREASURY_10Y";
  let yield_chg := diff (SHOCK_LOOKBACK config) treasury in
  let shock_mask :=
    map (fun x => float_gt x (SHOCK_YIELD_THRESHOLD config)) yield_chg in
  Ok (select shock_mask (index df)).

(** Lines 48-52 format [df.loc[date, col]] as a number, which raises a
    TypeError when the label is carried by several rows. *)
Definition report_ok (df : DataFrame) (filtered_shocks : list Timestamp)
  : bool :=
  forallb (fun date =>
             bool_decide (length (positions date (index df) 0) = 1)%nat)
          filtered_shocks.

(** [identify_shocks] *)
Definition identify_shocks (self : t) : result (list Timestamp) * t :=
  match shock_candidates (config self) (data self) with
  | Raise e => (Raise e, self)
  | Ok candidates =>
      let filtered_shocks := filter_shocks candidates in
      let self' := {| data := data self; config := config self;
                      shock_dates := Some filtered_shocks;
                      shock_responses := shock_responses self |} in
      if report_ok (data self) filtered_shocks
      then (Ok filtered_shocks, self')
      else (Raise (TypeError "unsupported format string"), self')
  end.

(** [s.iloc[i]], an IndexError outside the rows of [s]. *)
Definition iloc_checked {A} (xs : list A) (i : nat) : result A :=
  match xs !! i with
  | Some x => Ok x
  | None => Raise (IndexError "single positional indexer is out-of-bounds")
  end.

Definition ret_key (ticker : string) : string := ticker +:+ "_ret".

(** Lines 88-95 for one ticker. *)
Definition ticker_return (df : DataFrame) (shock_idx horizon : nat)
    (ticker : string) : result (list (string * float)) :=
  if negb (has_column df ticker) then Ok []
  else
    prices ← float_column df ticker;
    start_price ← iloc_checked prices shock_idx;
    end_price ← iloc_checked prices (shock_idx + horizon);
    let ret := fmul (fsub (fdiv end_price start_price) (Some 1)) (Some 100) in
    Ok [(ret_key ticker, ret)].

(** Lines 74-97, the body of the [try]: [Ok None] is the [continue] of
    line 79. *)
Definition measure_one (config : Config) (df : DataFrame)
    (shock_date : Timestamp) : result (option ShockResponse) :=
  let horizon := SHOCK_HORIZON config in
  shock_idx ← get_loc (index df) shock_date;
  if decide (len df <= shock_idx + horizon)%nat then Ok None
  else
    treasury ← float_column df "TREASURY_10Y";
    start_yield ← iloc_checked treasury shock_idx;
    end_yield ← iloc_checked treasury (shock_idx + horizon);
    rets ← mapM (ticker_return df shock_idx horizon) (TICKERS config);
    Ok (Some {| shock_date := shock_date; start_yield := start_yield;
                end_yield := end_yield; rets := concat rets |}).

(** Lines 72-102: an exception in the body is caught and the event is
    dropped. *)
Definition measure_event (config : Config) (df : DataFrame)
    (shock_date : Timestamp) : option ShockResponse :=
  match measure_one config df shock_date with
  | Ok (Some response) => Some response
  | Ok None => None
  | Raise _ => None
  end.

(** [measure_shock_response] *)
Definition measure_shock_response (self : t)
    (shock_dates_arg : option (list Timestamp))
  : result (list ShockResponse) * t :=
  let dates :=
    match shock_dates_arg with
    | Some ds => Ok ds
    | None =>
        match shock_dates self with
        | None => Raise (ValueError
            "Must run identify_shocks() first or provide shock_dates")
        | Some ds => Ok ds
        end
    end in
  match dates with
  | Raise e => (Raise e, self)
  | Ok ds =>
      let responses := omap (measure_event (config self) (data self)) ds in
      (Ok responses,
       {| data := data self; config := config self;
          shock_dates := shock_dates self;
          shock_responses := Some responses |})
  end.

(** The summary dict of lines 141-150. *)
Record Summary : Type := {
  median : float;
  p10 : float;
  p90 : float;
  mean : float;
  std : float;
  min : float;
  max : float;
  count : nat
}.

(** A row of the detailed table, lines 155-166. *)
Record TableRow : Type := {
  Scenario : string;
  assets : list (string * float);
  Portfolio : float
}.

(** Lines 132-135: the portfolio return of one event. *)
Definition portfolio_return (weights : list (string * R))
    (row : ShockResponse) : float :=
  foldl fadd (Some 0)
    (map (fun ticker =>
            fmul (Some (dict_get ticker weights 0))
                 (dict_get (ret_key ticker) (rets row) (Some 0)))
         (map fst weights)).

(** [name in shock_responses.columns] and [shock_responses[name]]. *)
Definition responses_has_column (responses : list ShockResponse)
    (name : string) : bool :=
  existsb (fun row => bool_decide (name ∈ map fst (rets row))) responses.

Definition responses_column (responses : list ShockResponse)
    (name : string) : list float :=
  map (fun row => dict_get name (rets row) NaN) responses.

Section StressTest.
Variable percentile_of_empty : result float.

Definition table_asset (responses : list ShockResponse) (pct : R)
    (ticker : string) : result (list (string * float)) :=
  if responses_has_column responses (ret_key ticker) then
    v ← np.percentile percentile_of_empty
          (responses_column responses (ret_key ticker)) pct;
    Ok [(ticker, v)]
  else Ok [].

Definition table_row (config : Config) (responses : list ShockResponse)
    (portfolio_rets : list float) (pct : R) (label : string)
  : result TableRow :=
  cells ← mapM (table_asset responses pct) (TICKERS config);
  portfolio ← np.percentile percentile_of_empty portfolio_rets pct;
  Ok {| Scenario := label; assets := concat cells;
        Portfolio := portfolio |}.

(** [portfolio_stress_test] *)
Definition portfolio_stress_test (self : t)
    (weights_arg : option (list (string * R)))
    (shock_responses_arg : option (list ShockResponse))
  : result (Summary * list TableRow) :=
  responses ←
    match shock_responses_arg with
    | Some rs => Ok rs
    | None =>
        match shock_responses self with
        | None => Raise (ValueError
            "No shock responses available. Run measure_shock_response() first")
        | Some rs =>
            if decide (length rs = 0)%nat
            then Raise (ValueError
              "No shock responses available. Run measure_shock_response() first")
            else Ok rs
        end
    end;
  let weights :=
    match weights_arg with
    | Some w => w
    | None => PORTFOLIO_WEIGHTS (config self)
    end in
  let portfolio_rets := map (portfolio_return weights) responses in
  let median := np.median portfolio_rets in
  p10 ← np.percentile percentile_of_empty portfolio_rets 10;
  p90 ← np.percentile percentile_of_empty portfolio_rets 90;
  let mean := np.mean portfolio_rets in
  let std := np.std portfolio_rets in
  min ← np.min portfolio_rets;
  max ← np.max portfolio_rets;
  let summary :=
    {| median := median; p10 := p10; p90 := p90; mean := mean;
       std := std; min := min; max := max;
       count := length portfolio_rets |} in
  detailed_table ←
    mapM (fun '(pct, label) =>
            table_row (config self) responses portfolio_rets pct label)
         [(10, "Tail (10th pct)"%string); (50, "Median"%string);
          (90, "Best (90th pct)"%string)];
  Ok (summary, detailed_table).
End StressTest.

(** [get_shock_data] *)
Definition get_shock_data (self : t)
  : option (list Timestamp) * option (list ShockResponse) :=
  (shock_dates self, shock_responses self).

End RateShockAnalyzer.

(** ** main.py *)

Module Main.
Import pd.

Section RateShockScenario.
Variable percentile_of_empty : result float.

(** [main], step 4 (lines 204-216), from the panel [corr_data] the
    performance analysis returned. The value is the pair
    [(shock_summary, shock_table)], [None] where the code binds both to
    None. *)
Definition rate_shock_scenario (corr_data : DataFrame) (config : Config)
  : result (option (RateShockAnalyzer.Summary
                    * list RateShockAnalyzer.TableRow)) :=
  let shock_analyzer := RateShockAnalyzer.init corr_data config in
  let '(shock_dates, shock_analyzer) :=
    RateShockAnalyzer.identify_shocks shock_analyzer in
  shock_dates ← shock_dates;
  if decide (0 < length shock_dates)%nat then
    let '(shock_responses, shock_analyzer) :=
      RateShockAnalyzer.measure_shock_response shock_analyzer None in
    shock_responses ← shock_responses;
    if decide (0 < length shock_responses)%nat then
      Some <$> RateShockAnalyzer.portfolio_stress_test percentile_of_empty
                 shock_analyzer None None
    else Ok None
  else Ok None.
End RateShockScenario.

End Main.

(** ** Panels and what is read off a labelled panel *)

Import pd.

(** The dates of an observation panel are strictly increasing (and so
    unique). *)
Definition increasing (idx : list Timestamp) : Prop := StronglySorted Z.lt idx.

(** The macro series the classifier reads are present and numeric. *)
Definition macro_columns (df : DataFrame) : Prop :=
  is_Ok (float_column df "FED_FUNDS") /\
  is_Ok (float_column df "TREASURY_10Y") /\
  is_Ok (float_column df "VIX").

(** The regime label a classified frame gives the date [d]. *)
Definition regime_on (r : result DataFrame) (d : Timestamp) : option Regime :=
  match r with
  | Ok df =>
      match get_loc (index df) d, str_column df "REGIME" with
      | Ok i, Ok regime => mjoin (regime !! i)
      | _, _ => None
      end
  | Raise _ => None
  end.

(** The label of row [i]. *)
Definition regime_at (df : DataFrame) (i : nat) : option Regime :=
  match str_column df "REGIME" with
  | Ok regime => mjoin (regime !! i)
  | Raise _ => None
  end.

(** The moving average of the volatility index at row [i]. *)
Definition vix_ma_at (df : DataFrame) (i : nat) : float :=
  match float_column df "VIX_MA" with
  | Ok xs => mjoin (xs !! i)
  | Raise _ => NaN
  end.

(** The first [k] rows of a frame: [df.iloc[:k]]. *)
Definition col_take (k : nat) (c : column) : column :=
  match c with
  | FloatCol xs => FloatCol (take k xs)
  | StrCol xs => StrCol (take k xs)
  | BoolCol xs => BoolCol (take k xs)
  end.

Definition head_rows (k : nat) (df : DataFrame) : DataFrame :=
  {| index := take k (index df); columns := col_take k <$> columns df |}.

(** The label the rule of lines 51-67 gives row [i] of the derived
    series. *)
Definition rule_at (config : Config)
    (vix_ma rate_change yield_change : list float) (i : nat) : Regime :=
  RegimeClassifier.regime_rule config (iloc vix_ma i) (iloc rate_change i)
    (iloc yield_change i).

(** What [classify] returns, from the series it read. *)
Definition classified (config : Config) (data : DataFrame)
    (fed_funds treasury vix_ma : list float) : DataFrame :=
  let lookback := QUARTERLY_LOOKBACK config in
  let rate_change := diff lookback fed_funds in
  let yield_change := diff lookback treasury in
  setitem
    (setitem
       (setitem
          (setitem data "RATE_CHANGE_QTR" (FloatCol rate_change))
          "YIELD_CHANGE_QTR" (FloatCol yield_change))
       "VIX_MA" (FloatCol vix_ma))
    "REGIME"
    (StrCol (RegimeClassifier.label_rows config (index data) vix_ma rate_change yield_change
               lookback (replicate (len data) (Some NORMAL)))).

(** ** Sample inputs *)

(** A two-day panel on which the policy rate jumps and volatility is high,
    classified with a one-day lookback. *)
Definition two_day_panel : DataFrame :=
  {| index := [0; 86400000000000]%Z;
     columns :=
       <["FED_FUNDS"%string := FloatCol [Some 1; Some 2]]>
       (<["TREASURY_10Y"%string := FloatCol [Some 3; Some 3]]>
       (<["VIX"%string := FloatCol [Some 40; Some 40]]> ∅)) |}.

Definition one_day_lookback : Config :=
  {| RATE_CHANGE_THRESHOLD := 20 / 100;
     VIX_STRESS_THRESHOLD := 25;
     VIX_LOOKBACK := 1;
     SHOCK_YIELD_THRESHOLD := 70 / 100;
     SHOCK_HORIZON := 1;
     SHOCK_LOOKBACK := 1;
     PORTFOLIO_WEIGHTS := [("SPY"%string, 1)];
     TICKERS := ["SPY"%string];
     ROLLING_CORR_WINDOW := 1;
     QUARTERLY_LOOKBACK := 1;
     ANNUALIZATION_FACTOR := 252 |}.


(** A labelled panel of two days, held by a classifier as its
    [regime_data]. *)
Definition labelled_panel : DataFrame :=
  {| index := [0; 86400000000000]%Z;
     columns :=
       <["REGIME"%string := StrCol [Some NORMAL; Some STRESS]]>
       (<["FED_FUNDS"%string := FloatCol [Some 1; Some 2]]>
       (<["TREASURY_10Y"%string := FloatCol [Some 3; Some 3]]>
       (<["VIX"%string := FloatCol [Some 40; Some 40]]> ∅))) |}.

Definition labelled_classifier : RegimeClassifier.t :=
  {| RegimeClassifier.data := 0%nat;
     RegimeClassifier.config := one_day_lookback;
     RegimeClassifier.regime_data := Some 1%nat |}.

Definition labelled_heap : gmap nat DataFrame :=
  <[1%nat := labelled_panel]> (<[0%nat := two_day_panel]> ∅).

(** The caller's view of a run: a panel is handed to a new classifier,
    [classify_regimes] returns the labelled panel, and
    [identify_regime_transitions] is called next. The result is the
    returned panel as it was when returned and as it is afterwards. *)
Definition returned_panel_around_transitions (config : Config)
    (data : DataFrame) : option (DataFrame * DataFrame) :=
  let '(self, h1) := RegimeClassifier.init data config ∅ in
  match RegimeClassifier.classify_regimes self h1 with
  | (Ok (r, self'), h2) =>
      let '(_, h3) := RegimeClassifier.identify_regime_transitions self' h2 in
      before ← h2 !! r; after ← h3 !! r; Some (before, after)
  | (Raise _, _) => None
  end.

(** ** Shock events *)

(** [b] lies more than 180 whole days after [a]: the test of line 41. *)
Definition far_after (a b : Timestamp) : Prop :=
  (RateShockAnalyzer.days (b - a) > 180)%Z.

Definition far_after_opt (last_shock : option Timestamp) (date : Timestamp)
  : Prop :=
  match last_shock with
  | None => True
  | Some last => far_after last date
  end.

(** What a produced response was read from. *)
Definition response_reads (config : Config) (df : DataFrame)
    (r : RateShockAnalyzer.ShockResponse) (shock_idx : nat) : Prop :=
  let horizon := SHOCK_HORIZON config in
  get_loc (index df) (RateShockAnalyzer.shock_date r) = Ok shock_idx /\
  (shock_idx + horizon <= len df - 1)%nat /\
  (shock_idx + horizon < len df)%nat /\
  (exists treasury,
     float_column df "TREASURY_10Y" = Ok treasury /\
     treasury !! shock_idx = Some (RateShockAnalyzer.start_yield r) /\
     treasury !! (shock_idx + horizon)%nat = Some (RateShockAnalyzer.end_yield r)) /\
  (forall key ret, (key, ret) ∈ RateShockAnalyzer.rets r ->
     exists ticker prices start_price end_price,
       ticker ∈ TICKERS config /\ key = RateShockAnalyzer.ret_key ticker /\
       float_column df ticker = Ok prices /\
       prices !! shock_idx = Some start_price /\
       prices !! (shock_idx + horizon)%nat = Some end_price /\
       ret = fmul (fsub (fdiv end_price start_price) (Some 1)) (Some 100)).

(** A panel whose long yield jumps by a point on the second and third
    day, read with a one-day lookback. *)
Definition shock_panel : DataFrame :=
  {| index := [0; 86400000000000; 172800000000000]%Z;
     columns :=
       <["TREASURY_10Y"%string := FloatCol [Some 1; Some 2; Some 3]]>
       (<["SPY"%string := FloatCol [Some 100; Some 110; Some 121]]> ∅) |}.

Definition shock_analyzer : RateShockAnalyzer.t :=
  RateShockAnalyzer.init shock_panel one_day_lookback.

(** The analyzer after [measure_shock_response] found no event to
    measure. *)
Definition analyzer_without_responses : RateShockAnalyzer.t :=
  (RateShockAnalyzer.measure_shock_response shock_analyzer (Some [])).2.

(** ** A performance table *)

(** Daily returns of a panel: every valid return of every asset is above
    -100%. *)
Definition returns_above_minus_one (df : DataFrame) : Prop :=
  forall ticker col x,
    float_column df (PerformanceAnalyzer.ret_col ticker) = Ok col ->
    Some x ∈ col -> -1 < x.

(** Ten NORMAL days on which SPY moves up and down by the same amounts:
    the mean return is zero, the volatility is not. *)
Definition balanced_returns : list (option R) :=
  [None; Some (7 / 1000); Some (-7 / 1000); Some (3 / 1000);
   Some (-3 / 1000); Some (2 / 1000); Some (-2 / 1000); Some (1 / 1000);
   Some (-1 / 1000); Some 0].

Definition balanced_panel : DataFrame :=
  {| index := [0; 1; 2; 3; 4; 5; 6; 7; 8; 9]%Z;
     columns :=
       <["REGIME"%string := StrCol (replicate 10 (Some NORMAL))]>
       (<["SPY_RET"%string := FloatCol balanced_returns]> ∅) |}.

Definition balanced_analyzer : PerformanceAnalyzer.t :=
  {| PerformanceAnalyzer.data := balanced_panel;
     PerformanceAnalyzer.config := one_day_lookback;
     PerformanceAnalyzer.returns_data := Some balanced_panel |}.

Definition balanced_record : PerformanceAnalyzer.PerformanceRecord :=
  PerformanceAnalyzer.make_record NORMAL "SPY"
    (PerformanceAnalyzer.metrics 252 (dropna balanced_returns)) 9.

(** Two rows that carry the same date, with high volatility throughout. *)
Definition repeated_date_panel : DataFrame :=
  {| index := [0; 0]%Z;
     columns :=
       <["FED_FUNDS"%string := FloatCol [Some 1; Some 1]]>
       (<["TREASURY_10Y"%string := FloatCol [Some 3; Some 3]]>
       (<["VIX"%string := FloatCol [Some 40; Some 40]]> ∅)) |}.

(** ** Runs of labels *)

(** The runs of a label sequence whose first run, so far [n] rows of
    [current], is still open. *)
Fixpoint runs_from (current : option Regime) (n : nat)
    (labels : list (option Regime)) : list (option Regime * nat) :=
  match labels with
  | [] => [(current, n)]
  | x :: labels' =>
      if RegimeClassifier.cell_eq x current
      then runs_from current (S n) labels'
      else (current, n) :: runs_from x 1 labels'
  end.

(** The rows a list of runs stands for. *)
Definition expand (runs : list (option Regime * nat)) : list (option Regime) :=
  concat (map (fun run => replicate run.2 run.1) runs).

(** The flags of the rows that differ from the row before them, [prev]
    being the row before the first. *)
Fixpoint starts_from (prev : option Regime) (labels : list (option Regime))
  : list bool :=
  match labels with
  | [] => []
  | x :: labels' => RegimeClassifier.cell_ne x prev :: starts_from x labels'
  end.

(** The column REGIME_SHIFT of line 137. *)
Definition regime_shift (labels : list (option Regime)) : list bool :=
  zip_with RegimeClassifier.cell_ne labels (shift 1 labels).

(** A labelled panel whose every row carries a label. *)
Definition fully_labelled (labels : list (option Regime)) : Prop :=
  Forall (fun x => is_Some x) labels.

Definition all_regimes : list Regime := [TIGHTENING; EASING; STRESS; NORMAL].

(** The days a summary gives a regime, none when the regime has no row. *)
Definition days_of (summary : Regime -> option RegimeClassifier.SummaryRow)
    (regime : Regime) : nat :=
  match summary regime with
  | Some row => RegimeClassifier.Days row
  | None => 0%nat
  end.

(** ** Reading a classified panel *)

(** The columns [classify_regimes] writes. *)
Definition derived_columns : list string :=
  ["RATE_CHANGE_QTR"; "YIELD_CHANGE_QTR"; "VIX_MA"; "REGIME"]%string.

(** The trailing change of the policy rate and of the long yield at row
    [i]. *)
Definition rate_change_at (df : DataFrame) (i : nat) : float :=
  match float_column df "RATE_CHANGE_QTR" with
  | Ok xs => mjoin (xs !! i)
  | Raise _ => NaN
  end.

Definition yield_change_at (df : DataFrame) (i : nat) : float :=
  match float_column df "YIELD_CHANGE_QTR" with
  | Ok xs => mjoin (xs !! i)
  | Raise _ => NaN
  end.

(** [two_day_panel] as [classify_regimes] labels it under
    [one_day_lookback]. *)
Definition two_day_classified : DataFrame :=
  classified one_day_lookback two_day_panel
    [Some 1; Some 2] [Some 3; Some 3] [Some (40 / 1); Some (40 / 1)].

(** [one_day_lookback] with the stress threshold raised to 50. *)
Definition high_threshold : Config :=
  {| RATE_CHANGE_THRESHOLD := 20 / 100;
     VIX_STRESS_THRESHOLD := 50;
     VIX_LOOKBACK := 1;
     SHOCK_YIELD_THRESHOLD := 70 / 100;
     SHOCK_HORIZON := 1;
     SHOCK_LOOKBACK := 1;
     PORTFOLIO_WEIGHTS := [("SPY"%string, 1)];
     TICKERS := ["SPY"%string];
     ROLLING_CORR_WINDOW := 1;
     QUARTERLY_LOOKBACK := 1;
     ANNUALIZATION_FACTOR := 252 |}.

(** ** Prices and returns *)

(** A price series without gaps whose every price is positive. *)
Definition positive_prices (prices : list (option R)) : Prop :=
  Forall (fun x => exists p, x = Some p /\ 0 < p) prices.

(** Every valid return of every asset of the panel satisfies [P]. *)
Definition returns_satisfy (P : R -> Prop) (df : DataFrame) : Prop :=
  forall ticker col x,
    float_column df (PerformanceAnalyzer.ret_col ticker) = Ok col ->
    Some x ∈ col -> P x.

(** The rows of a panel that carry the regime. *)
Definition regime_rows (labels : column) (regime : Regime) : nat :=
  length (filter (fun b => b = true)
                 (PerformanceAnalyzer.eq_mask labels regime)).

(** Three days of SPY prices, and the frame [calculate_returns] makes of
    them. *)
Definition priced_panel : DataFrame :=
  {| index := [0; 1; 2]%Z;
     columns := <["SPY"%string := FloatCol [Some 100; Some 110; Some 121]]> ∅ |}.

Definition priced_analyzer : PerformanceAnalyzer.t :=
  PerformanceAnalyzer.init priced_panel one_day_lookback.

Definition priced_returns : DataFrame :=
  setitem priced_panel "SPY_RET"
    (FloatCol (PerformanceAnalyzer.pct_change [Some 100; Some 110; Some 121])).

(** Ten NORMAL days on which SPY gains one percent every day. *)
Definition rising_returns : list (option R) :=
  None :: replicate 9 (Some (1 / 100)).

Definition rising_panel : DataFrame :=
  {| index := [0; 1; 2; 3; 4; 5; 6; 7; 8; 9]%Z;
     columns :=
       <["REGIME"%string := StrCol (replicate 10 (Some NORMAL))]>
       (<["SPY_RET"%string := FloatCol rising_returns]> ∅) |}.

Definition rising_analyzer : PerformanceAnalyzer.t :=
  {| PerformanceAnalyzer.data := rising_panel;
     PerformanceAnalyzer.config := one_day_lookback;
     PerformanceAnalyzer.returns_data := Some rising_panel |}.

Definition rising_record : PerformanceAnalyzer.PerformanceRecord :=
  PerformanceAnalyzer.make_record NORMAL "SPY"
    (PerformanceAnalyzer.metrics 252 (dropna rising_returns)) 9.

(** ** Portfolio returns *)

(** Every numeric column of the frame has a cell for every row. *)
Definition aligned (df : DataFrame) : Prop :=
  forall name col, float_column df name = Ok col -> length col = len df.

(** The return columns the weights ask for are numeric where present. *)
Definition numeric_returns (df : DataFrame) (weights : list (string * R))
  : Prop :=
  forall ticker weight, (ticker, weight) ∈ weights ->
    has_column df (PerformanceAnalyzer.ret_col ticker) = true ->
    is_Ok (float_column df (PerformanceAnalyzer.ret_col ticker)).

(** The weighted returns, at row [i], of the assets of the weights that
    the frame has a return column for. *)
Definition weighted_returns (df : DataFrame) (weights : list (string * R))
    (i : nat) : list float :=
  omap (fun entry : string * R =>
          match float_column df (PerformanceAnalyzer.ret_col entry.1) with
          | Ok col => Some (fmul (Some entry.2) (mjoin (col !! i)))
          | Raise _ => None
          end) weights.

(** The return of the portfolio at row [i]. *)
Definition portfolio_at (df : DataFrame) (i : nat) : float :=
  match float_column df "PORTFOLIO_RET" with
  | Ok xs => mjoin (xs !! i)
  | Raise _ => NaN
  end.

(** The return, at row [i], of an asset the frame has returns for. *)
Definition return_at (df : DataFrame) (ticker : string) (i : nat) : float :=
  match float_column df (PerformanceAnalyzer.ret_col ticker) with
  | Ok xs => mjoin (xs !! i)
  | Raise _ => NaN
  end.

(** The weights are shares of a fully invested portfolio without short
    positions. *)
Definition shares (weights : list (string * R)) : Prop :=
  Forall (fun entry : string * R => 0 <= entry.2) weights /\
  Rsum (map snd weights) = 1.

(** Two assets with returns on three days, held in equal parts. *)
Definition two_asset_returns : DataFrame :=
  {| index := [0; 1; 2]%Z;
     columns :=
       <["SPY_RET"%string := FloatCol [None; Some (2 / 100); Some (-4 / 100)]]>
       (<["TLT_RET"%string := FloatCol [None; Some (-1 / 100); Some (2 / 100)]]>
          ∅) |}.

Definition equal_weights : list (string * R) :=
  [("SPY"%string, 1 / 2); ("TLT"%string, 1 / 2)].

Definition two_asset_analyzer : PerformanceAnalyzer.t :=
  {| PerformanceAnalyzer.data := two_asset_returns;
     PerformanceAnalyzer.config := one_day_lookback;
     PerformanceAnalyzer.returns_data := Some two_asset_returns |}.

(** ** Shock detection and shock responses *)

(** The series the shock analyzer reads are numeric: the long yield is
    there, and so is every asset of the configuration that the panel has a
    column for. *)
Definition shock_columns (config : Config) (df : DataFrame) : Prop :=
  is_Ok (float_column df "TREASURY_10Y") /\
  forall ticker, ticker ∈ TICKERS config -> has_column df ticker = true ->
    is_Ok (float_column df ticker).

(** The date is a row of the panel that has the whole forward horizon
    below it. *)
Definition measurable (config : Config) (df : DataFrame) (d : Timestamp)
  : bool :=
  match get_loc (index df) d with
  | Ok i => bool_decide (i + SHOCK_HORIZON config < len df)%nat
  | Raise _ => false
  end.

(** A panel without the long yield. *)
Definition prices_only_panel : DataFrame :=
  {| index := [0; 86400000000000; 172800000000000]%Z;
     columns := <["SPY"%string := FloatCol [Some 100; Some 110; Some 121]]> ∅ |}.

Definition prices_only_analyzer : RateShockAnalyzer.t :=
  RateShockAnalyzer.init prices_only_panel one_day_lookback.

(** ** Stress test *)

(** Every return of every response is a number. *)
Definition finite_responses (responses : list RateShockAnalyzer.ShockResponse)
  : Prop :=
  Forall (fun row =>
            Forall (fun cell : string * option R => is_Some cell.2)
                   (RateShockAnalyzer.rets row))
         responses.

(** The response to the second day of [shock_panel]. *)
Definition second_day_response : RateShockAnalyzer.ShockResponse :=
  {| RateShockAnalyzer.shock_date := 86400000000000%Z;
     RateShockAnalyzer.start_yield := Some 2;
     RateShockAnalyzer.end_yield := Some 3;
     RateShockAnalyzer.rets :=
       [("SPY_ret"%string, Some ((121 / 110 - 1) * 100))] |}.
(** * Proofs *)

(** ** Series operations on a prefix of the rows *)

Section SeriesPrefix.
Context {A : Type}.

Lemma take_shift (n k : nat) (xs : list (option A)) :
  take n (shift k xs) = shift k (take n xs).
Proof.
  unfold shift. rewrite take_take, length_take.
  destruct (decide (n <= length xs)%nat) as [Hle|Hgt].
  - rewrite !Nat.min_l by lia.
    rewrite !take_app. f_equal.
    rewrite take_take. f_equal; lia.
  - by rewrite (take_ge xs n) by lia.
Qed.

Lemma length_shift (k : nat) (xs : list (option A)) :
  length (shift k xs) = length xs.
Proof.
  unfold shift. rewrite length_take, length_app, length_replicate. lia.
Qed.

Lemma shift_lookup_lt (k i : nat) (xs : list (option A)) :
  (i < k)%nat -> (i < length xs)%nat -> shift k xs !! i = Some None.
Proof.
  intros Hk Hi. unfold shift. rewrite lookup_take_lt by lia.
  rewrite lookup_app_l by (rewrite length_replicate; lia).
  apply lookup_replicate_2. lia.
Qed.

Lemma shift_lookup_ge (k i : nat) (xs : list (option A)) :
  (k <= i)%nat -> (i < length xs)%nat -> shift k xs !! i = xs !! (i - k)%nat.
Proof.
  intros Hk Hi. unfold shift. rewrite lookup_take_lt by lia.
  rewrite lookup_app_r by (rewrite length_replicate; lia).
  by rewrite length_replicate.
Qed.

Lemma window_take (w i n : nat) (xs : list A) :
  (i < n)%nat -> window w i (take n xs) = window w i xs.
Proof.
  intros Hi. unfold window. rewrite take_take. do 2 f_equal. lia.
Qed.

(** A mask that is true on the first [k] rows and false below keeps the
    first [k] rows. *)
Lemma select_prefix (k m : nat) (xs : list A) :
  select (replicate k true ++ replicate m false) xs = take k xs.
Proof.
  revert xs. induction k as [|k IH]; intros xs; simpl.
  - rewrite take_0. revert xs.
    induction m as [|m IHm]; intros [|x xs]; simpl; auto.
  - destruct xs as [|x xs]; simpl; [done|]. by rewrite IH.
Qed.

Lemma select_length_le (mask : list bool) (xs : list A) :
  (length (select mask xs) <= length xs)%nat.
Proof.
  revert xs. induction mask as [|b mask IH]; intros [|x xs]; simpl; try lia.
  destruct b; simpl; specialize (IH xs); lia.
Qed.
End SeriesPrefix.

Lemma take_diff (n k : nat) (xs : list float) :
  take n (diff k xs) = diff k (take n xs).
Proof. unfold diff. by rewrite zip_with_take, take_shift. Qed.

Lemma length_diff (k : nat) (xs : list float) : length (diff k xs) = length xs.
Proof. unfold diff. rewrite length_zip_with, length_shift. lia. Qed.

Lemma take_rolling_mean (n w m : nat) (xs : list float) :
  take n <$> rolling_mean w m xs = rolling_mean w m (take n xs).
Proof.
  unfold rolling_mean. destruct (decide (w < m)%nat); [done|].
  simpl. f_equal.
  change (take n ((fun i => window_mean m (window w i xs))
                    <$> seq 0 (length xs))
          = (fun i => window_mean m (window w i (take n xs)))
              <$> seq 0 (length (take n xs))).
  rewrite <- fmap_take, take_seq, length_take.
  apply list_fmap_ext. intros j i Hi.
  apply lookup_seq in Hi as [-> Hlt]. simpl.
  rewrite window_take; [done|lia].
Qed.

Lemma length_rolling_mean (w m : nat) (xs ys : list float) :
  rolling_mean w m xs = Ok ys -> length ys = length xs.
Proof.
  unfold rolling_mean. destruct (decide (w < m)%nat); [done|].
  intros [= <-]. by rewrite length_map, length_seq.
Qed.

(** ** The labelling loop *)

Section Labelling.
Import RegimeClassifier.

(** With unique labels the write of line 69 touches row [i] only. *)
Lemma loc_set_unique {A} (idx : list Timestamp) (i : nat) (v : A)
    (xs : list A) :
  NoDup idx -> length xs = length idx -> (i < length idx)%nat ->
  loc_set idx (iloc idx i) v xs = <[i := v]> xs.
Proof.
  intros Hnd Hlen Hi. unfold loc_set, iloc.
  destruct (lookup_lt_is_Some_2 idx i Hi) as [d Hd].
  rewrite (list_lookup_total_correct _ _ _ Hd).
  apply list_eq. intros j.
  rewrite lookup_zip_with.
  destruct (idx !! j) as [dj|] eqn:Hj; simpl.
  - destruct (xs !! j) as [old|] eqn:Hx; simpl.
    + destruct (decide (dj = d)) as [->|Hne].
      * rewrite (NoDup_lookup _ _ _ _ Hnd Hj Hd).
        by rewrite list_lookup_insert_eq by lia.
      * rewrite list_lookup_insert_ne; [done|].
        intros <-. congruence.
    + apply lookup_ge_None in Hx. apply lookup_lt_Some in Hj. lia.
  - apply lookup_ge_None in Hj. symmetry. apply lookup_ge_None.
    rewrite length_insert. lia.
Qed.

Variable config : Config.
Variables (idx : list Timestamp) (vix_ma rate_change yield_change : list float).
Hypothesis idx_unique : NoDup idx.

Local Abbreviation rule_at :=
  (rule_at config vix_ma rate_change yield_change).

Lemma label_rows_prefix (lookback m : nat) (regime : list (option Regime)) :
  length regime = length idx -> (lookback + m <= length idx)%nat ->
  let out := foldl (label_row config idx vix_ma rate_change yield_change)
                   regime (seq lookback m) in
  length out = length idx /\
  forall j, out !! j =
    if decide (lookback <= j < lookback + m)%nat
    then Some (Some (rule_at j)) else regime !! j.
Proof.
  intros Hlen. induction m as [|m IH]; intros Hm; cbv zeta.
  - simpl. split; [done|]. intros j. case_decide; [lia|done].
  - rewrite seq_S, foldl_app. simpl.
    destruct IH as [IHlen IHj]; [lia|].
    unfold label_row at 1 3. rewrite !loc_set_unique by (done || lia).
    split; [by rewrite length_insert|].
    intros j. destruct (decide (j = lookback + m)%nat) as [->|Hne].
    + rewrite list_lookup_insert_eq by lia.
      case_decide; [done|lia].
    + rewrite list_lookup_insert_ne by done. rewrite IHj.
      repeat case_decide; (done || lia).
Qed.

(** The labels after the loop: NORMAL above the lookback horizon, the
    rule from there on. *)
Lemma label_rows_lookup (lookback j : nat) :
  (j < length idx)%nat ->
  label_rows config idx vix_ma rate_change yield_change lookback
             (replicate (length idx) (Some NORMAL)) !! j =
  Some (Some (if decide (j < lookback)%nat then NORMAL else rule_at j)).
Proof.
  intros Hj. unfold label_rows.
  destruct (decide (lookback <= length idx)%nat) as [Hle|Hgt].
  - destruct (label_rows_prefix lookback (length idx - lookback)
                (replicate (length idx) (Some NORMAL))) as [_ ->].
    + by rewrite length_replicate.
    + lia.
    + repeat case_decide; try lia; [done|].
      by rewrite lookup_replicate_2 by lia.
  - replace (length idx - lookback)%nat with 0%nat by lia. simpl.
    rewrite lookup_replicate_2 by lia. case_decide; [done|lia].
Qed.

Lemma label_rows_length (lookback : nat) :
  length (label_rows config idx vix_ma rate_change yield_change lookback
                     (replicate (length idx) (Some NORMAL))) = length idx.
Proof.
  unfold label_rows.
  destruct (decide (lookback <= length idx)%nat) as [Hle|Hgt].
  - apply label_rows_prefix; [by rewrite length_replicate|lia].
  - replace (length idx - lookback)%nat with 0%nat by lia. simpl.
    by rewrite length_replicate.
Qed.
End Labelling.

(** ** Classification of a panel *)

Section Classification.
Import RegimeClassifier.

Lemma float_column_Some (df : DataFrame) (name : string) (xs : list float) :
  float_column df name = Ok xs <-> columns df !! name = Some (FloatCol xs).
Proof.
  unfold float_column, getitem. destruct (columns df !! name) as [[]|];
    simpl; split; intros H; try discriminate; by inversion H.
Qed.

Lemma float_column_setitem_ne (df : DataFrame) (name other : string)
    (c : column) :
  other <> name ->
  float_column (setitem df other c) name = float_column df name.
Proof.
  intros Hne. unfold float_column, getitem, setitem. simpl.
  by rewrite lookup_insert_ne.
Qed.

Lemma classify_inv (config : Config) (data df : DataFrame) :
  classify config data = Ok df ->
  exists fed_funds treasury vix vix_ma,
    float_column data "FED_FUNDS" = Ok fed_funds /\
    float_column data "TREASURY_10Y" = Ok treasury /\
    float_column data "VIX" = Ok vix /\
    rolling_mean (VIX_LOOKBACK config) 1 vix = Ok vix_ma /\
    df = classified config data fed_funds treasury vix_ma.
Proof.
  unfold classify.
  destruct (float_column data "FED_FUNDS") as [fed|] eqn:Hfed; [|done].
  simpl. rewrite float_column_setitem_ne by done.
  destruct (float_column data "TREASURY_10Y") as [tsy|] eqn:Htsy; [|done].
  simpl. rewrite !float_column_setitem_ne by done.
  destruct (float_column data "VIX") as [vix|] eqn:Hvix; [|done].
  simpl.
  destruct (rolling_mean (VIX_LOOKBACK config) 1 vix) as [ma|] eqn:Hma;
    [|done].
  simpl. intros [= <-]. by exists fed, tsy, vix, ma.
Qed.

Lemma classify_eq (config : Config) (data : DataFrame)
    (fed_funds treasury vix vix_ma : list float) :
  float_column data "FED_FUNDS" = Ok fed_funds ->
  float_column data "TREASURY_10Y" = Ok treasury ->
  float_column data "VIX" = Ok vix ->
  rolling_mean (VIX_LOOKBACK config) 1 vix = Ok vix_ma ->
  classify config data = Ok (classified config data fed_funds treasury vix_ma).
Proof.
  intros Hfed Htsy Hvix Hma. unfold classify.
  rewrite Hfed. simpl. rewrite float_column_setitem_ne by done.
  rewrite Htsy. simpl. rewrite !float_column_setitem_ne by done.
  rewrite Hvix. simpl. by rewrite Hma.
Qed.

Lemma classify_total (config : Config) (data : DataFrame) :
  macro_columns data -> (1 <= VIX_LOOKBACK config)%nat ->
  exists df, classify config data = Ok df.
Proof.
  intros ([fed Hfed] & [tsy Htsy] & [vix Hvix]) Hw. unfold classify.
  rewrite Hfed. simpl. rewrite float_column_setitem_ne by done.
  rewrite Htsy. simpl. rewrite !float_column_setitem_ne by done.
  rewrite Hvix. simpl. unfold rolling_mean.
  destruct (decide (VIX_LOOKBACK config < 1)%nat); [lia|].
  simpl. eauto.
Qed.

Lemma regime_at_classified (config : Config) (data : DataFrame)
    (fed_funds treasury vix_ma : list float) (i : nat) :
  NoDup (index data) -> (i < len data)%nat ->
  regime_at (classified config data fed_funds treasury vix_ma) i =
  Some (if decide (i < QUARTERLY_LOOKBACK config)%nat then NORMAL
        else rule_at config vix_ma
               (diff (QUARTERLY_LOOKBACK config) fed_funds)
               (diff (QUARTERLY_LOOKBACK config) treasury) i).
Proof.
  intros Hnd Hi. unfold regime_at, classified, str_column, getitem, setitem.
  simpl. rewrite lookup_insert_eq. simpl. unfold len.
  by rewrite label_rows_lookup.
Qed.

Lemma vix_ma_at_classified (config : Config) (data : DataFrame)
    (fed_funds treasury vix_ma : list float) (i : nat) :
  vix_ma_at (classified config data fed_funds treasury vix_ma) i =
  mjoin (vix_ma !! i).
Proof.
  unfold vix_ma_at, classified.
  rewrite float_column_setitem_ne by done.
  unfold float_column, getitem, setitem. simpl.
  by rewrite lookup_insert_eq.
Qed.
End Classification.

(** C8. Warm-up default label: on a panel with unique dates, the macro
    series present and a volatility window of at least one day,
    [classify_regimes] succeeds and labels NORMAL every row whose
    position is below [QUARTERLY_LOOKBACK]. *)
Theorem warmup_rows_are_normal (config : Config) (data : DataFrame) :
  macro_columns data -> (1 <= VIX_LOOKBACK config)%nat ->
  NoDup (index data) ->
  exists df,
    RegimeClassifier.classify config data = Ok df /\
    len df = len data /\
    forall i, (i < QUARTERLY_LOOKBACK config)%nat -> (i < len data)%nat ->
              regime_at df i = Some NORMAL.
Proof.
  intros Hcols Hw Hnd.
  destruct (classify_total config data Hcols Hw) as [df Hdf].
  exists df. split; [done|].
  destruct (classify_inv _ _ _ Hdf) as (fed & tsy & vix & ma & _ & _ & _ & _ & ->).
  split; [done|]. intros i Hi Hlen.
  rewrite regime_at_classified by done. by rewrite decide_True.
Qed.

Lemma two_day_panel_macro_columns : macro_columns two_day_panel.
Proof. repeat split; eexists; reflexivity. Qed.

Lemma two_day_panel_unique : NoDup (index two_day_panel).
Proof. apply (bool_decide_unpack _). by vm_compute. Qed.

(** The first day of [two_day_panel] under a one-day lookback. *)
Lemma warmup_rows_are_normal_witness :
  exists df,
    RegimeClassifier.classify one_day_lookback two_day_panel = Ok df /\
    len df = len two_day_panel /\
    forall i, (i < QUARTERLY_LOOKBACK one_day_lookback)%nat ->
              (i < len two_day_panel)%nat ->
              regime_at df i = Some NORMAL.
Proof.
  apply (warmup_rows_are_normal one_day_lookback two_day_panel).
  - exact two_day_panel_macro_columns.
  - simpl. lia.
  - exact two_day_panel_unique.
Defined.

(** C2. Regime priority: on a panel with unique dates, a row at or after
    the lookback horizon whose volatility moving average exceeds the
    stress threshold is labelled STRESS, whatever its trailing rate and
    yield changes are. *)
Theorem stress_overrides_rate_moves (config : Config) (data df : DataFrame)
    (i : nat) :
  RegimeClassifier.classify config data = Ok df ->
  NoDup (index data) ->
  (QUARTERLY_LOOKBACK config <= i)%nat -> (i < len data)%nat ->
  float_gt (vix_ma_at df i) (VIX_STRESS_THRESHOLD config) = true ->
  regime_at df i = Some STRESS.
Proof.
  intros Hdf Hnd Hlb Hlen Hvix.
  destruct (classify_inv _ _ _ Hdf)
    as (fed & tsy & vix & ma & _ & _ & _ & Hma & ->).
  rewrite vix_ma_at_classified in Hvix.
  rewrite regime_at_classified by done.
  rewrite decide_False by lia. f_equal.
  unfold rule_at, RegimeClassifier.regime_rule, iloc.
  apply length_rolling_mean in Hma.
  rewrite list_lookup_total_alt.
  destruct (ma !! i) as [[v|]|]; simpl in *; try discriminate.
  by rewrite Hvix.
Qed.

(** On the second day of [two_day_panel] the policy rate has risen by a
    full point, more than the threshold, and the label is still STRESS. *)
Lemma stress_overrides_rate_moves_witness :
  float_gt (mjoin (diff 1 [Some 1; Some 2] !! 1%nat))
           (RATE_CHANGE_THRESHOLD one_day_lookback) = true /\
  regime_at (classified one_day_lookback two_day_panel
               [Some 1; Some 2] [Some 3; Some 3]
               [Some (40 / 1); Some (40 / 1)]) 1 = Some STRESS.
Proof.
  split.
  - simpl. apply bool_decide_eq_true. lra.
  - apply (stress_overrides_rate_moves one_day_lookback two_day_panel).
    + apply (classify_eq _ _ _ _ [Some 40; Some 40]); try reflexivity.
      unfold rolling_mean, window_mean, window, Rsum. simpl.
      repeat f_equal; lra.
    + exact two_day_panel_unique.
    + simpl. lia.
    + unfold len. simpl. lia.
    + rewrite vix_ma_at_classified. simpl.
      apply bool_decide_eq_true. lra.
Defined.

(** ** Truncating a panel *)

Section Truncation.
Import RegimeClassifier.

Lemma increasing_NoDup (idx : list Timestamp) : increasing idx -> NoDup idx.
Proof.
  induction 1 as [|d idx Hs IH Hall]; constructor; [|done].
  intros Hin. rewrite Forall_forall in Hall.
  specialize (Hall d Hin). lia.
Qed.

(** On increasing dates, [d <= t] holds on a prefix of the rows. *)
Lemma date_mask_prefix (t : Timestamp) (idx : list Timestamp) :
  increasing idx ->
  exists k, (k <= length idx)%nat /\
    map (fun d => bool_decide (d <= t)%Z) idx =
      replicate k true ++ replicate (length idx - k) false /\
    forall i d, idx !! i = Some d -> ((d <= t)%Z <-> (i < k)%nat).
Proof.
  induction 1 as [|d idx Hs IH Hall].
  - exists 0%nat. repeat split; try done; simpl; lia.
  - destruct (decide (d <= t)%Z) as [Hle|Hgt].
    + destruct IH as (k & Hk & Hmask & Hpos). exists (S k).
      split; [simpl; lia|]. split.
      * simpl. rewrite bool_decide_eq_true_2 by done. by rewrite Hmask.
      * intros [|i] d' Hd'; simpl in Hd'.
        -- inversion Hd'; subst. split; [lia|done].
        -- rewrite (Hpos i d' Hd'). lia.
    + exists 0%nat. split; [lia|]. split.
      * simpl. rewrite bool_decide_eq_false_2 by done. f_equal.
        rewrite Forall_forall in Hall. clear -Hall Hgt.
        induction idx as [|d' idx IH]; [done|]. simpl.
        rewrite bool_decide_eq_false_2.
        -- f_equal. apply IH. intros x Hx. apply Hall. by right.
        -- specialize (Hall d' ltac:(by left)). lia.
      * intros [|i] d' Hd'; simpl in Hd'.
        -- inversion Hd'; subst. split; [done|lia].
        -- rewrite Forall_forall in Hall.
           assert (d < d')%Z
             by (apply Hall; eapply list_elem_of_lookup_2; eauto).
           lia.
Qed.

Lemma col_select_prefix (k m : nat) (c : column) :
  col_select (replicate k true ++ replicate m false) c = col_take k c.
Proof. destruct c; simpl; by rewrite select_prefix. Qed.

Lemma truncate_head_rows (t : Timestamp) (idx : list Timestamp) :
  increasing idx ->
  exists k, (k <= length idx)%nat /\
    (forall df, index df = idx -> truncate t df = head_rows k df) /\
    forall i d, idx !! i = Some d -> ((d <= t)%Z <-> (i < k)%nat).
Proof.
  intros Hinc. destruct (date_mask_prefix t _ Hinc) as (k & Hk & Hmask & Hpos).
  exists k. split; [done|]. split; [|done]. intros df <-.
  unfold truncate, df_select, head_rows. rewrite Hmask. f_equal.
  - apply select_prefix.
  - apply map_fmap_ext. intros name c _. apply col_select_prefix.
Qed.

Lemma str_column_head_rows (k : nat) (df : DataFrame) (name : string) :
  str_column (head_rows k df) name = take k <$> str_column df name.
Proof.
  unfold str_column, getitem, head_rows. simpl. rewrite lookup_fmap.
  by destruct (columns df !! name) as [[]|].
Qed.

Lemma regime_at_head_rows (k i : nat) (df : DataFrame) :
  (i < k)%nat -> regime_at (head_rows k df) i = regime_at df i.
Proof.
  intros Hi. unfold regime_at. rewrite str_column_head_rows.
  destruct (str_column df "REGIME") as [regime|]; [|done]. simpl.
  by rewrite lookup_take_lt.
Qed.

Lemma float_column_head_rows (k : nat) (df : DataFrame) (name : string) :
  float_column (head_rows k df) name = take k <$> float_column df name.
Proof.
  unfold float_column, getitem, head_rows. simpl. rewrite lookup_fmap.
  by destruct (columns df !! name) as [[]|].
Qed.

Lemma head_rows_setitem (k : nat) (df : DataFrame) (name : string)
    (c : column) :
  head_rows k (setitem df name c) = setitem (head_rows k df) name (col_take k c).
Proof. unfold head_rows, setitem. simpl. by rewrite fmap_insert. Qed.

Lemma NoDup_take {A} (k : nat) (xs : list A) : NoDup xs -> NoDup (take k xs).
Proof.
  intros Hnd. rewrite <- (take_drop k xs) in Hnd.
  by apply NoDup_app in Hnd as [? _].
Qed.

Lemma rule_at_take (config : Config) (k i : nat)
    (vix_ma rate_change yield_change : list float) :
  (i < k)%nat ->
  rule_at config (take k vix_ma) (take k rate_change) (take k yield_change) i
  = rule_at config vix_ma rate_change yield_change i.
Proof.
  intros Hi. unfold rule_at, iloc.
  by rewrite !lookup_total_take_lt by done.
Qed.

(** The labelling loop on the first [k] rows gives the first [k] labels
    of the loop on all rows. *)
Lemma label_rows_take (config : Config) (k lookback : nat)
    (idx : list Timestamp) (vix_ma rate_change yield_change : list float) :
  NoDup idx ->
  label_rows config (take k idx) (take k vix_ma) (take k rate_change)
    (take k yield_change) lookback
    (replicate (length (take k idx)) (Some NORMAL))
  = take k (label_rows config idx vix_ma rate_change yield_change lookback
              (replicate (length idx) (Some NORMAL))).
Proof.
  intros Hnd. apply list_eq. intros j.
  destruct (decide (j < length (take k idx))%nat) as [Hj|Hj].
  - rewrite label_rows_lookup by (done || by apply NoDup_take).
    rewrite length_take in Hj.
    rewrite lookup_take_lt by lia.
    rewrite label_rows_lookup by (done || lia).
    case_decide; [done|]. by rewrite rule_at_take by lia.
  - rewrite lookup_ge_None_2
      by (rewrite label_rows_length; [lia|by apply NoDup_take]).
    symmetry. apply lookup_ge_None_2.
    rewrite length_take, label_rows_length by done.
    rewrite length_take in Hj. lia.
Qed.

(** Classifying the first [k] rows gives the first [k] rows of the
    classified panel, derived columns included. *)
Lemma classify_head_rows (config : Config) (k : nat) (data : DataFrame) :
  NoDup (index data) ->
  classify config (head_rows k data) = head_rows k <$> classify config data.
Proof.
  intros Hnd. unfold classify.
  rewrite float_column_head_rows.
  destruct (float_column data "FED_FUNDS") as [fed|]; [|done]. simpl.
  rewrite !float_column_setitem_ne by done. rewrite float_column_head_rows.
  destruct (float_column data "TREASURY_10Y") as [tsy|]; [|done]. simpl.
  rewrite !float_column_setitem_ne by done. rewrite float_column_head_rows.
  destruct (float_column data "VIX") as [vix|]; [|done]. simpl.
  rewrite <- take_rolling_mean.
  destruct (rolling_mean (VIX_LOOKBACK config) 1 vix) as [ma|]; [|done].
  simpl. f_equal. rewrite !head_rows_setitem. simpl.
  unfold len. simpl. rewrite <- !take_diff.
  by rewrite label_rows_take.
Qed.

Lemma positions_unique (d : Timestamp) (idx : list Timestamp) (i s : nat) :
  NoDup idx -> idx !! i = Some d -> positions d idx s = [(s + i)%nat].
Proof.
  intros Hnd. revert i s.
  induction Hnd as [|d' idx Hnotin Hnd IH]; intros i s Hi; [done|].
  simpl. destruct i as [|i]; simpl in Hi.
  - inversion Hi; subst. rewrite decide_True by done. f_equal; [lia|].
    clear -Hnotin. revert s.
    induction idx as [|x idx IH]; intros s; [done|]. simpl.
    rewrite decide_False by (intros ->; apply Hnotin; by left).
    apply IH. intros Hin. apply Hnotin. by right.
  - rewrite decide_False.
    + rewrite (IH i (S s) Hi). f_equal. lia.
    + intros ->. apply Hnotin. eapply list_elem_of_lookup_2; eauto.
Qed.

Lemma get_loc_unique (idx : list Timestamp) (i : nat) (d : Timestamp) :
  NoDup idx -> idx !! i = Some d -> get_loc idx d = Ok i.
Proof.
  intros Hnd Hi. unfold get_loc. by rewrite (positions_unique d idx i 0).
Qed.
End Truncation.

Lemma regime_on_regime_at (df : DataFrame) (i : nat) (d : Timestamp) :
  NoDup (index df) -> index df !! i = Some d ->
  regime_on (Ok df) d = regime_at df i.
Proof.
  intros Hnd Hi. unfold regime_on, regime_at.
  rewrite (get_loc_unique _ _ _ Hnd Hi).
  by destruct (str_column df "REGIME").
Qed.

(** C1. Regime labelling is causal: on a panel with increasing dates,
    classifying the panel truncated to the dates up to [t] yields exactly
    the classified full panel truncated to those dates, so every date
    [d <= t] of the panel gets the same label from both. *)
Theorem classification_is_causal (config : Config) (data : DataFrame)
    (t : Timestamp) :
  increasing (index data) -> macro_columns data ->
  (1 <= VIX_LOOKBACK config)%nat ->
  RegimeClassifier.classify config (truncate t data)
    = truncate t <$> RegimeClassifier.classify config data /\
  forall d, d ∈ index data -> (d <= t)%Z ->
    exists label,
      regime_on (RegimeClassifier.classify config data) d = Some label /\
      regime_on (RegimeClassifier.classify config (truncate t data)) d
        = Some label.
Proof.
  intros Hinc Hcols Hw.
  pose proof (increasing_NoDup _ Hinc) as Hnd.
  destruct (truncate_head_rows t _ Hinc) as (k & Hk & Htrunc & Hpos).
  destruct (classify_total config data Hcols Hw) as [full Hfull].
  assert (Hidx : index full = index data).
  { by destruct (classify_inv _ _ _ Hfull) as (? & ? & ? & ? & _ & _ & _ & _ & ->). }
  assert (Heq : RegimeClassifier.classify config (truncate t data)
                = Ok (head_rows k full)).
  { rewrite (Htrunc data eq_refl), classify_head_rows by done.
    by rewrite Hfull. }
  split.
  - rewrite Heq, Hfull. simpl. f_equal. symmetry. by apply Htrunc.
  - intros d Hd Hle. apply list_elem_of_lookup_1 in Hd as [i Hi].
    assert (Hik : (i < k)%nat) by (by apply (Hpos i d)).
    rewrite Heq, Hfull.
    rewrite (regime_on_regime_at full i d) by (by rewrite Hidx).
    rewrite (regime_on_regime_at (head_rows k full) i d).
    + rewrite regime_at_head_rows by done.
      destruct (classify_inv _ _ _ Hfull)
        as (fed & tsy & vix & ma & _ & _ & _ & _ & ->).
      rewrite regime_at_classified by (done || (apply lookup_lt_Some in Hi; done)).
      eauto.
    + simpl. rewrite Hidx. by apply NoDup_take.
    + simpl. rewrite Hidx. by rewrite lookup_take_lt.
Qed.

Lemma two_day_panel_increasing : increasing (index two_day_panel).
Proof. apply (bool_decide_unpack _). by vm_compute. Qed.

(** [two_day_panel] truncated to its first day. *)
Lemma classification_is_causal_witness :
  RegimeClassifier.classify one_day_lookback (truncate 0 two_day_panel)
    = truncate 0 <$> RegimeClassifier.classify one_day_lookback two_day_panel /\
  forall d, d ∈ index two_day_panel -> (d <= 0)%Z ->
    exists label,
      regime_on (RegimeClassifier.classify one_day_lookback two_day_panel) d
        = Some label /\
      regime_on
        (RegimeClassifier.classify one_day_lookback (truncate 0 two_day_panel))
        d = Some label.
Proof.
  apply (classification_is_causal one_day_lookback two_day_panel 0).
  - exact two_day_panel_increasing.
  - exact two_day_panel_macro_columns.
  - simpl. lia.
Defined.

(** ** Regime transitions *)

Section Transitions.
Import RegimeClassifier.

Lemma cell_ne_NaN_r (a : option Regime) : cell_ne a None = true.
Proof. by destruct a. Qed.

(** The first row always differs from its missing predecessor. *)
Lemma regime_shift_head (r0 : option Regime) (regime : list (option Regime)) :
  zip_with cell_ne (r0 :: regime) (shift 1 (r0 :: regime))
  = true :: zip_with cell_ne regime (take (length regime) (r0 :: regime)).
Proof. unfold shift. simpl. by rewrite cell_ne_NaN_r. Qed.

Lemma getitem_transitions (df : DataFrame) (mask flags : list bool)
    (prev : list (option Regime)) (name : string) (c : column) :
  name <> "PREV_REGIME"%string -> name <> "REGIME_SHIFT"%string ->
  columns df !! name = Some c ->
  getitem
    (setitem (df_select mask (setitem df "REGIME_SHIFT" (BoolCol flags)))
             "PREV_REGIME" (StrCol prev)) name
  = Ok (col_select mask c).
Proof.
  intros Hn1 Hn2 Hc. unfold getitem, setitem, df_select. simpl.
  rewrite lookup_insert_ne by done. rewrite lookup_fmap.
  rewrite lookup_insert_ne by done. by rewrite Hc.
Qed.
End Transitions.

(** C10. For a non-empty labelled panel, [identify_regime_transitions]
    returns a frame whose first row is the panel's first date, with the
    panel's first label and an undefined (NaN) previous regime; so the
    transitions are never empty. *)
Theorem first_date_is_a_transition (self : RegimeClassifier.t)
    (h : gmap nat DataFrame) (r : nat) (df : DataFrame)
    (regime : list (option Regime)) (d0 : Timestamp) (later : list Timestamp) :
  RegimeClassifier.regime_data self = Some r ->
  h !! r = Some df ->
  str_column df "REGIME" = Ok regime ->
  length regime = len df ->
  index df = d0 :: later ->
  is_Some (columns df !! "VIX"%string) ->
  is_Some (columns df !! "FED_FUNDS"%string) ->
  is_Some (columns df !! "TREASURY_10Y"%string) ->
  exists transitions h' labels prevs,
    RegimeClassifier.identify_regime_transitions self h = (Ok transitions, h') /\
    head (index transitions) = Some d0 /\
    str_column transitions "REGIME" = Ok labels /\
    head labels = head regime /\
    str_column transitions "PREV_REGIME" = Ok prevs /\
    head prevs = Some None /\
    (0 < len transitions)%nat.
Proof.
  intros Hself Hh Hreg Hlen Hidx [vix Hvix] [fed Hfed] [tsy Htsy].
  unfold RegimeClassifier.identify_regime_transitions, Heap.deref.
  rewrite Hself, Hh, Hreg.
  destruct regime as [|r0 regime];
    [unfold len in Hlen; rewrite Hidx in Hlen; done|].
  rewrite regime_shift_head.
  set (mask := true :: _).
  assert (Hcol : columns df !! "REGIME"%string = Some (StrCol (r0 :: regime))).
  { unfold str_column, getitem in Hreg.
    destruct (columns df !! "REGIME"%string) as [[]|]; simpl in Hreg;
      try discriminate. by inversion Hreg. }
  unfold RegimeClassifier.project. simpl mapM.
  rewrite (getitem_transitions df mask _ _ "REGIME" _) by done.
  rewrite (getitem_transitions df mask _ _ "VIX" _ ltac:(done) ltac:(done) Hvix).
  rewrite (getitem_transitions df mask _ _ "FED_FUNDS" _
             ltac:(done) ltac:(done) Hfed).
  rewrite (getitem_transitions df mask _ _ "TREASURY_10Y" _
             ltac:(done) ltac:(done) Htsy).
  unfold getitem at 1. simpl. rewrite lookup_insert_eq. simpl.
  eexists _, _, _, _. split; [reflexivity|].
  unfold str_column, getitem, len. simpl. rewrite Hidx.
  rewrite lookup_insert_eq. rewrite lookup_insert_ne by done.
  rewrite lookup_insert_eq. simpl.
  repeat split; try done. lia.
Qed.

(** The transitions of [labelled_panel]. *)
Lemma first_date_is_a_transition_witness :
  exists transitions h' labels prevs,
    RegimeClassifier.identify_regime_transitions
      labelled_classifier labelled_heap = (Ok transitions, h') /\
    head (index transitions) = Some 0%Z /\
    str_column transitions "REGIME" = Ok labels /\
    head labels = head [Some NORMAL; Some STRESS] /\
    str_column transitions "PREV_REGIME" = Ok prevs /\
    head prevs = Some None /\
    (0 < len transitions)%nat.
Proof.
  apply (first_date_is_a_transition labelled_classifier labelled_heap 1%nat
           labelled_panel [Some NORMAL; Some STRESS] 0%Z [86400000000000%Z]);
    try reflexivity; eexists; reflexivity.
Defined.

(** ** The panel [classify_regimes] returned, after a later call *)

Section ReturnedPanel.
Import RegimeClassifier Heap.

(** [classify_regimes] returns the very object it keeps in
    [self.regime_data]. *)
Lemma classify_regimes_alias (self self' : t) (h h' : gmap nat DataFrame)
    (r : nat) :
  classify_regimes self h = (Ok (r, self'), h') ->
  regime_data self' = Some r /\
  exists panel df, h !! data self = Some panel /\
    classify (config self) panel = Ok df /\ h' !! r = Some df.
Proof.
  unfold classify_regimes, deref.
  destruct (h !! data self) as [d|] eqn:Hd; simpl; [|done].
  destruct (classify (config self) d) as [df|] eqn:Hdf; [|done].
  unfold alloc. intros [= <- <- <-]. split; [done|].
  exists d, df. by rewrite lookup_insert_eq.
Qed.

(** Line 137 adds the column REGIME_SHIFT to the object behind
    [self.regime_data]. *)
Lemma identify_regime_transitions_writes (self : t) (h : gmap nat DataFrame)
    (r : nat) (df : DataFrame) :
  regime_data self = Some r -> h !! r = Some df ->
  is_Ok (str_column df "REGIME") ->
  exists after,
    (identify_regime_transitions self h).2 !! r = Some after /\
    has_column after "REGIME_SHIFT" = true.
Proof.
  intros Hself Hh [regime Hreg].
  unfold identify_regime_transitions, deref. rewrite Hself, Hh, Hreg. simpl.
  rewrite lookup_insert_eq. eexists. split; [done|].
  unfold has_column, setitem. simpl. rewrite lookup_insert_eq.
  by apply bool_decide_eq_true_2.
Qed.

Lemma returned_panel_gains_column (cfg : Config) (panel : DataFrame) :
  macro_columns panel -> (1 <= VIX_LOOKBACK cfg)%nat ->
  columns panel !! "REGIME_SHIFT"%string = None ->
  exists before after,
    returned_panel_around_transitions cfg panel = Some (before, after) /\
    classify cfg panel = Ok before /\
    has_column before "REGIME_SHIFT" = false /\
    has_column after "REGIME_SHIFT" = true.
Proof.
  intros Hcols Hw Hfresh.
  destruct (classify_total cfg panel Hcols Hw) as [df Hdf].
  unfold returned_panel_around_transitions, init, alloc.
  unfold classify_regimes, deref. simpl. rewrite lookup_insert_eq. simpl.
  rewrite Hdf. unfold alloc.
  set (r0 := fresh (dom (∅ : gmap nat DataFrame))).
  set (h1 := <[r0 := panel]> ∅).
  set (r := fresh (dom h1)). set (h2 := <[r := df]> h1).
  assert (Hbefore : h2 !! r = Some df) by apply lookup_insert_eq.
  destruct (classify_inv _ _ _ Hdf)
    as (fed & tsy & vix & ma & _ & _ & _ & _ & Hshape).
  destruct (identify_regime_transitions_writes
              {| data := r0; config := cfg; regime_data := Some r |} h2 r df)
    as (after & Hafter & Hcol); [done|done| |].
  { subst df. eexists. unfold str_column, getitem, classified, setitem.
    simpl. by rewrite lookup_insert_eq. }
  destruct (identify_regime_transitions _ h2) as [res h3]. simpl in Hafter.
  rewrite Hbefore, Hafter. simpl.
  exists df, after. repeat split; try done.
  subst df. unfold has_column, classified, setitem. simpl.
  rewrite !lookup_insert_ne by done. rewrite Hfresh.
  apply bool_decide_eq_false_2. by intros [? ?].
Qed.
End ReturnedPanel.

(** C9 (the code departs from it). A caller hands [two_day_panel] to a
    classifier, receives the labelled panel from [classify_regimes] and
    then calls [identify_regime_transitions]: the panel it received has
    no column REGIME_SHIFT when it is returned and has one afterwards. *)
Theorem transitions_mutate_returned_panel :
  exists before after,
    returned_panel_around_transitions one_day_lookback two_day_panel
      = Some (before, after) /\
    has_column before "REGIME_SHIFT" = false /\
    has_column after "REGIME_SHIFT" = true /\
    before <> after.
Proof.
  destruct (returned_panel_gains_column one_day_lookback two_day_panel)
    as (before & after & Hrun & _ & Hb & Ha).
  - exact two_day_panel_macro_columns.
  - simpl. lia.
  - reflexivity.
  - exists before, after. repeat split; try done.
    intros ->. congruence.
Qed.

(** ** Shock detection *)

Section ShockSpacing.
Import RateShockAnalyzer.

Lemma far_after_iff (a b : Timestamp) :
  far_after a b <-> (181 * ns_per_day <= b - a)%Z.
Proof.
  unfold far_after, days, ns_per_day.
  pose proof (Z.div_mod (b - a) 86400000000000 ltac:(lia)) as Hdm.
  pose proof (Z.mod_pos_bound (b - a) 86400000000000 ltac:(lia)) as Hb.
  lia.
Qed.

#[local] Instance far_after_trans : Transitive far_after.
Proof.
  intros a b c. rewrite !far_after_iff. unfold ns_per_day. lia.
Qed.

Lemma StronglySorted_snoc {A} (R : A -> A -> Prop) `{!Transitive R}
    (acc : list A) (l c : A) :
  StronglySorted R acc -> last acc = Some l -> R l c ->
  StronglySorted R (acc ++ [c]).
Proof.
  induction 1 as [|x acc Hs IH Hall]; intros Hlast Hlc; [done|].
  simpl. destruct acc as [|y acc].
  - simpl in Hlast. inversion Hlast; subst.
    repeat constructor. done.
  - assert (Hl : last (y :: acc) = Some l) by done.
    constructor; [by apply IH|].
    apply Forall_app. split; [done|]. constructor; [|done].
    rewrite Forall_forall in Hall.
    destruct (last_Some (y :: acc) l) as [[acc' Heq] _]; [done|].
    transitivity l; [|done]. apply Hall. rewrite Heq.
    apply elem_of_app. right. by left.
Qed.

Lemma StronglySorted_lookup {A} (R : A -> A -> Prop) (xs : list A)
    (i j : nat) (a b : A) :
  StronglySorted R xs -> (i < j)%nat ->
  xs !! i = Some a -> xs !! j = Some b -> R a b.
Proof.
  intros Hs. revert i j. induction Hs as [|x xs Hs IH Hall];
    intros i j Hij Hi Hj; [done|].
  destruct j as [|j]; [lia|]. simpl in Hj.
  destruct i as [|i]; simpl in Hi.
  - inversion Hi; subst. rewrite Forall_forall in Hall.
    apply Hall. eapply list_elem_of_lookup_2; eauto.
  - apply (IH i j); (done || lia).
Qed.

(** The state of the scan after the candidates [cands]. *)
Lemma scan_invariant (cands : list Timestamp) :
  let st := foldl filter_step ([], None) cands in
  st.2 = last st.1 /\
  StronglySorted far_after st.1 /\
  st.1 `sublist_of` cands /\
  head st.1 = head cands /\
  (increasing cands ->
   forall c, c ∈ cands -> c ∉ st.1 ->
     exists a, a ∈ st.1 /\ (a < c)%Z /\ ~ far_after a c).
Proof.
  induction cands as [|c cands IH] using rev_ind; simpl.
  - repeat split; try constructor. intros _ c Hc. by apply elem_of_nil in Hc.
  - rewrite foldl_app. simpl.
    destruct (foldl filter_step ([], None) cands) as [acc lst].
    simpl in IH. destruct IH as (Hlast & Hsorted & Hsub & Hhead & Hdrop).
    assert (Hstep : forall c', c' ∈ cands -> increasing (cands ++ [c]) ->
              (c' < c)%Z).
    { intros c' Hc' Hinc. apply StronglySorted_app_1_elem_of with
        (x1 := c') (x2 := c) in Hinc; [done|done|by left]. }
    assert (Hinc' : increasing (cands ++ [c]) -> increasing cands).
    { intros Hinc. by apply StronglySorted_app_1_l in Hinc. }
    assert (Haccept :
      let st := (acc ++ [c], Some c) in
      st.2 = last st.1 /\ (far_after_opt lst c -> StronglySorted far_after st.1) /\
      st.1 `sublist_of` cands ++ [c] /\ head st.1 = head (cands ++ [c]) /\
      (increasing (cands ++ [c]) ->
       forall c', c' ∈ cands ++ [c] -> c' ∉ st.1 ->
         exists a, a ∈ st.1 /\ (a < c')%Z /\ ~ far_after a c')).
    { simpl. split; [by rewrite last_snoc|]. split.
      { intros Hfar. subst lst. destruct (last acc) as [l|] eqn:Hl.
        - by apply (StronglySorted_snoc _ _ l).
        - apply last_None in Hl. subst acc. repeat constructor. }
      split; [by apply sublist_app|]. split.
      { rewrite !head_snoc, Hhead.
        destruct (head cands) as [h|] eqn:Hh; [done|].
        apply head_None in Hh. subst cands.
        apply sublist_nil_r in Hsub. by subst acc. }
      intros Hinc c' Hc' Hnot. apply elem_of_app in Hc' as [Hc'|Hc'].
      - destruct (Hdrop (Hinc' Hinc) c' Hc') as (a & Ha & Hlt & Hnear).
        + intros Hin. apply Hnot. apply elem_of_app. by left.
        + exists a. split; [|done]. apply elem_of_app. by left.
      - apply list_elem_of_singleton in Hc'. subst c'.
        exfalso. apply Hnot. apply elem_of_app. right. by left. }
    destruct lst as [l|]; unfold filter_step.
    + destruct (decide (days (c - l) > 180)%Z) as [Hfar|Hnear].
      * destruct Haccept as (? & Hs & ? & ? & ?). repeat split; try done.
        by apply Hs.
      * simpl. split; [done|]. split; [done|].
        split; [by apply sublist_inserts_r|]. split.
        { rewrite head_snoc, Hhead.
          destruct (head cands) as [h|] eqn:Hh; [done|].
          apply head_None in Hh. subst cands.
          apply sublist_nil_r in Hsub. by subst acc. }
        intros Hinc c' Hc' Hnot. apply elem_of_app in Hc' as [Hc'|Hc'].
        -- by apply (Hdrop (Hinc' Hinc)).
        -- apply list_elem_of_singleton in Hc'. subst c'.
           exists l. assert (Hl : l ∈ acc).
           { symmetry in Hlast. apply last_Some in Hlast as [acc' ->].
             apply elem_of_app. right. by left. }
           split; [done|]. split; [|done].
           apply Hstep; [|done]. by apply (elem_of_sublist acc).
    + destruct Haccept as (? & Hs & ? & ? & ?). repeat split; try done.
      by apply Hs.
Qed.
End ShockSpacing.

Section ShockDetection.
Import RateShockAnalyzer.

Lemma select_sublist {A} (mask : list bool) (xs : list A) :
  select mask xs `sublist_of` xs.
Proof.
  revert xs. induction mask as [|b mask IH]; intros [|x xs]; simpl;
    try apply sublist_nil_l.
  destruct b; [by apply sublist_skip|by apply sublist_cons].
Qed.

Lemma increasing_sublist (xs ys : list Timestamp) :
  xs `sublist_of` ys -> increasing ys -> increasing xs.
Proof.
  intros Hsub Hinc. revert xs Hsub.
  induction Hinc as [|y ys Hs IH Hall]; intros xs Hsub.
  - apply sublist_nil_r in Hsub. subst. constructor.
  - apply sublist_cons_r in Hsub as [Hsub|(xs' & -> & Hsub)]; [by apply IH|].
    constructor; [by apply IH|].
    rewrite Forall_forall in *. intros x Hx. apply Hall.
    by apply (elem_of_sublist xs').
Qed.

Lemma report_ok_unique (df : DataFrame) (events : list Timestamp) :
  NoDup (index df) -> events ⊆ index df -> report_ok df events = true.
Proof.
  intros Hnd Hsub. unfold report_ok. apply forallb_forall.
  intros d Hd. apply bool_decide_eq_true_2.
  apply list_elem_of_In in Hd. apply Hsub in Hd.
  apply list_elem_of_lookup_1 in Hd as [i Hi].
  by rewrite (positions_unique d _ i 0 Hnd Hi).
Qed.
End ShockDetection.

(** C3. Minimum shock spacing: on a panel with increasing dates and a
    long-yield series, [identify_shocks] returns a list of events, any two
    of which lie more than 180 days apart.  The events are candidates, the
    first candidate is an event, every candidate that was dropped lies
    within 180 whole days after an earlier event, and a candidate that has no
    earlier candidate within 180 whole days is an event: of candidates that
    crowd together the earliest is the one accepted. *)
Theorem shock_events_keep_their_distance (self : RateShockAnalyzer.t) :
  increasing (index (RateShockAnalyzer.data self)) ->
  is_Ok (float_column (RateShockAnalyzer.data self) "TREASURY_10Y") ->
  exists candidates events self',
    RateShockAnalyzer.shock_candidates (RateShockAnalyzer.config self)
      (RateShockAnalyzer.data self) = Ok candidates /\
    RateShockAnalyzer.identify_shocks self = (Ok events, self') /\
    RateShockAnalyzer.shock_dates self' = Some events /\
    (forall i j e1 e2, i <> j -> events !! i = Some e1 -> events !! j = Some e2 ->
       (180 * RateShockAnalyzer.ns_per_day < Z.abs (e2 - e1))%Z) /\
    events `sublist_of` candidates /\
    head events = head candidates /\
    (forall c, c ∈ candidates -> c ∉ events ->
       exists a, a ∈ events /\ (a < c)%Z /\
                 (c - a < 181 * RateShockAnalyzer.ns_per_day)%Z) /\
    (forall c, c ∈ candidates ->
       (forall c', c' ∈ candidates -> (c' < c)%Z -> far_after c' c) ->
       c ∈ events).
Proof.
  intros Hinc [treasury Htsy].
  pose proof (increasing_NoDup _ Hinc) as Hnd.
  unfold RateShockAnalyzer.identify_shocks, RateShockAnalyzer.shock_candidates.
  rewrite Htsy. simpl.
  set (mask := map _ _).
  set (candidates := select mask (index (RateShockAnalyzer.data self))).
  assert (Hcsub : candidates `sublist_of` index (RateShockAnalyzer.data self))
    by apply select_sublist.
  assert (Hcinc : increasing candidates) by (by eapply increasing_sublist).
  pose proof (scan_invariant candidates) as Hscan.
  unfold RateShockAnalyzer.filter_shocks.
  destruct (foldl RateShockAnalyzer.filter_step ([], None) candidates)
    as [events lst].
  simpl in Hscan. destruct Hscan as (_ & Hsorted & Hsub & Hhead & Hdrop).
  simpl. rewrite report_ok_unique; [|done|].
  2:{ intros d Hd. apply (elem_of_sublist candidates); [|done].
      by apply (elem_of_sublist events). }
  assert (Hnear : forall c, c ∈ candidates -> c ∉ events ->
            exists a, a ∈ events /\ (a < c)%Z /\
                      (c - a < 181 * RateShockAnalyzer.ns_per_day)%Z).
  { intros c Hc Hnot. destruct (Hdrop Hcinc c Hc Hnot) as (a & Ha & Hlt & Hn).
    exists a. rewrite far_after_iff in Hn. repeat split; (done || lia). }
  eexists candidates, events, _. repeat split; try done.
  - intros i j e1 e2 Hij Hi Hj.
    assert (Hcases : (i < j)%nat \/ (j < i)%nat) by lia.
    destruct Hcases as [Hlt|Hlt].
    + pose proof (StronglySorted_lookup _ _ _ _ _ _ Hsorted Hlt Hi Hj) as Hfar.
      apply far_after_iff in Hfar. unfold RateShockAnalyzer.ns_per_day in *. lia.
    + pose proof (StronglySorted_lookup _ _ _ _ _ _ Hsorted Hlt Hj Hi) as Hfar.
      apply far_after_iff in Hfar. unfold RateShockAnalyzer.ns_per_day in *. lia.
  - intros c Hc Hfirst. destruct (decide (c ∈ events)) as [|Hnot]; [done|].
    destruct (Hdrop Hcinc c Hc Hnot) as (a & Ha & Hlt & Hn).
    exfalso. apply Hn. apply Hfirst; [|done].
    by apply (elem_of_sublist events).
Qed.

Lemma shock_panel_increasing :
  increasing (index (RateShockAnalyzer.data shock_analyzer)).
Proof. apply (bool_decide_unpack _). by vm_compute. Qed.

(** The events of [shock_panel]. *)
Lemma shock_events_keep_their_distance_witness :
  exists candidates events self',
    RateShockAnalyzer.shock_candidates
      (RateShockAnalyzer.config shock_analyzer)
      (RateShockAnalyzer.data shock_analyzer) = Ok candidates /\
    RateShockAnalyzer.identify_shocks shock_analyzer = (Ok events, self') /\
    RateShockAnalyzer.shock_dates self' = Some events /\
    (forall i j e1 e2, i <> j -> events !! i = Some e1 -> events !! j = Some e2 ->
       (180 * RateShockAnalyzer.ns_per_day < Z.abs (e2 - e1))%Z) /\
    events `sublist_of` candidates /\
    head events = head candidates /\
    (forall c, c ∈ candidates -> c ∉ events ->
       exists a, a ∈ events /\ (a < c)%Z /\
                 (c - a < 181 * RateShockAnalyzer.ns_per_day)%Z) /\
    (forall c, c ∈ candidates ->
       (forall c', c' ∈ candidates -> (c' < c)%Z -> far_after c' c) ->
       c ∈ events).
Proof.
  apply (shock_events_keep_their_distance shock_analyzer).
  - exact shock_panel_increasing.
  - eexists. reflexivity.
Defined.

(** ** Shock responses *)

Lemma mapM_Ok_inv {A B} (f : A -> result B) (xs : list A) (ys : list B) :
  mapM f xs = Ok ys -> Forall2 (fun x y => f x = Ok y) xs ys.
Proof.
  revert ys. induction xs as [|x xs IH]; intros ys; simpl.
  - intros [= <-]. constructor.
  - destruct (f x) as [y|] eqn:Hy; simpl; [|done].
    destruct (mapM f xs) as [ys'|]; simpl; [|done].
    intros [= <-]. constructor; [done|by apply IH].
Qed.

Lemma elem_of_concat {A} (x : A) (ls : list (list A)) :
  x ∈ concat ls <-> exists l, x ∈ l /\ l ∈ ls.
Proof.
  rewrite list_elem_of_In, in_concat. split.
  - intros (l & Hl & Hx). exists l. by rewrite !list_elem_of_In.
  - intros (l & Hx & Hl). exists l. by rewrite <- !list_elem_of_In.
Qed.

Section ShockResponses.
Import RateShockAnalyzer.

Lemma iloc_checked_Ok {A} (xs : list A) (i : nat) (x : A) :
  iloc_checked xs i = Ok x <-> xs !! i = Some x.
Proof.
  unfold iloc_checked. destruct (xs !! i); split; intros H;
    try discriminate; by inversion H.
Qed.

(** A return that was recorded was computed from two prices that exist. *)
Lemma ticker_return_reads (df : DataFrame) (shock_idx horizon : nat)
    (ticker : string) (cells : list (string * option R)) (key : string)
    (ret : option R) :
  ticker_return df shock_idx horizon ticker = Ok cells ->
  (key, ret) ∈ cells ->
  exists prices start_price end_price,
    key = ret_key ticker /\
    float_column df ticker = Ok prices /\
    prices !! shock_idx = Some start_price /\
    prices !! (shock_idx + horizon)%nat = Some end_price /\
    ret = fmul (fsub (fdiv end_price start_price) (Some 1)) (Some 100).
Proof.
  unfold ticker_return. destruct (negb (has_column df ticker)).
  { intros [= <-] Hin. by apply elem_of_nil in Hin. }
  destruct (float_column df ticker) as [prices|]; simpl; [|done].
  destruct (iloc_checked prices shock_idx) as [s|] eqn:Hs; simpl; [|done].
  destruct (iloc_checked prices (shock_idx + horizon)) as [e|] eqn:He;
    simpl; [|done].
  intros [= <-] Hin. apply list_elem_of_singleton in Hin.
  inversion Hin; subst. exists prices, s, e.
  apply iloc_checked_Ok in Hs, He. done.
Qed.

Lemma measure_event_Some (config : Config) (df : DataFrame)
    (d : Timestamp) (r : ShockResponse) :
  measure_event config df d = Some r ->
  shock_date r = d /\ exists shock_idx, response_reads config df r shock_idx.
Proof.
  unfold measure_event, measure_one.
  destruct (get_loc (index df) d) as [idx|] eqn:Hloc; simpl; [|done].
  destruct (decide (len df <= idx + SHOCK_HORIZON config)%nat) as [|Hrange];
    [done|].
  destruct (float_column df "TREASURY_10Y") as [tsy|] eqn:Htsy; simpl; [|done].
  destruct (iloc_checked tsy idx) as [s|] eqn:Hs; simpl; [|done].
  destruct (iloc_checked tsy (idx + SHOCK_HORIZON config)) as [e|] eqn:He;
    simpl; [|done].
  destruct (mapM (ticker_return df idx (SHOCK_HORIZON config))
                 (TICKERS config)) as [cells|] eqn:Hcells; simpl; [|done].
  intros [= <-]. simpl. split; [done|]. exists idx.
  unfold response_reads. simpl.
  apply iloc_checked_Ok in Hs, He.
  split; [done|]. split; [lia|]. split; [lia|]. split; [by exists tsy|].
  intros key ret Hin. apply elem_of_concat in Hin as (cs & Hin & Hcs).
  apply mapM_Ok_inv in Hcells.
  apply list_elem_of_lookup_1 in Hcs as [n Hn].
  destruct (Forall2_lookup_r _ _ _ _ _ Hcells Hn) as (ticker & Ht & Hret).
  destruct (ticker_return_reads _ _ _ _ _ _ _ Hret Hin)
    as (prices & sp & ep & ? & ? & ? & ? & ?).
  exists ticker, prices, sp, ep. repeat split; try done.
  eapply list_elem_of_lookup_2; eauto.
Qed.

(** An event whose horizon passes the last row is skipped. *)
Lemma measure_event_short (config : Config) (df : DataFrame)
    (d : Timestamp) (shock_idx : nat) :
  get_loc (index df) d = Ok shock_idx ->
  (len df <= shock_idx + SHOCK_HORIZON config)%nat ->
  measure_one config df d = Ok None /\ measure_event config df d = None.
Proof.
  intros Hloc Hshort. unfold measure_event, measure_one. rewrite Hloc. simpl.
  by rewrite decide_True.
Qed.
End ShockResponses.

(** C5. Shock-response horizon safety: [measure_shock_response] returns
    without an error; an event whose row position plus the forward horizon
    reaches the row count is skipped and leaves no response; every
    response that is produced was read from the event's row and from the
    row [horizon] further down, which is at most the last row of the
    panel. *)
Theorem responses_stay_inside_the_panel (self : RateShockAnalyzer.t)
    (dates_arg : option (list Timestamp)) (dates : list Timestamp) :
  dates_arg = Some dates \/
    (dates_arg = None /\ RateShockAnalyzer.shock_dates self = Some dates) ->
  exists responses self',
    RateShockAnalyzer.measure_shock_response self dates_arg
      = (Ok responses, self') /\
    RateShockAnalyzer.shock_responses self' = Some responses /\
    (forall d shock_idx,
       d ∈ dates ->
       get_loc (index (RateShockAnalyzer.data self)) d = Ok shock_idx ->
       (len (RateShockAnalyzer.data self)
          <= shock_idx + SHOCK_HORIZON (RateShockAnalyzer.config self))%nat ->
       RateShockAnalyzer.measure_one (RateShockAnalyzer.config self)
         (RateShockAnalyzer.data self) d = Ok None /\
       forall r, r ∈ responses -> RateShockAnalyzer.shock_date r <> d) /\
    (forall r, r ∈ responses ->
       RateShockAnalyzer.shock_date r ∈ dates /\
       exists shock_idx,
         response_reads (RateShockAnalyzer.config self)
           (RateShockAnalyzer.data self) r shock_idx).
Proof.
  intros Hdates.
  assert (Hrun : RateShockAnalyzer.measure_shock_response self dates_arg =
    (Ok (omap (RateShockAnalyzer.measure_event (RateShockAnalyzer.config self)
                 (RateShockAnalyzer.data self)) dates),
     {| RateShockAnalyzer.data := RateShockAnalyzer.data self;
        RateShockAnalyzer.config := RateShockAnalyzer.config self;
        RateShockAnalyzer.shock_dates := RateShockAnalyzer.shock_dates self;
        RateShockAnalyzer.shock_responses :=
          Some (omap (RateShockAnalyzer.measure_event
                        (RateShockAnalyzer.config self)
                        (RateShockAnalyzer.data self)) dates) |})).
  { unfold RateShockAnalyzer.measure_shock_response.
    destruct Hdates as [->|[-> ->]]; done. }
  eexists _, _. split; [exact Hrun|]. split; [done|]. split.
  - intros d idx Hd Hloc Hshort.
    destruct (measure_event_short _ _ _ _ Hloc Hshort) as [Hone Hnone].
    split; [done|]. intros r Hr Heq.
    apply list_elem_of_omap in Hr as (d' & Hd' & Hsome).
    pose proof (measure_event_Some _ _ _ _ Hsome) as [Hdate _].
    rewrite Heq in Hdate. subst d'. congruence.
  - intros r Hr. apply list_elem_of_omap in Hr as (d & Hd & Hsome).
    apply measure_event_Some in Hsome as [<- Hreads]. done.
Qed.

(** The second and third day of [shock_panel] as events, with a horizon of one day. *)
Lemma responses_stay_inside_the_panel_witness :
  exists responses self',
    RateShockAnalyzer.measure_shock_response shock_analyzer
      (Some [86400000000000; 172800000000000]%Z) = (Ok responses, self') /\
    RateShockAnalyzer.shock_responses self' = Some responses /\
    (forall d shock_idx,
       d ∈ [86400000000000; 172800000000000]%Z ->
       get_loc (index (RateShockAnalyzer.data shock_analyzer)) d
         = Ok shock_idx ->
       (len (RateShockAnalyzer.data shock_analyzer)
          <= shock_idx
             + SHOCK_HORIZON (RateShockAnalyzer.config shock_analyzer))%nat ->
       RateShockAnalyzer.measure_one
         (RateShockAnalyzer.config shock_analyzer)
         (RateShockAnalyzer.data shock_analyzer) d = Ok None /\
       forall r, r ∈ responses -> RateShockAnalyzer.shock_date r <> d) /\
    (forall r, r ∈ responses ->
       RateShockAnalyzer.shock_date r ∈ [86400000000000; 172800000000000]%Z /\
       exists shock_idx,
         response_reads (RateShockAnalyzer.config shock_analyzer)
           (RateShockAnalyzer.data shock_analyzer) r shock_idx).
Proof.
  apply (responses_stay_inside_the_panel shock_analyzer
           (Some [86400000000000; 172800000000000]%Z)).
  left. reflexivity.
Defined.

(** ** Stress test *)

(** C4. Stress-testing zero responses is an error: when the responses in
    use are empty, [portfolio_stress_test] raises and returns no summary
    and no table.  When the responses are the analyzer's own
    ([shock_responses] not passed), the exception is the ValueError of
    line 120; when an empty frame is passed explicitly, the exception comes
    from the reductions of lines 142-147, which have no value on an empty
    array. *)
Theorem empty_stress_test_raises (percentile_of_empty : result (option R))
    (self : RateShockAnalyzer.t) (weights_arg : option (list (string * R)))
    (responses_arg : option (list RateShockAnalyzer.ShockResponse)) :
  responses_arg = Some [] \/
    (responses_arg = None /\
     (RateShockAnalyzer.shock_responses self = Some [] \/
      RateShockAnalyzer.shock_responses self = None)) ->
  is_Raise (RateShockAnalyzer.portfolio_stress_test percentile_of_empty
              self weights_arg responses_arg) /\
  (responses_arg = None ->
   RateShockAnalyzer.portfolio_stress_test percentile_of_empty
     self weights_arg responses_arg
   = Raise (ValueError
       "No shock responses available. Run measure_shock_response() first")).
Proof.
  unfold RateShockAnalyzer.portfolio_stress_test.
  intros [->|[-> [->| ->]]]; simpl.
  - split; [|done].
    destruct percentile_of_empty as [p|e]; simpl; by eexists.
  - split; [by eexists|done].
  - split; [by eexists|done].
Qed.

(** An analyzer whose measurement produced no response. *)
Lemma empty_stress_test_raises_witness :
  is_Raise (RateShockAnalyzer.portfolio_stress_test (Ok NaN)
              analyzer_without_responses None None) /\
  (@None (list RateShockAnalyzer.ShockResponse) = None ->
   RateShockAnalyzer.portfolio_stress_test (Ok NaN)
     analyzer_without_responses None None
   = Raise (ValueError
       "No shock responses available. Run measure_shock_response() first")).
Proof.
  apply (empty_stress_test_raises (Ok NaN) analyzer_without_responses
           None None).
  right. split; [reflexivity|]. left. reflexivity.
Defined.

(** ** Performance statistics *)

Section Statistics.
Import PerformanceAnalyzer.

Lemma mean_R_Some (xs : list R) :
  (0 < length xs)%nat -> np.mean_R xs = Some (Rsum xs / INR (length xs)).
Proof. intros Hn. unfold np.mean_R. by rewrite decide_False by lia. Qed.

Lemma std_R_Some (xs : list R) :
  (2 <= length xs)%nat ->
  exists s, np.std_R 1 xs = Some s /\ 0 <= s /\
    s = sqrt (Rsum (map (fun x => (x - Rsum xs / INR (length xs))
                                  * (x - Rsum xs / INR (length xs))) xs)
              / (INR (length xs) - 1)).
Proof.
  intros Hn. unfold np.std_R. rewrite mean_R_Some by lia.
  rewrite decide_False by lia. eexists. split; [done|].
  split; [apply sqrt_pos|done].
Qed.

(** Running product and running peak of positive growth factors. *)
Lemma drawdown_from_bounds (acc m : R) (xs : list R) :
  0 < acc -> acc <= m -> Forall (fun x => 0 < x) xs ->
  Forall (fun d => exists v, d = Some v /\ -1 < v <= 0)
    (zip_with (fun c p => fdiv (Some (c - p)) (Some p))
       (cumprod_from acc xs)
       (expanding_max_from m (cumprod_from acc xs))).
Proof.
  intros Hacc Hm Hxs. revert acc m Hacc Hm.
  induction Hxs as [|x xs Hx Hxs IH]; intros acc m Hacc Hm; simpl;
    [constructor|].
  assert (Hc : 0 < acc * x) by nra.
  assert (Hp : acc * x <= Rmax m (acc * x)) by apply Rmax_r.
  assert (Hp0 : 0 < Rmax m (acc * x)) by lra.
  constructor; [|by apply IH].
  rewrite decide_False by lra. eexists. split; [done|].
  split.
  - apply Rmult_lt_reg_r with (r := Rmax m (acc * x)); [done|].
    unfold Rdiv. rewrite Rmult_assoc, Rinv_l by lra. lra.
  - apply Rmult_le_reg_r with (r := Rmax m (acc * x)); [done|].
    unfold Rdiv. rewrite Rmult_assoc, Rinv_l by lra. lra.
Qed.

Lemma drawdown_bounds (returns : list R) :
  Forall (fun r => -1 < r) returns ->
  Forall (fun d => exists v, d = Some v /\ -1 < v <= 0) (drawdown returns).
Proof.
  intros Hr. unfold drawdown, cumprod, expanding_max.
  destruct returns as [|r returns]; simpl; [constructor|].
  apply Forall_cons in Hr as [Hr Hrs].
  assert (Hc : 0 < 1 * (1 + r)) by lra.
  constructor.
  - rewrite decide_False by lra. eexists. split; [done|].
    unfold Rdiv. replace (1 * (1 + r) - 1 * (1 + r)) with 0 by ring.
    rewrite Rmult_0_l. lra.
  - apply drawdown_from_bounds; [done|lra|].
    apply Forall_fmap. eapply Forall_impl; [exact Hrs|].
    simpl. intros x Hx. lra.
Qed.

Lemma length_drawdown (returns : list R) :
  length (drawdown returns) = length returns.
Proof.
  unfold drawdown, cumprod.
  assert (Hc : forall acc xs, length (cumprod_from acc xs) = length xs).
  { intros acc xs. revert acc. induction xs; intros; simpl; auto. }
  assert (He : forall m xs, length (expanding_max_from m xs) = length xs).
  { intros m xs. revert m. induction xs; intros; simpl; auto. }
  assert (Hm : forall xs, length (expanding_max xs) = length xs).
  { intros [|x xs]; simpl; [done|]. by rewrite He. }
  rewrite length_zip_with. fold (expanding_max
    (cumprod_from 1 (map (fun r => 1 + r) returns))).
  rewrite Hm, Hc, length_map. lia.
Qed.

Lemma Rlist_min_bounds (lo hi y : R) (ys : list R) :
  lo < y <= hi -> Forall (fun v => lo < v <= hi) ys ->
  lo < np.Rlist_min y ys <= hi.
Proof.
  intros Hy Hys. unfold np.Rlist_min.
  induction Hys as [|v ys Hv Hys IH]; simpl; [done|].
  pattern (Rmin v (foldr Rmin y ys)). by apply Rmin_case.
Qed.

(** The maximum drawdown of returns above -100% lies in (-100, 0]. *)
Lemma max_dd_bounds (af : nat) (returns : list R) :
  (0 < length returns)%nat -> Forall (fun r => -1 < r) returns ->
  exists dd, max_dd (metrics af returns) = Some dd /\ -100 < dd <= 0.
Proof.
  intros Hn Hr. unfold metrics. simpl. unfold series_min.
  pose proof (drawdown_bounds returns Hr) as Hdd.
  pose proof (length_drawdown returns) as Hlen.
  destruct (drawdown returns) as [|d ds]; [simpl in Hlen; lia|].
  apply Forall_cons in Hdd as [(v & -> & Hv) Hds]. simpl.
  assert (Hvs : Forall (fun v => -1 < v <= 0) (dropna ds)).
  { clear -Hds. induction Hds as [|d ds (v & -> & Hv) Hds IH]; simpl;
      [constructor|]. by constructor. }
  pose proof (Rlist_min_bounds (-1) 0 v (dropna ds) Hv Hvs) as Hmin.
  eexists. split; [done|]. lra.
Qed.
End Statistics.

Section Rounding.
Lemma rint_lower (a : Z) (y : R) : IZR a <= y -> (a <= np.rint y)%Z.
Proof.
  intros Hy. pose proof (Zfloor_lub a y Hy) as Hf. unfold np.rint.
  repeat case_decide; try destruct (Z.even (Zfloor y)); lia.
Qed.

Lemma rint_upper (b : Z) (y : R) : y <= IZR b -> (np.rint y <= b)%Z.
Proof.
  intros Hy. pose proof (Zfloor_bound y) as [Hlo Hhi].
  assert (Hfb : (Zfloor y <= b)%Z) by (apply le_IZR; lra).
  unfold np.rint. case_decide; [done|].
  assert (Hlt : (Zfloor y < b)%Z).
  { destruct (decide (Zfloor y = b)) as [Heq|]; [|lia].
    rewrite Heq in *. lra. }
  repeat case_decide; try destruct (Z.even (Zfloor y)); lia.
Qed.

Lemma rint_IZR (z : Z) : np.rint (IZR z) = z.
Proof.
  unfold np.rint. rewrite ZfloorZ. rewrite decide_True; [done|lra].
Qed.

(** Rounding to two decimals keeps a value between two bounds that are
    themselves multiples of 0.01. *)
Lemma round_2_bounds (a b : Z) (v : R) :
  IZR a / 100 <= v <= IZR b / 100 ->
  exists r, np.round (Some v) 2 = Some r /\ IZR a / 100 <= r <= IZR b / 100.
Proof.
  intros [Hlo Hhi]. unfold np.round. simpl. eexists. split; [done|].
  replace (10 * (10 * 1)) with 100 by ring.
  pose proof (rint_lower a (v * 100) ltac:(lra)) as Ha.
  pose proof (rint_upper b (v * 100) ltac:(lra)) as Hb.
  apply IZR_le in Ha, Hb. lra.
Qed.
End Rounding.

Section Records.
Import PerformanceAnalyzer.

(** Every row of the performance table is the rounded statistics of the
    valid returns one asset had on the days of one regime, of which there
    are at least five. *)
Lemma regime_performance_records (self : t)
    (records : list PerformanceRecord) (rec : PerformanceRecord) :
  regime_performance self = Ok records -> rec ∈ records ->
  exists df labels regime ticker col,
    returns_data self = Some df /\
    getitem df "REGIME" = Ok labels /\
    ticker ∈ TICKERS (config self) /\
    float_column (df_select (eq_mask labels regime) df) (ret_col ticker)
      = Ok col /\
    (5 <= length (dropna col))%nat /\
    rec = make_record regime ticker
            (metrics (ANNUALIZATION_FACTOR (config self)) (dropna col))
            (length (dropna col)).
Proof.
  unfold regime_performance.
  destruct (returns_data self) as [df|]; [|done].
  destruct (mapM (one_regime_performance (config self) df) regimes)
    as [per_regime|] eqn:Hm; [|done].
  simpl. intros [= <-] Hin.
  apply elem_of_concat in Hin as (recs & Hin & Hrecs).
  apply mapM_Ok_inv in Hm.
  apply list_elem_of_lookup_1 in Hrecs as [n Hn].
  destruct (Forall2_lookup_r _ _ _ _ _ Hm Hn) as (regime & _ & Hone).
  unfold one_regime_performance in Hone.
  destruct (getitem df "REGIME") as [labels|] eqn:Hlabels; [|done].
  simpl in Hone.
  destruct (decide (len (df_select (eq_mask labels regime) df) < 10)%nat).
  { inversion Hone; subst. by apply elem_of_nil in Hin. }
  destruct (mapM _ (TICKERS (config self))) as [per_ticker|] eqn:Ht;
    [|done].
  simpl in Hone. inversion Hone; subst. clear Hone.
  apply elem_of_concat in Hin as (cell & Hin & Hcell).
  apply mapM_Ok_inv in Ht.
  apply list_elem_of_lookup_1 in Hcell as [k Hk].
  destruct (Forall2_lookup_r _ _ _ _ _ Ht Hk) as (ticker & Htk & Hperf).
  unfold ticker_performance in Hperf.
  destruct (negb (has_column df (ret_col ticker))).
  { inversion Hperf; subst. by apply elem_of_nil in Hin. }
  destruct (float_column _ (ret_col ticker)) as [col|] eqn:Hcol; [|done].
  simpl in Hperf.
  destruct (decide (length (dropna col) < 5)%nat).
  { inversion Hperf; subst. by apply elem_of_nil in Hin. }
  inversion Hperf; subst. apply list_elem_of_singleton in Hin.
  exists df, labels, regime, ticker, col.
  repeat split; try done; [|lia].
  eapply list_elem_of_lookup_2; eauto.
Qed.

Lemma dropna_select_subset {A} (mask : list bool) (xs : list (option A))
    (x : A) :
  x ∈ dropna (select mask xs) -> Some x ∈ xs.
Proof.
  intros Hx. apply list_elem_of_omap in Hx as (o & Ho & Hox).
  simpl in Hox. subst o. by apply (elem_of_sublist _ _ _ Ho), select_sublist.
Qed.
End Records.

Lemma float_column_df_select (mask : list bool) (df : DataFrame)
    (name : string) :
  float_column (df_select mask df) name = select mask <$> float_column df name.
Proof.
  unfold float_column, getitem, df_select. simpl. rewrite lookup_fmap.
  by destruct (columns df !! name) as [[]|].
Qed.

(** C7. Maximum-drawdown bounds: when every valid daily return of the
    panel is above -100%, each row of the performance table has a maximum
    drawdown between -100 and 0 (percent), both as computed at lines
    68-71 and as stored, rounded, in the row. *)
Theorem max_drawdown_is_bounded (self : PerformanceAnalyzer.t)
    (records : list PerformanceAnalyzer.PerformanceRecord)
    (rec : PerformanceAnalyzer.PerformanceRecord) (df : DataFrame) :
  PerformanceAnalyzer.returns_data self = Some df ->
  returns_above_minus_one df ->
  PerformanceAnalyzer.regime_performance self = Ok records ->
  rec ∈ records ->
  exists returns raw dd,
    PerformanceAnalyzer.max_dd
      (PerformanceAnalyzer.metrics
         (ANNUALIZATION_FACTOR (PerformanceAnalyzer.config self)) returns)
      = Some raw /\
    PerformanceAnalyzer.series_min (PerformanceAnalyzer.drawdown returns)
      = Some (raw / 100) /\
    -100 < raw <= 0 /\
    PerformanceAnalyzer.Max_DD_pct rec = np.round (Some raw) 2 /\
    PerformanceAnalyzer.Max_DD_pct rec = Some dd /\
    -100 <= dd <= 0.
Proof.
  intros Hdf Habove Hrun Hrec.
  destruct (regime_performance_records _ _ _ Hrun Hrec)
    as (df' & labels & regime & ticker & col & Hdf' & _ & _ & Hcol & Hn & ->).
  rewrite Hdf in Hdf'. inversion Hdf'; subst df'. clear Hdf'.
  rewrite float_column_df_select in Hcol.
  destruct (float_column df (PerformanceAnalyzer.ret_col ticker))
    as [col0|] eqn:Hcol0; [|done].
  simpl in Hcol. inversion Hcol; subst col. clear Hcol.
  set (returns := dropna (select (PerformanceAnalyzer.eq_mask labels regime) col0)) in *.
  assert (Hr : Forall (fun r => -1 < r) returns).
  { apply Forall_forall. intros x Hx. apply (Habove ticker col0 x Hcol0).
    by apply dropna_select_subset in Hx. }
  destruct (max_dd_bounds (ANNUALIZATION_FACTOR (PerformanceAnalyzer.config self))
              returns ltac:(lia) Hr) as (raw & Hraw & Hb).
  destruct (round_2_bounds (-10000) 0 raw) as (dd & Hdd & Hddb); [lra|].
  exists returns, raw, dd. split; [done|]. split.
  { unfold PerformanceAnalyzer.metrics in Hraw. simpl in Hraw.
    destruct (PerformanceAnalyzer.series_min _) as [m|]; [|done].
    simpl in Hraw. inversion Hraw. f_equal. lra. }
  split; [done|].
  unfold PerformanceAnalyzer.make_record.
  cbn [PerformanceAnalyzer.Max_DD_pct]. rewrite Hraw.
  split; [done|]. split; [done|]. lra.
Qed.

Lemma balanced_performance :
  PerformanceAnalyzer.regime_performance balanced_analyzer
  = Ok [balanced_record].
Proof. reflexivity. Qed.

Lemma balanced_panel_returns : returns_above_minus_one balanced_panel.
Proof.
  intros ticker col x Hcol Hx. apply float_column_Some in Hcol.
  unfold balanced_panel in Hcol. simpl in Hcol.
  apply lookup_insert_Some in Hcol as [[_ Heq]|[_ Hcol]]; [done|].
  apply lookup_insert_Some in Hcol as [[_ Heq]|[_ Hcol]]; [|done].
  inversion Heq; subst col. unfold balanced_returns in Hx.
  repeat (apply elem_of_cons in Hx as [Hx|Hx];
          [try discriminate; inversion Hx; lra|]).
  by apply elem_of_nil in Hx.
Qed.

(** The one row of the performance table of [balanced_panel]. *)
Lemma max_drawdown_is_bounded_witness :
  exists returns raw dd,
    PerformanceAnalyzer.max_dd
      (PerformanceAnalyzer.metrics
         (ANNUALIZATION_FACTOR (PerformanceAnalyzer.config balanced_analyzer))
         returns) = Some raw /\
    PerformanceAnalyzer.series_min (PerformanceAnalyzer.drawdown returns)
      = Some (raw / 100) /\
    -100 < raw <= 0 /\
    PerformanceAnalyzer.Max_DD_pct balanced_record = np.round (Some raw) 2 /\
    PerformanceAnalyzer.Max_DD_pct balanced_record = Some dd /\
    -100 <= dd <= 0.
Proof.
  apply (max_drawdown_is_bounded balanced_analyzer [balanced_record]
           balanced_record balanced_panel).
  - reflexivity.
  - exact balanced_panel_returns.
  - exact balanced_performance.
  - by left.
Defined.

(** ** The Sharpe ratio *)

Lemma balanced_mean : np.mean_R (dropna balanced_returns) = Some 0.
Proof.
  unfold np.mean_R, balanced_returns, Rsum. simpl. f_equal. lra.
Qed.

Lemma balanced_std :
  np.std_R 1 (dropna balanced_returns) = Some (sqrt (63 / 4000000)).
Proof.
  unfold np.std_R. rewrite balanced_mean.
  unfold balanced_returns, Rsum. simpl. do 2 f_equal. lra.
Qed.

Lemma balanced_ann_vol :
  PerformanceAnalyzer.ann_vol
    (PerformanceAnalyzer.metrics 252 (dropna balanced_returns))
  = Some (63 / 10).
Proof.
  unfold PerformanceAnalyzer.metrics.
  cbn [PerformanceAnalyzer.ann_vol]. rewrite balanced_std.
  cbn [fmul]. f_equal.
  rewrite <- sqrt_mult by (try apply pos_INR; lra).
  replace (63 / 4000000 * INR 252) with ((63 / 1000) * (63 / 1000)).
  - rewrite sqrt_square by lra. lra.
  - replace (INR 252) with 252 by (by rewrite INR_IZR_INZ). lra.
Qed.

Lemma balanced_sharpe :
  PerformanceAnalyzer.sharpe
    (PerformanceAnalyzer.metrics 252 (dropna balanced_returns))
  = Some 0.
Proof.
  pose proof balanced_ann_vol as Hvol.
  unfold PerformanceAnalyzer.metrics in *.
  cbn [PerformanceAnalyzer.ann_vol PerformanceAnalyzer.sharpe] in *.
  rewrite Hvol, balanced_mean. cbn [float_gt fmul fdiv].
  rewrite bool_decide_eq_true_2 by lra.
  rewrite decide_False by lra. f_equal. lra.
Qed.

(** C6, as stated, fails: on [balanced_panel] the performance table has
    one row, whose Sharpe ratio is 0 although its annualized volatility is
    6.3 percent; the zero comes from the division 0 / 6.3. *)
Lemma zero_sharpe_with_positive_volatility :
  PerformanceAnalyzer.regime_performance balanced_analyzer
    = Ok [balanced_record] /\
  PerformanceAnalyzer.Sharpe balanced_record = Some 0 /\
  PerformanceAnalyzer.Ann_Vol_pct balanced_record = Some (63 / 10) /\
  PerformanceAnalyzer.Ann_Vol_pct balanced_record <> Some 0.
Proof.
  split; [exact balanced_performance|].
  assert (Hvol : PerformanceAnalyzer.Ann_Vol_pct balanced_record
                 = Some (63 / 10)).
  { unfold balanced_record, PerformanceAnalyzer.make_record.
    cbn [PerformanceAnalyzer.Ann_Vol_pct]. rewrite balanced_ann_vol.
    unfold np.round. simpl. f_equal.
    replace (63 / 10 * (10 * (10 * 1))) with (IZR 630) by lra.
    rewrite rint_IZR. lra. }
  split; [|split; [done|]].
  - unfold balanced_record, PerformanceAnalyzer.make_record.
    cbn [PerformanceAnalyzer.Sharpe]. rewrite balanced_sharpe.
    unfold np.round. simpl. f_equal.
    replace (0 * (10 * (10 * 1))) with (IZR 0) by lra.
    rewrite rint_IZR. lra.
  - rewrite Hvol. intros [= H]. lra.
Qed.

(** C6, amended. Each row of the performance table comes from at least
    five valid returns, for which the annualized return [r] and the
    annualized volatility [v >= 0] are numbers; the Sharpe ratio of lines
    62-65 is [r / v] when [v] is positive and 0 when [v] is 0, and the row
    stores it rounded to two decimals. *)
Theorem sharpe_is_guarded_ratio (self : PerformanceAnalyzer.t)
    (records : list PerformanceAnalyzer.PerformanceRecord)
    (rec : PerformanceAnalyzer.PerformanceRecord) :
  PerformanceAnalyzer.regime_performance self = Ok records ->
  rec ∈ records ->
  exists returns r v,
    let m := PerformanceAnalyzer.metrics
               (ANNUALIZATION_FACTOR (PerformanceAnalyzer.config self))
               returns in
    (5 <= length returns)%nat /\
    PerformanceAnalyzer.ann_return m = Some r /\
    PerformanceAnalyzer.ann_vol m = Some v /\
    0 <= v /\
    PerformanceAnalyzer.Ann_Return_pct rec = np.round (Some r) 2 /\
    PerformanceAnalyzer.Ann_Vol_pct rec = np.round (Some v) 2 /\
    PerformanceAnalyzer.Sharpe rec = np.round (PerformanceAnalyzer.sharpe m) 2 /\
    (0 < v -> PerformanceAnalyzer.sharpe m = Some (r / v)) /\
    (v = 0 -> PerformanceAnalyzer.sharpe m = Some 0 /\
              PerformanceAnalyzer.Sharpe rec = Some 0).
Proof.
  intros Hrun Hrec.
  destruct (regime_performance_records _ _ _ Hrun Hrec)
    as (df & labels & regime & ticker & col & _ & _ & _ & _ & Hn & ->).
  set (returns := dropna col) in *.
  set (af := ANNUALIZATION_FACTOR (PerformanceAnalyzer.config self)).
  destruct (std_R_Some returns ltac:(lia)) as (s & Hs & Hs0 & _).
  exists returns, (Rsum returns / INR (length returns) * INR af * 100),
         (s * sqrt (INR af) * 100).
  assert (Hv0 : 0 <= s * sqrt (INR af) * 100).
  { pose proof (sqrt_pos (INR af)). nra. }
  unfold PerformanceAnalyzer.metrics, PerformanceAnalyzer.make_record.
  cbn [PerformanceAnalyzer.ann_return PerformanceAnalyzer.ann_vol
       PerformanceAnalyzer.sharpe PerformanceAnalyzer.Ann_Return_pct
       PerformanceAnalyzer.Ann_Vol_pct PerformanceAnalyzer.Sharpe].
  rewrite Hs, mean_R_Some by lia. cbn [fmul float_gt fdiv].
  do 7 (split; [done|]). split.
  - intros Hv. rewrite bool_decide_eq_true_2 by lra.
    by rewrite decide_False by lra.
  - intros Hzero. rewrite Hzero. rewrite bool_decide_eq_false_2 by lra.
    split; [done|].
    unfold np.round. simpl. f_equal.
    replace (0 * (10 * (10 * 1))) with (IZR 0) by lra.
    rewrite rint_IZR. lra.
Qed.

(** The one row of the performance table of [balanced_panel]. *)
Lemma sharpe_is_guarded_ratio_witness :
  exists returns r v,
    let m := PerformanceAnalyzer.metrics
               (ANNUALIZATION_FACTOR
                  (PerformanceAnalyzer.config balanced_analyzer))
               returns in
    (5 <= length returns)%nat /\
    PerformanceAnalyzer.ann_return m = Some r /\
    PerformanceAnalyzer.ann_vol m = Some v /\
    0 <= v /\
    PerformanceAnalyzer.Ann_Return_pct balanced_record
      = np.round (Some r) 2 /\
    PerformanceAnalyzer.Ann_Vol_pct balanced_record = np.round (Some v) 2 /\
    PerformanceAnalyzer.Sharpe balanced_record
      = np.round (PerformanceAnalyzer.sharpe m) 2 /\
    (0 < v -> PerformanceAnalyzer.sharpe m = Some (r / v)) /\
    (v = 0 -> PerformanceAnalyzer.sharpe m = Some 0 /\
              PerformanceAnalyzer.Sharpe balanced_record = Some 0).
Proof.
  apply (sharpe_is_guarded_ratio balanced_analyzer [balanced_record]
           balanced_record).
  - exact balanced_performance.
  - by left.
Defined.

(** ** The definitions on sample inputs *)

Section Samples.
Import RegimeClassifier.

(** Settles the comparisons of real constants a sample runs into. *)
Ltac compare_reals :=
  repeat (first [ rewrite bool_decide_eq_true_2 by lra
                | rewrite bool_decide_eq_false_2 by lra
                | rewrite decide_True by lra
                | rewrite decide_False by lra ]; simpl).

Example diff_sample :
  diff 1 [Some 1; Some 2; Some 4] = [NaN; Some (2 - 1); Some (4 - 2)].
Proof. reflexivity. Qed.

Example rolling_mean_sample :
  rolling_mean 2 1 [Some 10; NaN; Some 30]
  = Ok [Some ((10 + 0) / 1); Some ((10 + 0) / 1); Some ((30 + 0) / 1)].
Proof. reflexivity. Qed.

(** Volatility above 25 is STRESS even when the policy rate has risen. *)
Example rule_stress :
  regime_rule default_config (Some 40) (Some 1) (Some 0) = STRESS.
Proof.
  unfold regime_rule. simpl. by compare_reals.
Qed.

Example rule_tightening :
  regime_rule default_config (Some 15) (Some (1 / 2)) (Some 0) = TIGHTENING.
Proof.
  unfold regime_rule. simpl. by compare_reals.
Qed.

Example rule_easing :
  regime_rule default_config (Some 15) (Some 0) (Some (-1 / 2)) = EASING.
Proof.
  unfold regime_rule. simpl. by compare_reals.
Qed.

Example rule_normal :
  regime_rule default_config (Some 15) (Some (1 / 10)) NaN = NORMAL.
Proof.
  unfold regime_rule. simpl. by compare_reals.
Qed.

(** The candidates of [shock_panel] are its second and third day; they are
    a day apart, so only the second day is an event. *)
Example shock_panel_events :
  (RateShockAnalyzer.identify_shocks shock_analyzer).1
  = Ok [86400000000000%Z].
Proof.
  unfold RateShockAnalyzer.identify_shocks, RateShockAnalyzer.shock_candidates.
  simpl.
  change (float_column shock_panel "TREASURY_10Y")
    with (Ok [Some 1; Some 2; Some 3]).
  simpl. compare_reals. reflexivity.
Qed.

(** With a horizon of one day the event on the second day is measured and
    an event on the last day is skipped. *)
Example shock_panel_responses :
  exists ret,
    (RateShockAnalyzer.measure_shock_response shock_analyzer
       (Some [86400000000000; 172800000000000]%Z)).1
    = Ok [{| RateShockAnalyzer.shock_date := 86400000000000%Z;
             RateShockAnalyzer.start_yield := Some 2;
             RateShockAnalyzer.end_yield := Some 3;
             RateShockAnalyzer.rets := [("SPY_ret"%string, Some ret)] |}]
    /\ ret = 10.
Proof.
  eexists. split.
  - unfold RateShockAnalyzer.measure_shock_response. simpl.
    unfold RateShockAnalyzer.measure_event, RateShockAnalyzer.measure_one.
    simpl. unfold RateShockAnalyzer.ticker_return.
    change (float_column shock_panel "TREASURY_10Y")
      with (Ok [Some 1; Some 2; Some 3]).
    change (has_column shock_panel "SPY") with true.
    change (float_column shock_panel "SPY")
      with (Ok [Some 100; Some 110; Some 121]).
    simpl. compare_reals. reflexivity.
  - lra.
Qed.

(** Why the dates have to be unique: the write of line 69 addresses rows
    by their date, so on [repeated_date_panel] labelling the second row
    also relabels the first, which lies before the lookback horizon. *)
Remark repeated_date_relabels_warmup_row :
  exists df,
    classify one_day_lookback repeated_date_panel = Ok df /\
    regime_at df 0 = Some STRESS.
Proof.
  eexists. split.
  - apply (classify_eq _ _ [Some 1; Some 1] [Some 3; Some 3]
             [Some 40; Some 40]); reflexivity.
  - unfold regime_at, classified, str_column, getitem, setitem. simpl.
    rewrite lookup_insert_eq. simpl.
    unfold label_rows, label_row, regime_rule, loc_set, iloc. simpl.
    by compare_reals.
Qed.
End Samples.

(** * Further properties of the code *)

(** ** Runs of labels and the regime summary *)

Section Runs.
Import RegimeClassifier.

Lemma cell_eq_true (a b : option Regime) :
  cell_eq a b = true <-> exists r, a = Some r /\ b = Some r.
Proof.
  destruct a as [x|], b as [y|]; simpl; split; try done.
  - intros H. apply bool_decide_eq_true in H. subst. eauto.
  - intros (r & [= ->] & [= ->]). by apply bool_decide_eq_true_2.
  - by intros (? & ? & ?).
  - by intros (? & ? & ?).
  - by intros (? & ? & ?).
Qed.

Lemma cell_ne_negb (a b : option Regime) : cell_ne a b = negb (cell_eq a b).
Proof.
  destruct a as [x|], b as [y|]; simpl; try done.
  apply bool_decide_not.
Qed.

(** The scan of lines 98-108 from a state whose run is open. *)
Lemma foldl_duration_step (ds : list (option Regime * nat))
    (current : option Regime) (n : nat) (labels : list (option Regime)) :
  (let '(ds', cur, n') := foldl duration_step (ds, Some current, n) labels in
   match cur with
   | Some c => ds' ++ [(c, n')]
   | None => ds'
   end) = ds ++ runs_from current n labels.
Proof.
  revert ds current n. induction labels as [|x labels IH];
    intros ds current n; simpl; [done|].
  destruct (cell_eq x current); [apply IH|].
  rewrite IH. by rewrite <- app_assoc.
Qed.

Lemma durations_runs (labels : list (option Regime)) :
  durations labels =
  match labels with
  | [] => []
  | x :: labels' => runs_from x 1 labels'
  end.
Proof.
  unfold durations. destruct labels as [|x labels]; [done|]. simpl.
  apply (foldl_duration_step [] x 1 labels).
Qed.

Lemma expand_runs_from (current : option Regime) (n : nat)
    (labels : list (option Regime)) :
  expand (runs_from current n labels) = replicate n current ++ labels.
Proof.
  revert current n. induction labels as [|x labels IH]; intros current n;
    simpl.
  - unfold expand. simpl. by rewrite !app_nil_r.
  - destruct (cell_eq x current) eqn:Heq.
    + apply cell_eq_true in Heq as (r & -> & ->). rewrite IH.
      by rewrite replicate_S_end, <- app_assoc.
    + unfold expand in *. simpl. by rewrite IH.
  Qed.

Lemma runs_from_positive (current : option Regime) (n : nat)
    (labels : list (option Regime)) :
  (1 <= n)%nat -> Forall (fun run => (1 <= run.2)%nat) (runs_from current n labels).
Proof.
  revert current n. induction labels as [|x labels IH]; intros current n Hn;
    simpl.
  - by repeat constructor.
  - destruct (cell_eq x current); [apply IH; lia|].
    constructor; [done|]. by apply IH.
Qed.

Lemma runs_from_head (current : option Regime) (n : nat)
    (labels : list (option Regime)) :
  exists m rest, runs_from current n labels = (current, m) :: rest.
Proof.
  revert n. induction labels as [|x labels IH]; intros n; simpl; [eauto|].
  destruct (cell_eq x current); eauto.
Qed.

(** Two runs in a row never carry the same label. *)
Lemma runs_from_alternate (current : option Regime) (n : nat)
    (labels : list (option Regime)) (i : nat) (a b : option Regime)
    (da db : nat) :
  runs_from current n labels !! i = Some (a, da) ->
  runs_from current n labels !! S i = Some (b, db) ->
  cell_eq b a = false.
Proof.
  revert current n i. induction labels as [|x labels IH];
    intros current n i Ha Hb; simpl in *.
  - by destruct i.
  - destruct (cell_eq x current) eqn:Heq; [by eapply IH|].
    destruct i as [|i]; simpl in *.
    + inversion Ha; subst.
      destruct (runs_from_head x 1 labels) as (m & rest & Hrun).
      rewrite Hrun in Hb. simpl in Hb. by inversion Hb; subst.
    + by eapply IH.
Qed.
End Runs.

Section RunCounts.
Import RegimeClassifier.

Lemma expand_length (runs : list (option Regime * nat)) :
  length (expand runs) = sum_list (map snd runs).
Proof.
  unfold expand. induction runs as [|[c n] runs IH]; simpl; [done|].
  by rewrite length_app, length_replicate, IH.
Qed.

Lemma value_count_app (xs ys : list (option Regime)) (regime : Regime) :
  value_count (xs ++ ys) regime
  = (value_count xs regime + value_count ys regime)%nat.
Proof. unfold value_count. by rewrite filter_app, length_app. Qed.

Lemma value_count_replicate (n : nat) (c : option Regime) (regime : Regime) :
  value_count (replicate n c) regime
  = if decide (c = Some regime) then n else 0%nat.
Proof.
  unfold value_count. destruct (decide (c = Some regime)) as [Hc|Hc].
  - induction n as [|n IH]; [done|]. cbn [replicate].
    rewrite filter_cons_True by done. simpl. by rewrite IH.
  - induction n as [|n IH]; [done|]. cbn [replicate].
    by rewrite filter_cons_False by done.
Qed.

(** The days of a regime are the days of its runs. *)
Lemma value_count_runs (runs : list (option Regime * nat)) (regime : Regime) :
  value_count (expand runs) regime = sum_list (run_lengths runs regime).
Proof.
  unfold expand. induction runs as [|[c n] runs IH]; simpl; [done|].
  rewrite value_count_app, value_count_replicate, IH.
  unfold run_lengths at 2. simpl. by case_decide.
Qed.

Lemma value_count_zero (labels : list (option Regime)) (regime : Regime) :
  value_count labels regime = 0%nat <-> Some regime ∉ labels.
Proof.
  unfold value_count. induction labels as [|x labels IH].
  - split; [intros _ H; by apply elem_of_nil in H|done].
  - destruct (decide (x = Some regime)) as [Hx|Hx].
    + rewrite filter_cons_True by done. simpl. split; [done|].
      intros Hnot. exfalso. apply Hnot. subst x. by left.
    + rewrite filter_cons_False by done. rewrite IH. split.
      * intros Hnot Hin. apply elem_of_cons in Hin as [Heq|Hin]; [|done].
        by subst.
      * intros Hnot Hin. apply Hnot. by right.
Qed.

Lemma value_count_cons (x : option Regime) (labels : list (option Regime))
    (regime : Regime) :
  value_count (x :: labels) regime
  = ((if decide (x = Some regime) then 1 else 0) + value_count labels regime)%nat.
Proof.
  unfold value_count. case_decide.
  - by rewrite filter_cons_True by done.
  - by rewrite filter_cons_False by done.
Qed.

(** Every labelled row is counted for exactly one regime. *)
Lemma value_counts_total (labels : list (option Regime)) :
  fully_labelled labels ->
  sum_list (map (value_count labels) all_regimes) = length labels.
Proof.
  unfold fully_labelled, all_regimes.
  induction 1 as [|x labels [r ->] Hall IH]; [done|].
  cbn [map sum_list sum_list_with length] in *.
  unfold Datatypes.id in *. rewrite !value_count_cons.
  destruct r; repeat case_decide; try done; lia.
Qed.

Lemma expand_durations (labels : list (option Regime)) :
  expand (durations labels) = labels.
Proof.
  rewrite durations_runs. destruct labels as [|x labels]; [done|].
  by rewrite expand_runs_from.
Qed.
End RunCounts.

(** X1. The runs that [get_regime_summary] records are the run-length
    encoding of the label column: written out again they give the column
    back, every run has at least one day, the run lengths add up to the
    number of rows, and two runs in a row never carry the same label. *)
Theorem durations_encode_the_labels (labels : list (option Regime)) :
  expand (RegimeClassifier.durations labels) = labels /\
  Forall (fun run => (1 <= run.2)%nat) (RegimeClassifier.durations labels) /\
  sum_list (map snd (RegimeClassifier.durations labels)) = length labels /\
  (forall i a da b db regime,
     RegimeClassifier.durations labels !! i = Some (a, da) ->
     RegimeClassifier.durations labels !! S i = Some (b, db) ->
     a = Some regime -> b <> Some regime).
Proof.
  pose proof (expand_durations labels) as Hexp.
  split; [done|]. split; [|split].
  - rewrite durations_runs. destruct labels as [|x labels]; [constructor|].
    by apply runs_from_positive.
  - by rewrite <- expand_length, Hexp.
  - intros i a da b db regime Ha Hb -> ->.
    rewrite durations_runs in Ha, Hb. destruct labels as [|x labels]; [done|].
    pose proof (runs_from_alternate _ _ _ _ _ _ _ _ Ha Hb) as Hne.
    simpl in Hne. by rewrite bool_decide_eq_true_2 in Hne.
Qed.

(** X2. [get_regime_summary] on a labelled panel: an empty panel makes it
    raise KeyError; otherwise the summary has a row exactly for the
    regimes that occur, a row's Days are the rows labelled with the regime
    and also the total length of the regime's runs, and when every row
    carries a label the Days of the four regimes add up to the number of
    rows. *)
Theorem summary_days_add_up (self : RegimeClassifier.t)
    (h : gmap nat DataFrame) (r : nat) (df : DataFrame)
    (labels : list (option Regime)) :
  RegimeClassifier.regime_data self = Some r ->
  h !! r = Some df ->
  str_column df "REGIME" = Ok labels ->
  match labels with
  | [] => RegimeClassifier.get_regime_summary self h
          = Raise (KeyError "regime")
  | _ :: _ =>
      exists summary,
        RegimeClassifier.get_regime_summary self h = Ok summary /\
        (forall regime, summary regime = None <-> Some regime ∉ labels) /\
        (forall regime row, summary regime = Some row ->
           RegimeClassifier.Days row
             = RegimeClassifier.value_count labels regime /\
           RegimeClassifier.Days row
             = sum_list (RegimeClassifier.run_lengths
                           (RegimeClassifier.durations labels) regime) /\
           (1 <= RegimeClassifier.Days row)%nat) /\
        (fully_labelled labels ->
         sum_list (map (days_of summary) all_regimes) = length labels)
  end.
Proof.
  intros Hself Hh Hlabels.
  unfold RegimeClassifier.get_regime_summary, Heap.deref.
  rewrite Hself, Hh. simpl. rewrite Hlabels. simpl.
  destruct labels as [|x labels]; [done|].
  rewrite decide_False.
  2:{ rewrite durations_runs.
      destruct (runs_from_head x 1 labels) as (m & rest & ->). done. }
  eexists. split; [done|].
  assert (Hdays : forall regime,
    days_of (fun regime =>
      let days := RegimeClassifier.value_count (x :: labels) regime in
      if decide (days = 0)%nat then None
      else Some
        {| RegimeClassifier.Days := days;
           RegimeClassifier.Percentage :=
             np.round (np.round
               (fmul (fdiv (Some (INR days)) (Some (INR (len df))))
                     (Some 100)) 2) 1;
           RegimeClassifier.Avg_Duration_Days :=
             np.round (np.mean_R (map INR
               (RegimeClassifier.run_lengths
                  (RegimeClassifier.durations (x :: labels)) regime))) 1 |})
      regime = RegimeClassifier.value_count (x :: labels) regime).
  { intros regime. unfold days_of. simpl. case_decide; simpl; lia. }
  split; [|split].
  - intros regime. simpl. rewrite <- value_count_zero.
    case_decide; split; (done || lia).
  - intros regime row. simpl. case_decide as Hz; [done|].
    intros [= <-]. simpl. split; [done|]. split; [|lia].
    by rewrite <- value_count_runs, expand_durations.
  - intros Hall. rewrite <- (value_counts_total _ Hall).
    unfold all_regimes. simpl. by rewrite !Hdays.
Qed.

(** The summary of [labelled_panel]. *)
Lemma summary_days_add_up_witness :
  exists summary,
    RegimeClassifier.get_regime_summary labelled_classifier labelled_heap
      = Ok summary /\
    (forall regime, summary regime = None
                    <-> Some regime ∉ [Some NORMAL; Some STRESS]) /\
    (forall regime row, summary regime = Some row ->
       RegimeClassifier.Days row
         = RegimeClassifier.value_count [Some NORMAL; Some STRESS] regime /\
       RegimeClassifier.Days row
         = sum_list (RegimeClassifier.run_lengths
                       (RegimeClassifier.durations [Some NORMAL; Some STRESS])
                       regime) /\
       (1 <= RegimeClassifier.Days row)%nat) /\
    (fully_labelled [Some NORMAL; Some STRESS] ->
     sum_list (map (days_of summary) all_regimes)
       = length [Some NORMAL; Some STRESS]).
Proof.
  apply (summary_days_add_up labelled_classifier labelled_heap 1%nat
           labelled_panel [Some NORMAL; Some STRESS]); reflexivity.
Defined.

(** ** Transitions and runs *)

Section TransitionRuns.
Import RegimeClassifier.

Lemma starts_from_zip (prev : option Regime) (labels : list (option Regime)) :
  zip_with cell_ne labels (take (length labels) (prev :: labels))
  = starts_from prev labels.
Proof.
  revert prev. induction labels as [|x labels IH]; intros prev; [done|].
  simpl. by rewrite IH.
Qed.

Lemma regime_shift_cons (x : option Regime) (labels : list (option Regime)) :
  regime_shift (x :: labels) = true :: starts_from x labels.
Proof. unfold regime_shift. by rewrite regime_shift_head, starts_from_zip. Qed.

(** The labels of the runs are the labels of the rows that start one. *)
Lemma runs_from_labels (current : option Regime) (n : nat)
    (labels : list (option Regime)) :
  map fst (runs_from current n labels)
  = current :: select (starts_from current labels) labels.
Proof.
  revert current n. induction labels as [|x labels IH]; intros current n;
    [done|].
  simpl. rewrite cell_ne_negb. destruct (cell_eq x current) eqn:Heq; simpl.
  - apply cell_eq_true in Heq as (r & -> & ->). apply IH.
  - by rewrite IH.
Qed.

(** The row before the start of a run carries the label of the run
    before. *)
Lemma starts_from_previous (prev : option Regime)
    (labels : list (option Regime)) :
  select (starts_from prev labels) (take (length labels) (prev :: labels))
  = take (length (select (starts_from prev labels) labels))
         (prev :: select (starts_from prev labels) labels).
Proof.
  revert prev. induction labels as [|x labels IH]; intros prev; [done|].
  simpl. rewrite cell_ne_negb. destruct (cell_eq x prev) eqn:Heq; simpl.
  - apply cell_eq_true in Heq as (r & -> & ->). apply IH.
  - by rewrite IH.
Qed.

Lemma select_length_mask {A B} (mask : list bool) (xs : list A) (ys : list B) :
  length xs = length ys -> length (select mask xs) = length (select mask ys).
Proof.
  revert xs ys. induction mask as [|b mask IH]; intros [|x xs] [|y ys] Hlen;
    simpl in *; try done.
  destruct b; simpl; auto.
Qed.

(** What [identify_regime_transitions] returns and what it leaves in the
    heap. *)
Lemma identify_regime_transitions_result (self : t) (h : gmap nat DataFrame)
    (r : nat) (df : DataFrame) (labels : list (option Regime))
    (vix fed tsy : column) :
  regime_data self = Some r -> h !! r = Some df ->
  columns df !! "REGIME"%string = Some (StrCol labels) ->
  columns df !! "VIX"%string = Some vix ->
  columns df !! "FED_FUNDS"%string = Some fed ->
  columns df !! "TREASURY_10Y"%string = Some tsy ->
  let mask := regime_shift labels in
  identify_regime_transitions self h =
  (Ok {| index := select mask (index df);
         columns :=
           list_to_map
             [("REGIME"%string, StrCol (select mask labels));
              ("PREV_REGIME"%string, StrCol (select mask (shift 1 labels)));
              ("VIX"%string, col_select mask vix);
              ("FED_FUNDS"%string, col_select mask fed);
              ("TREASURY_10Y"%string, col_select mask tsy)] |},
   <[r := setitem df "REGIME_SHIFT" (BoolCol mask)]> h).
Proof.
  intros Hself Hh Hreg Hvix Hfed Htsy mask.
  unfold identify_regime_transitions, Heap.deref.
  rewrite Hself, Hh. unfold str_column, getitem at 1. rewrite Hreg. simpl.
  fold (regime_shift labels). fold mask.
  unfold project. simpl mapM.
  rewrite (getitem_transitions df mask _ _ "REGIME" _
             ltac:(done) ltac:(done) Hreg).
  rewrite (getitem_transitions df mask _ _ "VIX" _
             ltac:(done) ltac:(done) Hvix).
  rewrite (getitem_transitions df mask _ _ "FED_FUNDS" _
             ltac:(done) ltac:(done) Hfed).
  rewrite (getitem_transitions df mask _ _ "TREASURY_10Y" _
             ltac:(done) ltac:(done) Htsy).
  unfold getitem at 1. simpl. rewrite lookup_insert_eq. done.
Qed.
End TransitionRuns.

(** X3. The transitions are the starts of the runs: on a labelled panel
    [identify_regime_transitions] returns one row per run that
    [get_regime_summary] records, the REGIME column of the transitions
    lists the labels of the runs in order, and PREV_REGIME is that column
    moved down by one row (NaN at the top). *)
Theorem transitions_are_the_run_starts (self : RegimeClassifier.t)
    (h : gmap nat DataFrame) (r : nat) (df : DataFrame)
    (labels : list (option Regime)) :
  RegimeClassifier.regime_data self = Some r ->
  h !! r = Some df ->
  str_column df "REGIME" = Ok labels ->
  length labels = len df ->
  is_Some (columns df !! "VIX"%string) ->
  is_Some (columns df !! "FED_FUNDS"%string) ->
  is_Some (columns df !! "TREASURY_10Y"%string) ->
  exists transitions h' regs prevs,
    RegimeClassifier.identify_regime_transitions self h
      = (Ok transitions, h') /\
    str_column transitions "REGIME" = Ok regs /\
    regs = map fst (RegimeClassifier.durations labels) /\
    str_column transitions "PREV_REGIME" = Ok prevs /\
    prevs = shift 1 regs /\
    len transitions = length (RegimeClassifier.durations labels).
Proof.
  intros Hself Hh Hreg Hlen [vix Hvix] [fed Hfed] [tsy Htsy].
  assert (Hcol : columns df !! "REGIME"%string = Some (StrCol labels)).
  { unfold str_column, getitem in Hreg.
    destruct (columns df !! "REGIME"%string) as [[]|]; simpl in Hreg;
      try discriminate. by inversion Hreg. }
  rewrite (identify_regime_transitions_result self h r df labels vix fed tsy)
    by done.
  eexists _, _, _, _. split; [reflexivity|].
  unfold str_column, getitem, len. simpl.
  rewrite lookup_insert_eq. rewrite lookup_insert_ne by done.
  rewrite lookup_insert_eq. simpl.
  assert (Hregs : select (regime_shift labels) labels
                  = map fst (RegimeClassifier.durations labels)).
  { rewrite durations_runs. destruct labels as [|x labels]; [done|].
    by rewrite regime_shift_cons, runs_from_labels. }
  split; [done|]. split; [exact Hregs|]. split; [reflexivity|]. split.
  - clear Hregs Hcol Hreg Hlen. destruct labels as [|x labels]; [done|].
    rewrite regime_shift_cons. unfold shift. simpl.
    by rewrite starts_from_previous.
  - rewrite <- (length_map fst), <- Hregs.
    apply select_length_mask. by rewrite Hlen.
Qed.

(** The transitions of [labelled_panel]. *)
Lemma transitions_are_the_run_starts_witness :
  exists transitions h' regs prevs,
    RegimeClassifier.identify_regime_transitions
      labelled_classifier labelled_heap = (Ok transitions, h') /\
    str_column transitions "REGIME" = Ok regs /\
    regs = map fst (RegimeClassifier.durations [Some NORMAL; Some STRESS]) /\
    str_column transitions "PREV_REGIME" = Ok prevs /\
    prevs = shift 1 regs /\
    len transitions
      = length (RegimeClassifier.durations [Some NORMAL; Some STRESS]).
Proof.
  apply (transitions_are_the_run_starts labelled_classifier labelled_heap
           1%nat labelled_panel [Some NORMAL; Some STRESS]);
    try reflexivity; eexists; reflexivity.
Defined.

(** X4. A second call of [identify_regime_transitions] returns what the
    first call returned and leaves the heap as the first call left it. *)
Theorem identify_regime_transitions_again (self : RegimeClassifier.t)
    (h : gmap nat DataFrame) :
  RegimeClassifier.identify_regime_transitions self
    (RegimeClassifier.identify_regime_transitions self h).2
  = RegimeClassifier.identify_regime_transitions self h.
Proof.
  unfold RegimeClassifier.identify_regime_transitions, Heap.deref.
  destruct (RegimeClassifier.regime_data self) as [r|]; [|done].
  destruct (h !! r) as [df|] eqn:Hh; simpl; [|by rewrite Hh].
  destruct (str_column df "REGIME") as [labels|] eqn:Hreg; simpl;
    [|by rewrite Hh, Hreg].
  rewrite lookup_insert_eq.
  assert (Hreg' : str_column
            (setitem df "REGIME_SHIFT"
               (BoolCol (zip_with RegimeClassifier.cell_ne labels
                           (shift 1 labels)))) "REGIME" = Ok labels).
  { unfold str_column, getitem, setitem in *. simpl.
    by rewrite lookup_insert_ne. }
  rewrite Hreg'.
  assert (Hsame : forall c,
            setitem (setitem df "REGIME_SHIFT" c) "REGIME_SHIFT" c
            = setitem df "REGIME_SHIFT" c).
  { intros c. unfold setitem. simpl. by rewrite insert_insert_eq. }
  rewrite Hsame. by rewrite insert_insert_eq.
Qed.

(** ** More on classification *)

Section ClassificationMore.
Import RegimeClassifier.

Lemma loc_set_shape {A} (P : A -> Prop) (idx : list Timestamp)
    (label : Timestamp) (v : A) (xs : list A) :
  length xs = length idx -> P v -> Forall P xs ->
  length (loc_set idx label v xs) = length idx /\
  Forall P (loc_set idx label v xs).
Proof.
  intros Hlen Hv Hxs. revert idx Hlen.
  induction Hxs as [|x xs Hx Hxs IH]; intros [|d idx] Hlen; simpl in *;
    try done.
  destruct (IH idx ltac:(lia)) as [IHlen IHall].
  unfold loc_set in *. split; [by rewrite IHlen|].
  constructor; [by case_decide|done].
Qed.

(** The labelling loop keeps one label per row, whatever the dates. *)
Lemma label_rows_shape (config : Config) (idx : list Timestamp)
    (vix_ma rate_change yield_change : list (option R)) (lookback : nat)
    (regime : list (option Regime)) :
  length regime = length idx -> Forall is_Some regime ->
  length (label_rows config idx vix_ma rate_change yield_change
            lookback regime) = length idx /\
  Forall is_Some (label_rows config idx vix_ma rate_change yield_change
                    lookback regime).
Proof.
  unfold label_rows. generalize (seq lookback (length idx - lookback)).
  intros rows. revert regime.
  induction rows as [|i rows IH]; intros regime Hlen Hall; simpl; [done|].
  destruct (loc_set_shape is_Some idx (iloc idx i)
              (Some (regime_rule config (iloc vix_ma i) (iloc rate_change i)
                       (iloc yield_change i))) regime) as [Hl Ha];
    [done|by eexists|done|].
  by apply IH.
Qed.

Lemma classify_window (config : Config) (data df : DataFrame) :
  classify config data = Ok df -> (1 <= VIX_LOOKBACK config)%nat.
Proof.
  intros Hdf. destruct (classify_inv _ _ _ Hdf)
    as (fed & tsy & vix & ma & _ & _ & _ & Hma & _).
  unfold rolling_mean in Hma. case_decide; [done|lia].
Qed.

Lemma rate_change_at_classified (config : Config) (data : DataFrame)
    (fed_funds treasury vix_ma : list (option R)) (i : nat) :
  rate_change_at (classified config data fed_funds treasury vix_ma) i
  = mjoin (diff (QUARTERLY_LOOKBACK config) fed_funds !! i).
Proof.
  unfold rate_change_at, classified.
  rewrite !float_column_setitem_ne by done.
  unfold float_column, getitem, setitem. simpl.
  by rewrite lookup_insert_eq.
Qed.

Lemma yield_change_at_classified (config : Config) (data : DataFrame)
    (fed_funds treasury vix_ma : list (option R)) (i : nat) :
  yield_change_at (classified config data fed_funds treasury vix_ma) i
  = mjoin (diff (QUARTERLY_LOOKBACK config) treasury !! i).
Proof.
  unfold yield_change_at, classified.
  rewrite !float_column_setitem_ne by done.
  unfold float_column, getitem, setitem. simpl.
  by rewrite lookup_insert_eq.
Qed.

Lemma iloc_mjoin (xs : list (option R)) (i : nat) :
  iloc xs i = mjoin (xs !! i).
Proof.
  unfold iloc. rewrite list_lookup_total_alt. by destruct (xs !! i).
Qed.

Lemma notna_float_gt (x : option R) (y : R) :
  notna x && float_gt x y = float_gt x y.
Proof. by destruct x. Qed.

Lemma notna_float_lt (x : option R) (y : R) :
  notna x && float_lt x y = float_lt x y.
Proof. by destruct x. Qed.
End ClassificationMore.


(** X6. A classified panel keeps the dates and every column of the input
    other than the four derived ones, and its REGIME column has exactly
    one label for every row. *)
Theorem classify_adds_derived_columns (config : Config)
    (data df : DataFrame) :
  RegimeClassifier.classify config data = Ok df ->
  index df = index data /\
  (forall name, name ∉ derived_columns ->
                columns df !! name = columns data !! name) /\
  (forall name, name ∈ derived_columns -> is_Some (columns df !! name)) /\
  exists labels,
    str_column df "REGIME" = Ok labels /\
    length labels = len data /\
    fully_labelled labels.
Proof.
  intros Hdf. destruct (classify_inv _ _ _ Hdf)
    as (fed & tsy & vix & ma & _ & _ & _ & _ & ->).
  split; [done|]. split; [|split].
  - intros name Hname. unfold classified, setitem. simpl.
    unfold derived_columns in Hname.
    rewrite !lookup_insert_ne; [done|..];
      intros <-; apply Hname; repeat constructor.
  - intros name Hname. unfold classified, setitem, derived_columns in *.
    simpl. repeat (apply elem_of_cons in Hname as [->|Hname]);
      [..|by apply elem_of_nil in Hname];
      rewrite ?lookup_insert_eq;
      repeat (rewrite lookup_insert_ne by done; rewrite ?lookup_insert_eq);
      by eexists.
  - eexists. unfold str_column, getitem, classified, setitem. simpl.
    rewrite lookup_insert_eq. simpl. split; [done|].
    apply label_rows_shape.
    + by rewrite length_replicate.
    + apply Forall_replicate. by eexists.
Qed.

(** [two_day_panel], classified. *)
Lemma classify_adds_derived_columns_witness :
  index (classified one_day_lookback two_day_panel
           [Some 1; Some 2] [Some 3; Some 3] [Some (40 / 1); Some (40 / 1)])
    = index two_day_panel /\
  (forall name, name ∉ derived_columns ->
     columns (classified one_day_lookback two_day_panel
                [Some 1; Some 2] [Some 3; Some 3]
                [Some (40 / 1); Some (40 / 1)]) !! name
     = columns two_day_panel !! name) /\
  (forall name, name ∈ derived_columns ->
     is_Some (columns (classified one_day_lookback two_day_panel
                         [Some 1; Some 2] [Some 3; Some 3]
                         [Some (40 / 1); Some (40 / 1)]) !! name)) /\
  exists labels,
    str_column (classified one_day_lookback two_day_panel
                  [Some 1; Some 2] [Some 3; Some 3]
                  [Some (40 / 1); Some (40 / 1)]) "REGIME" = Ok labels /\
    length labels = len two_day_panel /\
    fully_labelled labels.
Proof.
  apply (classify_adds_derived_columns one_day_lookback two_day_panel).
  apply (classify_eq _ _ _ _ [Some 40; Some 40]); try reflexivity.
  unfold rolling_mean, window_mean, window, Rsum. simpl.
  repeat f_equal; lra.
Defined.

Lemma two_day_classify :
  RegimeClassifier.classify one_day_lookback two_day_panel
  = Ok two_day_classified.
Proof.
  apply (classify_eq _ _ _ _ [Some 40; Some 40]); try reflexivity.
  unfold rolling_mean, window_mean, window, Rsum. simpl.
  repeat f_equal; lra.
Qed.

(** X7. The decision table of the labels: on a panel with unique dates, a
    row at or after the lookback horizon is STRESS when its VIX_MA is above
    the stress threshold; otherwise TIGHTENING when its rate change or its
    yield change is above the threshold, also when the other one has
    fallen; otherwise EASING when one of them is below minus the threshold;
    otherwise NORMAL.  NaN values satisfy no comparison. *)
Theorem labels_follow_the_decision_table (config : Config)
    (data df : DataFrame) (i : nat) :
  RegimeClassifier.classify config data = Ok df ->
  NoDup (index data) ->
  (QUARTERLY_LOOKBACK config <= i)%nat -> (i < len data)%nat ->
  let stress := float_gt (vix_ma_at df i) (VIX_STRESS_THRESHOLD config) in
  let up :=
    float_gt (rate_change_at df i) (RATE_CHANGE_THRESHOLD config)
    || float_gt (yield_change_at df i) (RATE_CHANGE_THRESHOLD config) in
  let down :=
    float_lt (rate_change_at df i) (- RATE_CHANGE_THRESHOLD config)
    || float_lt (yield_change_at df i) (- RATE_CHANGE_THRESHOLD config) in
  regime_at df i =
  Some (if stress then STRESS
        else if up then TIGHTENING
        else if down then EASING
        else NORMAL).
Proof.
  intros Hdf Hnd Hlb Hlen.
  destruct (classify_inv _ _ _ Hdf)
    as (fed & tsy & vix & ma & _ & _ & _ & _ & ->).
  cbv zeta.
  rewrite vix_ma_at_classified, rate_change_at_classified,
    yield_change_at_classified.
  rewrite regime_at_classified by done.
  rewrite decide_False by lia. f_equal.
  unfold rule_at, RegimeClassifier.regime_rule.
  rewrite !iloc_mjoin, !notna_float_gt, !notna_float_lt. done.
Qed.

(** The second day of [two_day_panel]. *)
Lemma labels_follow_the_decision_table_witness :
  let stress := float_gt (vix_ma_at two_day_classified 1)
                  (VIX_STRESS_THRESHOLD one_day_lookback) in
  let up :=
    float_gt (rate_change_at two_day_classified 1)
      (RATE_CHANGE_THRESHOLD one_day_lookback)
    || float_gt (yield_change_at two_day_classified 1)
         (RATE_CHANGE_THRESHOLD one_day_lookback) in
  let down :=
    float_lt (rate_change_at two_day_classified 1)
      (- RATE_CHANGE_THRESHOLD one_day_lookback)
    || float_lt (yield_change_at two_day_classified 1)
         (- RATE_CHANGE_THRESHOLD one_day_lookback) in
  regime_at two_day_classified 1 =
  Some (if stress then STRESS
        else if up then TIGHTENING
        else if down then EASING
        else NORMAL).
Proof.
  apply (labels_follow_the_decision_table one_day_lookback two_day_panel).
  - exact two_day_classify.
  - exact two_day_panel_unique.
  - simpl. lia.
  - unfold len. simpl. lia.
Defined.

(** X8. Classifying a classified panel again changes nothing: the result
    is the panel itself. *)
Theorem classify_is_idempotent (config : Config) (data df : DataFrame) :
  RegimeClassifier.classify config data = Ok df ->
  RegimeClassifier.classify config df = Ok df.
Proof.
  intros Hdf. destruct (classify_inv _ _ _ Hdf)
    as (fed & tsy & vix & ma & Hfed & Htsy & Hvix & Hma & ->).
  rewrite (classify_eq config _ fed tsy vix ma); try done.
  - f_equal. unfold classified at 1. simpl.
    assert (Hid : forall (d : DataFrame) name c,
              columns d !! name = Some c -> setitem d name c = d).
    { intros [idx cols] name c Hc. unfold setitem. simpl in *.
      by rewrite insert_id. }
    unfold len. simpl.
    rewrite (Hid _ "RATE_CHANGE_QTR"%string).
    2:{ unfold classified, setitem. simpl.
        rewrite !lookup_insert_ne by done. by rewrite lookup_insert_eq. }
    rewrite (Hid _ "YIELD_CHANGE_QTR"%string).
    2:{ unfold classified, setitem. simpl.
        rewrite !lookup_insert_ne by done. by rewrite lookup_insert_eq. }
    rewrite (Hid _ "VIX_MA"%string).
    2:{ unfold classified, setitem. simpl.
        rewrite !lookup_insert_ne by done. by rewrite lookup_insert_eq. }
    apply Hid. unfold classified, setitem. simpl.
    by rewrite lookup_insert_eq.
  - unfold classified. by rewrite !float_column_setitem_ne by done.
  - unfold classified. by rewrite !float_column_setitem_ne by done.
  - unfold classified. by rewrite !float_column_setitem_ne by done.
Qed.

Lemma classify_is_idempotent_witness :
  RegimeClassifier.classify one_day_lookback two_day_classified
  = Ok two_day_classified.
Proof.
  apply (classify_is_idempotent one_day_lookback two_day_panel).
  exact two_day_classify.
Defined.

(** X9. [classify_regimes] writes into no existing object: on success the
    labelled panel is a new object, the panel the classifier was given and
    every other object are as before, and the classifier keeps its data;
    on failure the heap is unchanged. *)
Theorem classify_regimes_allocates_a_new_panel (self : RegimeClassifier.t)
    (h : gmap nat DataFrame) :
  match RegimeClassifier.classify_regimes self h with
  | (Ok (r, self'), h') =>
      h !! r = None /\
      (forall r', r' <> r -> h' !! r' = h !! r') /\
      RegimeClassifier.data self' = RegimeClassifier.data self /\
      RegimeClassifier.regime_data self' = Some r /\
      RegimeClassifier.get_data self' = Ok r /\
      exists panel df,
        h !! RegimeClassifier.data self = Some panel /\
        RegimeClassifier.classify (RegimeClassifier.config self) panel
          = Ok df /\
        h' !! r = Some df
  | (Raise _, h') => h' = h
  end.
Proof.
  unfold RegimeClassifier.classify_regimes, Heap.deref.
  destruct (h !! RegimeClassifier.data self) as [panel|] eqn:Hpanel;
    simpl; [|done].
  destruct (RegimeClassifier.classify (RegimeClassifier.config self) panel)
    as [df|] eqn:Hdf; [|done].
  unfold Heap.alloc.
  pose proof (is_fresh (dom h)) as Hfresh.
  apply not_elem_of_dom in Hfresh.
  split; [done|]. split.
  { intros r' Hne. by rewrite lookup_insert_ne. }
  repeat split; try done.
  exists panel, df. by rewrite lookup_insert_eq.
Qed.

Section Calm.
Import RegimeClassifier.

Lemma Rsum_le (hi : R) (xs : list R) :
  Forall (fun x => x <= hi) xs -> Rsum xs <= INR (length xs) * hi.
Proof.
  induction 1 as [|x xs Hx Hxs IH].
  - simpl. lra.
  - cbn [Rsum foldr length]. rewrite S_INR. unfold Rsum in IH. lra.
Qed.

Lemma Rsum_ge (lo : R) (xs : list R) :
  Forall (fun x => lo <= x) xs -> INR (length xs) * lo <= Rsum xs.
Proof.
  induction 1 as [|x xs Hx Hxs IH].
  - simpl. lra.
  - cbn [Rsum foldr length]. rewrite S_INR. unfold Rsum in IH. lra.
Qed.

(** A mean lies between any two bounds of the values. *)
Lemma mean_le (hi : R) (xs : list R) :
  (0 < length xs)%nat -> Forall (fun x => x <= hi) xs ->
  Rsum xs / INR (length xs) <= hi.
Proof.
  intros Hn Hxs.
  assert (Hpos : 0 < INR (length xs)) by (apply lt_0_INR; lia).
  pose proof (Rsum_le hi xs Hxs) as Hle.
  apply Rmult_le_reg_r with (r := INR (length xs)); [done|].
  unfold Rdiv. rewrite Rmult_assoc, Rinv_l by lra. lra.
Qed.

Lemma mean_ge (lo : R) (xs : list R) :
  (0 < length xs)%nat -> Forall (fun x => lo <= x) xs ->
  lo <= Rsum xs / INR (length xs).
Proof.
  intros Hn Hxs.
  assert (Hpos : 0 < INR (length xs)) by (apply lt_0_INR; lia).
  pose proof (Rsum_ge lo xs Hxs) as Hge.
  apply Rmult_le_reg_r with (r := INR (length xs)); [done|].
  unfold Rdiv. rewrite Rmult_assoc, Rinv_l by lra. lra.
Qed.

Lemma elem_of_dropna {A} (x : A) (xs : list (option A)) :
  x ∈ dropna xs <-> Some x ∈ xs.
Proof.
  unfold dropna. rewrite list_elem_of_omap. split.
  - intros (o & Ho & Hx). simpl in Hx. by subst.
  - intros Hx. by exists (Some x).
Qed.

Lemma elem_of_window {A} (w i : nat) (x : A) (xs : list A) :
  x ∈ window w i xs -> x ∈ xs.
Proof.
  unfold window. intros Hx.
  apply (elem_of_sublist _ _ _ Hx).
  etrans; [apply sublist_drop|apply sublist_take].
Qed.

(** A trailing mean never exceeds an upper bound of the series. *)
Lemma rolling_mean_le (w : nat) (hi : R) (xs ma : list (option R)) (i : nat)
    (m : R) :
  rolling_mean w 1 xs = Ok ma ->
  (forall x, Some x ∈ xs -> x <= hi) ->
  ma !! i = Some (Some m) -> m <= hi.
Proof.
  unfold rolling_mean. case_decide; [done|]. intros [= <-] Hxs Hi.
  change (((fun i => window_mean 1 (window w i xs)) <$> seq 0 (length xs))
            !! i = Some (Some m)) in Hi.
  apply list_lookup_fmap_Some in Hi as (j & Hm & Hj).
  unfold window_mean in Hm. case_decide as Hn; [|done].
  case_decide; [done|]. inversion Hm; subst. clear Hm.
  apply mean_le; [lia|].
  apply Forall_forall. intros x Hx.
  apply Hxs. apply elem_of_dropna in Hx. by eapply elem_of_window.
Qed.
End Calm.

(** X10. A calm market is never STRESS: when no value of the volatility
    index is above the stress threshold, no row of the classified panel
    (dates unique) is labelled STRESS. *)
Theorem calm_market_is_never_stress (config : Config) (data df : DataFrame)
    (vix : list (option R)) :
  RegimeClassifier.classify config data = Ok df ->
  NoDup (index data) ->
  float_column data "VIX" = Ok vix ->
  (forall x, Some x ∈ vix -> x <= VIX_STRESS_THRESHOLD config) ->
  forall i, regime_at df i <> Some STRESS.
Proof.
  intros Hdf Hnd Hvix Hcalm i.
  destruct (classify_inv _ _ _ Hdf)
    as (fed & tsy & vix' & ma & _ & _ & Hvix' & Hma & ->).
  rewrite Hvix in Hvix'. inversion Hvix'; subst vix'. clear Hvix'.
  destruct (decide (i < len data)%nat) as [Hi|Hi].
  - rewrite regime_at_classified by done.
    case_decide; [done|]. intros [= Hrule].
    unfold rule_at, RegimeClassifier.regime_rule in Hrule.
    rewrite iloc_mjoin, notna_float_gt in Hrule.
    destruct (ma !! i) as [[m|]|] eqn:Hm; simpl in Hrule.
    + pose proof (rolling_mean_le _ _ _ _ _ _ Hma Hcalm Hm) as Hle.
      rewrite bool_decide_eq_false_2 in Hrule by lra.
      repeat (destruct (_ || _) in Hrule); done.
    + repeat (destruct (_ || _) in Hrule); done.
    + repeat (destruct (_ || _) in Hrule); done.
  - unfold regime_at, classified, str_column, getitem, setitem. simpl.
    rewrite lookup_insert_eq. simpl.
    rewrite lookup_ge_None_2; [done|].
    unfold len. rewrite label_rows_length by done. unfold len in Hi. lia.
Qed.

(** [two_day_panel], whose volatility index is 40, under
    [high_threshold]. *)
Lemma calm_market_is_never_stress_witness :
  NoDup (index two_day_panel) /\
  regime_at
    (classified high_threshold two_day_panel
       [Some 1; Some 2] [Some 3; Some 3] [Some (40 / 1); Some (40 / 1)]) 1
  <> Some STRESS.
Proof.
  split; [exact two_day_panel_unique|].
  apply (calm_market_is_never_stress high_threshold two_day_panel _
           [Some 40; Some 40]).
  - apply (classify_eq _ _ _ _ [Some 40; Some 40]); try reflexivity.
    unfold rolling_mean, window_mean, window, Rsum. simpl.
    repeat f_equal; lra.
  - exact two_day_panel_unique.
  - reflexivity.
  - intros x Hx. simpl.
    repeat (apply elem_of_cons in Hx as [Hx|Hx]; [inversion Hx; lra|]).
    by apply elem_of_nil in Hx.
Defined.

(** ** Returns *)

Section Returns.
Import PerformanceAnalyzer.

Lemma shift_1_lookup {A} (xs : list (option A)) (i : nat) (prev : option A) :
  shift 1 xs !! i = Some prev ->
  prev = None \/ exists j, i = S j /\ xs !! j = Some prev.
Proof.
  intros Hi.
  assert (Hlt : (i < length xs)%nat).
  { apply lookup_lt_Some in Hi. by rewrite length_shift in Hi. }
  destruct i as [|j].
  - rewrite shift_lookup_lt in Hi by lia. inversion Hi. by left.
  - rewrite shift_lookup_ge in Hi by lia. right. exists j.
    split; [done|]. by replace (S j - 1)%nat with j in Hi by lia.
Qed.

(** The daily return of positive prices is above -100%. *)
Lemma pct_change_above (prices : list (option R)) (r : R) :
  positive_prices prices -> Some r ∈ pct_change prices -> -1 < r.
Proof.
  intros Hpos Hr. unfold pct_change in Hr.
  apply elem_of_lookup_zip_with in Hr as (i & x & prev & Hr & Hx & Hprev).
  unfold positive_prices in Hpos. rewrite Forall_lookup in Hpos.
  destruct (Hpos _ _ Hx) as (p & -> & Hp).
  apply shift_1_lookup in Hprev as [->|(j & -> & Hj)]; [done|].
  destruct (Hpos _ _ Hj) as (q & -> & Hq).
  simpl in Hr. rewrite decide_False in Hr by lra. simpl in Hr.
  inversion Hr; subst.
  assert (0 < p / q) by (apply Rdiv_lt_0_compat; lra). lra.
Qed.

Lemma pct_change_head (prices : list (option R)) :
  (0 < length prices)%nat -> pct_change prices !! 0%nat = Some NaN.
Proof.
  intros Hn. unfold pct_change. rewrite lookup_zip_with.
  rewrite shift_lookup_lt by lia.
  destruct prices as [|x prices]; [simpl in Hn; lia|]. simpl.
  by destruct x.
Qed.

Lemma length_pct_change (prices : list (option R)) :
  length (pct_change prices) = length prices.
Proof.
  unfold pct_change. rewrite length_zip_with, length_shift. lia.
Qed.

End Returns.

Lemma add_returns_fold (all tickers : list string) (d out : DataFrame) :
  tickers ⊆ all ->
  foldlM PerformanceAnalyzer.add_returns d tickers = Ok out ->
  (forall ticker prices, ticker ∈ all ->
     float_column d ticker = Ok prices -> positive_prices prices) ->
  (forall t t', t ∈ all -> t' ∈ all -> t' <> PerformanceAnalyzer.ret_col t) ->
  returns_above_minus_one d ->
  returns_above_minus_one out /\ index out = index d.
Proof.
  intros Hsub Hfold Hpos Hnames Hret. revert d Hsub Hfold Hpos Hret.
  induction tickers as [|t tickers IH]; intros d Hsub Hfold Hpos Hret;
    cbn [foldlM] in Hfold.
  { by inversion Hfold; subst. }
  destruct (PerformanceAnalyzer.add_returns d t) as [d'|] eqn:Hstep; [|done].
  simpl in Hfold.
  assert (Ht : t ∈ all) by (apply Hsub; by left).
  assert (Hsub' : tickers ⊆ all) by (intros x Hx; apply Hsub; by right).
  unfold PerformanceAnalyzer.add_returns in Hstep.
  destruct (has_column d t).
  - destruct (float_column d t) as [prices|] eqn:Hprices; [|done].
    simpl in Hstep. inversion Hstep; subst d'. clear Hstep.
    destruct (IH _ Hsub' Hfold) as [Hout Hidx]; [| |by split].
    + intros ticker prices' Hin Hcol.
      rewrite float_column_setitem_ne in Hcol; [by apply (Hpos ticker)|].
      intros Heq. by apply (Hnames t ticker Ht Hin).
    + intros ticker col x Hcol Hx.
      destruct (decide (PerformanceAnalyzer.ret_col t
                        = PerformanceAnalyzer.ret_col ticker)) as [Heq|Hne].
      * rewrite <- Heq in Hcol.
        unfold float_column, getitem, setitem in Hcol. simpl in Hcol.
        rewrite lookup_insert_eq in Hcol. simpl in Hcol.
        inversion Hcol; subst col.
        apply (pct_change_above prices); [|done]. by apply (Hpos t).
      * rewrite float_column_setitem_ne in Hcol by done.
        by apply (Hret ticker col).
  - inversion Hstep; subst d'. by apply IH.
Qed.

(** X11. Positive prices give returns above -100%: when every priced
    ticker has a gap-free positive price series, no ticker is named like
    the return column of a ticker, and the return columns the panel may
    already hold are above -100%, then every valid return of the frame
    [calculate_returns] produces is above -100%; the frame keeps the dates
    and becomes [self.returns_data]. *)
Theorem returns_of_positive_prices (self self' : PerformanceAnalyzer.t)
    (df : DataFrame) :
  PerformanceAnalyzer.calculate_returns self = (Ok df, self') ->
  (forall ticker prices,
     ticker ∈ TICKERS (PerformanceAnalyzer.config self) ->
     float_column (PerformanceAnalyzer.data self) ticker = Ok prices ->
     positive_prices prices) ->
  (forall t t', t ∈ TICKERS (PerformanceAnalyzer.config self) ->
                t' ∈ TICKERS (PerformanceAnalyzer.config self) ->
                t' <> PerformanceAnalyzer.ret_col t) ->
  returns_above_minus_one (PerformanceAnalyzer.data self) ->
  returns_above_minus_one df /\
  index df = index (PerformanceAnalyzer.data self) /\
  PerformanceAnalyzer.returns_data self' = Some df.
Proof.
  unfold PerformanceAnalyzer.calculate_returns.
  destruct (foldlM PerformanceAnalyzer.add_returns
              (PerformanceAnalyzer.data self)
              (TICKERS (PerformanceAnalyzer.config self)))
    as [out|] eqn:Hfold; [|done].
  intros [= <- <-] Hpos Hnames Hret. simpl.
  destruct (add_returns_fold (TICKERS (PerformanceAnalyzer.config self))
              _ _ _ ltac:(done) Hfold) as [Hout Hidx]; done.
Qed.

Lemma string_length_app (a b : string) :
  String.length (a +:+ b) = (String.length a + String.length b)%nat.
Proof. induction a as [|c a IH]; simpl; [done|]. by rewrite IH. Qed.

Lemma ret_col_length (ticker : string) :
  String.length (PerformanceAnalyzer.ret_col ticker)
  = (String.length ticker + 4)%nat.
Proof. unfold PerformanceAnalyzer.ret_col. by rewrite string_length_app. Qed.

Lemma priced_panel_no_returns (P : R -> Prop) : returns_satisfy P priced_panel.
Proof.
  intros ticker col x Hcol Hx. apply float_column_Some in Hcol.
  unfold priced_panel in Hcol. simpl in Hcol.
  apply lookup_insert_Some in Hcol as [[Hkey _]|[_ Hcol]]; [|done].
  pose proof (ret_col_length ticker) as Hlen.
  rewrite <- Hkey in Hlen. simpl in Hlen. lia.
Qed.

(** The returns of [priced_panel]. *)
Lemma returns_of_positive_prices_witness :
  returns_above_minus_one priced_returns /\
  index priced_returns = index (PerformanceAnalyzer.data priced_analyzer) /\
  PerformanceAnalyzer.returns_data
    {| PerformanceAnalyzer.data := priced_panel;
       PerformanceAnalyzer.config := one_day_lookback;
       PerformanceAnalyzer.returns_data := Some priced_returns |}
  = Some priced_returns.
Proof.
  apply (returns_of_positive_prices priced_analyzer).
  - reflexivity.
  - intros ticker prices Hin Hcol. simpl in Hin.
    apply list_elem_of_singleton in Hin. subst ticker.
    inversion Hcol; subst prices.
    repeat constructor; eexists; (split; [reflexivity|lra]).
  - intros t t' Ht Ht'. simpl in Ht, Ht'.
    apply list_elem_of_singleton in Ht, Ht'. by subst.
  - apply (priced_panel_no_returns (fun x => -1 < x)).
Defined.

(** ** More on the performance table *)

Section RecordsMore.
Import PerformanceAnalyzer.

Lemma select_length_true {A} (mask : list bool) (xs : list A) :
  (length (select mask xs) <= length (filter (fun b => b = true) mask))%nat.
Proof.
  revert xs. induction mask as [|b mask IH]; intros [|x xs]; simpl;
    try lia.
  - destruct b.
    + rewrite filter_cons_True by done. simpl. specialize (IH xs). lia.
    + rewrite filter_cons_False by done. apply IH.
Qed.

Lemma length_dropna {A} (xs : list (option A)) :
  (length (dropna xs) <= length xs)%nat.
Proof.
  induction xs as [|[x|] xs IH]; simpl; lia.
Qed.

(** As [regime_performance_records], with the days of the regime. *)
Lemma regime_performance_records_days (self : t)
    (records : list PerformanceRecord) (rec : PerformanceRecord) :
  regime_performance self = Ok records -> rec ∈ records ->
  exists df labels regime ticker col,
    returns_data self = Some df /\
    getitem df "REGIME" = Ok labels /\
    (10 <= len (df_select (eq_mask labels regime) df))%nat /\
    ticker ∈ TICKERS (config self) /\
    float_column (df_select (eq_mask labels regime) df) (ret_col ticker)
      = Ok col /\
    (5 <= length (dropna col))%nat /\
    rec = make_record regime ticker
            (metrics (ANNUALIZATION_FACTOR (config self)) (dropna col))
            (length (dropna col)).
Proof.
  unfold regime_performance.
  destruct (returns_data self) as [df|]; [|done].
  destruct (mapM (one_regime_performance (config self) df) regimes)
    as [per_regime|] eqn:Hm; [|done].
  simpl. intros [= <-] Hin.
  apply elem_of_concat in Hin as (recs & Hin & Hrecs).
  apply mapM_Ok_inv in Hm.
  apply list_elem_of_lookup_1 in Hrecs as [n Hn].
  destruct (Forall2_lookup_r _ _ _ _ _ Hm Hn) as (regime & _ & Hone).
  unfold one_regime_performance in Hone.
  destruct (getitem df "REGIME") as [labels|] eqn:Hlabels; [|done].
  simpl in Hone.
  destruct (decide (len (df_select (eq_mask labels regime) df) < 10)%nat)
    as [|Hdays].
  { inversion Hone; subst. by apply elem_of_nil in Hin. }
  destruct (mapM _ (TICKERS (config self))) as [per_ticker|] eqn:Ht;
    [|done].
  simpl in Hone. inversion Hone; subst. clear Hone.
  apply elem_of_concat in Hin as (cell & Hin & Hcell).
  apply mapM_Ok_inv in Ht.
  apply list_elem_of_lookup_1 in Hcell as [k Hk].
  destruct (Forall2_lookup_r _ _ _ _ _ Ht Hk) as (ticker & Htk & Hperf).
  unfold ticker_performance in Hperf.
  destruct (negb (has_column df (ret_col ticker))).
  { inversion Hperf; subst. by apply elem_of_nil in Hin. }
  destruct (float_column _ (ret_col ticker)) as [col|] eqn:Hcol; [|done].
  simpl in Hperf.
  destruct (decide (length (dropna col) < 5)%nat).
  { inversion Hperf; subst. by apply elem_of_nil in Hin. }
  inversion Hperf; subst. apply list_elem_of_singleton in Hin.
  exists df, labels, regime, ticker, col.
  repeat split; try done; [lia| |lia].
  eapply list_elem_of_lookup_2; eauto.
Qed.

Lemma round_ge (n : nat) (a : Z) (v : R) :
  IZR a / 10 ^ n <= v ->
  exists r, np.round (Some v) n = Some r /\ IZR a / 10 ^ n <= r.
Proof.
  intros Hlo. unfold np.round. simpl. eexists. split; [done|].
  assert (Hp : 0 < 10 ^ n) by (apply pow_lt; lra).
  assert (Ha : IZR a <= v * 10 ^ n).
  { apply Rmult_le_compat_r with (r := 10 ^ n) in Hlo; [|lra].
    unfold Rdiv in Hlo. rewrite Rmult_assoc, Rinv_l in Hlo by lra. lra. }
  apply rint_lower, IZR_le in Ha.
  unfold Rdiv. apply Rmult_le_compat_r; [|done].
  apply Rlt_le, Rinv_0_lt_compat. done.
Qed.

Lemma round_le (n : nat) (b : Z) (v : R) :
  v <= IZR b / 10 ^ n ->
  exists r, np.round (Some v) n = Some r /\ r <= IZR b / 10 ^ n.
Proof.
  intros Hhi. unfold np.round. simpl. eexists. split; [done|].
  assert (Hp : 0 < 10 ^ n) by (apply pow_lt; lra).
  assert (Hb : v * 10 ^ n <= IZR b).
  { apply Rmult_le_compat_r with (r := 10 ^ n) in Hhi; [|lra].
    unfold Rdiv in Hhi. rewrite Rmult_assoc, Rinv_l in Hhi by lra. lra. }
  apply rint_upper, IZR_le in Hb.
  unfold Rdiv. apply Rmult_le_compat_r; [|done].
  apply Rlt_le, Rinv_0_lt_compat. done.
Qed.
End RecordsMore.

(** X12. A row of the performance table exists only for a regime with at
    least ten days: the row's regime labels at least ten rows of the
    panel, the observations of the row are at least five and at most the
    rows of the regime, and its asset is one of the configured tickers. *)
Theorem records_need_ten_days (self : PerformanceAnalyzer.t)
    (records : list PerformanceAnalyzer.PerformanceRecord)
    (rec : PerformanceAnalyzer.PerformanceRecord) :
  PerformanceAnalyzer.regime_performance self = Ok records ->
  rec ∈ records ->
  exists df labels,
    PerformanceAnalyzer.returns_data self = Some df /\
    getitem df "REGIME" = Ok labels /\
    (10 <= regime_rows labels (PerformanceAnalyzer.Regime_ rec))%nat /\
    (5 <= PerformanceAnalyzer.Observations rec
       <= regime_rows labels (PerformanceAnalyzer.Regime_ rec))%nat /\
    PerformanceAnalyzer.Asset rec
      ∈ TICKERS (PerformanceAnalyzer.config self).
Proof.
  intros Hrun Hrec.
  destruct (regime_performance_records_days _ _ _ Hrun Hrec)
    as (df & labels & regime & ticker & col & Hdf & Hlab & Hdays & Ht
        & Hcol & Hn & ->).
  exists df, labels. simpl. split; [done|]. split; [done|].
  unfold regime_rows. split.
  - unfold len, df_select in Hdays. simpl in Hdays.
    pose proof (select_length_true
                  (PerformanceAnalyzer.eq_mask labels regime) (index df)).
    lia.
  - split; [|done]. split; [done|].
    rewrite float_column_df_select in Hcol.
    destruct (float_column df (PerformanceAnalyzer.ret_col ticker))
      as [col0|]; [|done].
    simpl in Hcol. inversion Hcol; subst col.
    pose proof (length_dropna
                  (select (PerformanceAnalyzer.eq_mask labels regime) col0)).
    pose proof (select_length_true
                  (PerformanceAnalyzer.eq_mask labels regime) col0).
    lia.
Qed.

(** The one row of the performance table of [balanced_panel]. *)
Lemma records_need_ten_days_witness :
  exists df labels,
    PerformanceAnalyzer.returns_data balanced_analyzer = Some df /\
    getitem df "REGIME" = Ok labels /\
    (10 <= regime_rows labels
             (PerformanceAnalyzer.Regime_ balanced_record))%nat /\
    (5 <= PerformanceAnalyzer.Observations balanced_record
       <= regime_rows labels
            (PerformanceAnalyzer.Regime_ balanced_record))%nat /\
    PerformanceAnalyzer.Asset balanced_record
      ∈ TICKERS (PerformanceAnalyzer.config balanced_analyzer).
Proof.
  apply (records_need_ten_days balanced_analyzer [balanced_record]).
  - exact balanced_performance.
  - by left.
Defined.

(** X13. In every row of the performance table the win rate lies between
    0 and 100 and the annualized volatility is a number that is not
    negative. *)
Theorem win_rate_and_volatility_ranges (self : PerformanceAnalyzer.t)
    (records : list PerformanceAnalyzer.PerformanceRecord)
    (rec : PerformanceAnalyzer.PerformanceRecord) :
  PerformanceAnalyzer.regime_performance self = Ok records ->
  rec ∈ records ->
  exists w v,
    PerformanceAnalyzer.Win_Rate_pct rec = Some w /\ 0 <= w <= 100 /\
    PerformanceAnalyzer.Ann_Vol_pct rec = Some v /\ 0 <= v.
Proof.
  intros Hrun Hrec.
  destruct (regime_performance_records _ _ _ Hrun Hrec)
    as (df & labels & regime & ticker & col & _ & _ & _ & _ & Hn & ->).
  set (returns := dropna col) in *.
  set (af := ANNUALIZATION_FACTOR (PerformanceAnalyzer.config self)).
  destruct (std_R_Some returns ltac:(lia)) as (s & Hs & Hs0 & _).
  unfold PerformanceAnalyzer.make_record, PerformanceAnalyzer.metrics.
  cbn [PerformanceAnalyzer.Win_Rate_pct PerformanceAnalyzer.Ann_Vol_pct
       PerformanceAnalyzer.win_rate PerformanceAnalyzer.ann_vol].
  rewrite Hs. cbn [fmul fdiv].
  assert (Hlen : 0 < INR (length returns)) by (apply lt_0_INR; lia).
  rewrite decide_False by lra.
  set (wins := length (filter (fun r => r > 0) returns)).
  assert (Hwins : (wins <= length returns)%nat) by apply length_filter.
  assert (Hw : 0 <= INR wins / INR (length returns) * 100 <= 100).
  { apply le_INR in Hwins. pose proof (pos_INR wins).
    assert (0 <= INR wins / INR (length returns) <= 1); [|lra].
    split.
    - apply Rmult_le_reg_r with (r := INR (length returns)); [done|].
      unfold Rdiv. rewrite Rmult_assoc, Rinv_l by lra. lra.
    - apply Rmult_le_reg_r with (r := INR (length returns)); [done|].
      unfold Rdiv. rewrite Rmult_assoc, Rinv_l by lra. lra. }
  destruct (round_ge 1 0 (INR wins / INR (length returns) * 100))
    as (w & Hround & Hw0); [simpl; lra|].
  destruct (round_le 1 1000 (INR wins / INR (length returns) * 100))
    as (w' & Hround' & Hw1); [simpl; lra|].
  rewrite Hround in Hround'. inversion Hround'; subst w'.
  assert (Hv0 : 0 <= s * sqrt (INR af) * 100).
  { pose proof (sqrt_pos (INR af)). nra. }
  destruct (round_ge 2 0 (s * sqrt (INR af) * 100))
    as (v & Hvround & Hv); [simpl; lra|].
  exists w, v. cbn [fmul]. rewrite Hround, Hvround. simpl in Hw0, Hw1, Hv.
  repeat split; (done || lra).
Qed.

(** The one row of the performance table of [balanced_panel]. *)
Lemma win_rate_and_volatility_ranges_witness :
  exists w v,
    PerformanceAnalyzer.Win_Rate_pct balanced_record = Some w /\
    0 <= w <= 100 /\
    PerformanceAnalyzer.Ann_Vol_pct balanced_record = Some v /\ 0 <= v.
Proof.
  apply (win_rate_and_volatility_ranges balanced_analyzer [balanced_record]).
  - exact balanced_performance.
  - by left.
Defined.

Section StatisticsMore.
Import PerformanceAnalyzer.

(** Growth factors of at least one keep the running product at its
    peak. *)
Lemma drawdown_from_peak (acc : R) (xs : list R) :
  0 < acc -> Forall (fun x => 1 <= x) xs ->
  Forall (fun d => d = Some 0)
    (zip_with (fun c p => fdiv (Some (c - p)) (Some p))
       (cumprod_from acc xs)
       (expanding_max_from acc (cumprod_from acc xs))).
Proof.
  intros Hacc Hxs. revert acc Hacc.
  induction Hxs as [|x xs Hx Hxs IH]; intros acc Hacc; simpl;
    [constructor|].
  assert (Hc : acc <= acc * x) by nra.
  rewrite (Rmax_right acc (acc * x)) by done.
  constructor; [|apply IH; lra].
  rewrite decide_False by lra. f_equal.
  unfold Rdiv. replace (acc * x - acc * x) with 0 by ring. ring.
Qed.

Lemma drawdown_no_loss (returns : list R) :
  Forall (fun r => 0 <= r) returns ->
  Forall (fun d => d = Some 0) (drawdown returns).
Proof.
  intros Hr. unfold drawdown, cumprod, expanding_max.
  destruct returns as [|r returns]; simpl; [constructor|].
  apply Forall_cons in Hr as [Hr Hrs].
  constructor.
  - rewrite decide_False by lra. f_equal.
    unfold Rdiv. replace (1 * (1 + r) - 1 * (1 + r)) with 0 by ring. ring.
  - apply drawdown_from_peak; [lra|].
    apply Forall_fmap. eapply Forall_impl; [exact Hrs|].
    simpl. intros x Hx. lra.
Qed.

Lemma Rlist_min_const (y : R) (ys : list R) :
  Forall (fun v => v = y) ys -> np.Rlist_min y ys = y.
Proof.
  unfold np.Rlist_min. induction 1 as [|v ys -> Hys IH]; simpl; [done|].
  rewrite IH. by apply Rmin_left.
Qed.

(** Without a losing day there is no drawdown. *)
Lemma max_dd_no_loss (af : nat) (returns : list R) :
  (0 < length returns)%nat -> Forall (fun r => 0 <= r) returns ->
  max_dd (metrics af returns) = Some (0 * 100).
Proof.
  intros Hn Hr. unfold metrics. simpl. unfold series_min.
  pose proof (drawdown_no_loss returns Hr) as Hdd.
  pose proof (length_drawdown returns) as Hlen.
  destruct (drawdown returns) as [|d ds]; [simpl in Hlen; lia|].
  apply Forall_cons in Hdd as [-> Hds]. simpl.
  rewrite Rlist_min_const; [done|].
  clear -Hds. induction Hds as [|d ds -> Hds IH]; simpl; by constructor.
Qed.

Lemma Rsum_const (c : R) (xs : list R) :
  Forall (fun x => x = c) xs -> Rsum xs = INR (length xs) * c.
Proof.
  induction 1 as [|x xs -> Hxs IH].
  - simpl. lra.
  - cbn [Rsum foldr length]. rewrite S_INR. unfold Rsum in IH. lra.
Qed.

(** Returns that never change have no volatility. *)
Lemma std_R_const (c : R) (xs : list R) :
  (2 <= length xs)%nat -> Forall (fun x => x = c) xs ->
  np.std_R 1 xs = Some 0.
Proof.
  intros Hn Hxs. unfold np.std_R. rewrite mean_R_Some by lia.
  rewrite decide_False by lia. f_equal.
  assert (Hlen : 0 < INR (length xs)) by (apply lt_0_INR; lia).
  assert (Hmean : Rsum xs / INR (length xs) = c).
  { rewrite (Rsum_const c) by done. field. lra. }
  rewrite Hmean.
  assert (Hsq : Rsum (map (fun x => (x - c) * (x - c)) xs) = 0).
  { rewrite (Rsum_const 0).
    - lra.
    - apply Forall_fmap. eapply Forall_impl; [exact Hxs|].
      simpl. intros x ->. ring. }
  rewrite Hsq. unfold Rdiv. rewrite Rmult_0_l. apply sqrt_0.
Qed.

Lemma round_zero (n : nat) : np.round (Some 0) n = Some 0.
Proof.
  unfold np.round. simpl. f_equal.
  replace (0 * 10 ^ n) with (IZR 0) by lra.
  rewrite rint_IZR. unfold Rdiv. apply Rmult_0_l.
Qed.
End StatisticsMore.

Lemma rising_performance :
  PerformanceAnalyzer.regime_performance rising_analyzer = Ok [rising_record].
Proof. reflexivity. Qed.

Lemma rising_panel_returns (P : R -> Prop) :
  P (1 / 100) -> returns_satisfy P rising_panel.
Proof.
  intros HP ticker col x Hcol Hx. apply float_column_Some in Hcol.
  unfold rising_panel in Hcol. simpl in Hcol.
  apply lookup_insert_Some in Hcol as [[_ Heq]|[_ Hcol]]; [done|].
  apply lookup_insert_Some in Hcol as [[_ Heq]|[_ Hcol]]; [|done].
  inversion Heq; subst col. unfold rising_returns in Hx. simpl in Hx.
  repeat (apply elem_of_cons in Hx as [Hx|Hx];
          [try discriminate; by inversion Hx|]).
  by apply elem_of_nil in Hx.
Qed.

(** X14. Without a losing day there is no drawdown: when no valid return
    of the panel is negative, every row of the performance table has a
    maximum drawdown of 0. *)
Theorem no_loss_no_drawdown (self : PerformanceAnalyzer.t)
    (records : list PerformanceAnalyzer.PerformanceRecord)
    (rec : PerformanceAnalyzer.PerformanceRecord) (df : DataFrame) :
  PerformanceAnalyzer.returns_data self = Some df ->
  returns_satisfy (fun x => 0 <= x) df ->
  PerformanceAnalyzer.regime_performance self = Ok records ->
  rec ∈ records ->
  PerformanceAnalyzer.Max_DD_pct rec = Some 0.
Proof.
  intros Hdf Hsat Hrun Hrec.
  destruct (regime_performance_records _ _ _ Hrun Hrec)
    as (df' & labels & regime & ticker & col & Hdf' & _ & _ & Hcol & Hn & ->).
  rewrite Hdf in Hdf'. inversion Hdf'; subst df'. clear Hdf'.
  rewrite float_column_df_select in Hcol.
  destruct (float_column df (PerformanceAnalyzer.ret_col ticker))
    as [col0|] eqn:Hcol0; [|done].
  simpl in Hcol. inversion Hcol; subst col. clear Hcol.
  unfold PerformanceAnalyzer.make_record.
  cbn [PerformanceAnalyzer.Max_DD_pct].
  rewrite max_dd_no_loss.
  - replace (0 * 100) with 0 by ring. apply round_zero.
  - lia.
  - apply Forall_forall. intros x Hx. apply (Hsat ticker col0 x Hcol0).
    by apply dropna_select_subset in Hx.
Qed.

(** The one row of the performance table of [rising_panel]. *)
Lemma no_loss_no_drawdown_witness :
  PerformanceAnalyzer.Max_DD_pct rising_record = Some 0.
Proof.
  apply (no_loss_no_drawdown rising_analyzer [rising_record] rising_record
           rising_panel).
  - reflexivity.
  - apply rising_panel_returns. lra.
  - exact rising_performance.
  - by left.
Defined.



Section PortfolioReturns.
Import PerformanceAnalyzer.

Lemma string_app_inj_r (u s1 s2 : string) : s1 +:+ u = s2 +:+ u -> s1 = s2.
Proof.
  revert s2. induction s1 as [|a s1 IH]; intros [|b s2] H.
  - done.
  - apply (f_equal String.length) in H.
    rewrite !string_length_app in H. simpl in H. lia.
  - apply (f_equal String.length) in H.
    rewrite !string_length_app in H. simpl in H. lia.
  - change (String a (s1 +:+ u) = String b (s2 +:+ u)) in H.
    inversion H; subst. f_equal. by apply IH.
Qed.

Lemma ret_col_portfolio (ticker : string) :
  ret_col ticker = "PORTFOLIO_RET"%string -> ticker = "PORTFOLIO"%string.
Proof. intros H. by apply (string_app_inj_r "_RET"). Qed.

Lemma ret_col_ne_portfolio (weights : list (string * R)) (t : string)
    (w : R) :
  "PORTFOLIO"%string ∉ weights.*1 -> (t, w) ∈ weights ->
  "PORTFOLIO_RET"%string <> ret_col t.
Proof.
  intros Hno Hin Heq. symmetry in Heq. apply ret_col_portfolio in Heq.
  subst t. apply Hno.
  by apply (list_elem_of_fmap_2 fst weights ("PORTFOLIO"%string, w)).
Qed.

Lemma has_column_setitem_ne (df : DataFrame) (name other : string)
    (c : column) :
  other <> name -> has_column (setitem df other c) name = has_column df name.
Proof.
  intros Hne. unfold has_column, setitem. simpl. by rewrite lookup_insert_ne.
Qed.

Lemma has_column_float (df : DataFrame) (name : string) (col : list float) :
  float_column df name = Ok col -> has_column df name = true.
Proof.
  intros H. apply float_column_Some in H. unfold has_column.
  apply bool_decide_eq_true. by rewrite H.
Qed.

Lemma float_column_absent (df : DataFrame) (name : string) :
  has_column df name = false -> float_column df name = Raise (KeyError name).
Proof.
  unfold has_column, float_column, getitem. intros H.
  apply bool_decide_eq_false in H.
  destruct (columns df !! name); [|done]. by destruct H.
Qed.

Lemma weighted_returns_setitem (df : DataFrame) (c : column)
    (weights : list (string * R)) (i : nat) :
  "PORTFOLIO"%string ∉ weights.*1 ->
  weighted_returns (setitem df "PORTFOLIO_RET" c) weights i
  = weighted_returns df weights i.
Proof.
  intros Hno. unfold weighted_returns.
  induction weights as [|[t w] weights IH]; [done|].
  apply not_elem_of_cons in Hno as [Ht Hno]. cbn [omap list_omap].
  rewrite IH by done. cbn [fst snd].
  rewrite float_column_setitem_ne; [done|].
  intros Heq. symmetry in Heq. by apply ret_col_portfolio in Heq.
Qed.

Lemma add_weighted_present (df : DataFrame) (t : string) (w : R)
    (acc col : list float) :
  has_column df (ret_col t) = true ->
  float_column df "PORTFOLIO_RET" = Ok acc ->
  float_column df (ret_col t) = Ok col ->
  add_weighted df (t, w)
  = Ok (setitem df "PORTFOLIO_RET"
          (FloatCol (zip_with fadd acc (map (fmul (Some w)) col)))).
Proof. intros Hhas Hacc Hcol. unfold add_weighted. by rewrite Hhas, Hacc, Hcol. Qed.

Lemma add_weighted_absent (df : DataFrame) (t : string) (w : R) :
  has_column df (ret_col t) = false -> add_weighted df (t, w) = Ok df.
Proof. intros Hhas. unfold add_weighted. by rewrite Hhas. Qed.

(** The loop of lines 142-145, row by row. *)
Lemma add_weighted_fold (weights : list (string * R)) (df : DataFrame)
    (acc : list float) :
  float_column df "PORTFOLIO_RET" = Ok acc ->
  "PORTFOLIO"%string ∉ weights.*1 ->
  numeric_returns df weights ->
  (forall ticker weight col, (ticker, weight) ∈ weights ->
     float_column df (ret_col ticker) = Ok col -> length col = length acc) ->
  exists df' acc',
    foldlM add_weighted df weights = Ok df' /\
    index df' = index df /\
    (forall name, name <> "PORTFOLIO_RET"%string ->
       columns df' !! name = columns df !! name) /\
    float_column df' "PORTFOLIO_RET" = Ok acc' /\
    length acc' = length acc /\
    (forall i a, acc !! i = Some a ->
       acc' !! i = Some (foldl fadd a (weighted_returns df weights i))).
Proof.
  revert df acc.
  induction weights as [|[t w] weights IH]; intros df acc Hacc Hno Hnum Hlen.
  { exists df, acc. by repeat split. }
  change (((t, w) :: weights).*1) with (t :: weights.*1) in Hno.
  apply not_elem_of_cons in Hno as [Ht Hno].
  assert (Hne : "PORTFOLIO_RET"%string <> ret_col t).
  { intros Heq. symmetry in Heq. by apply ret_col_portfolio in Heq. }
  cbn [foldlM].
  destruct (has_column df (ret_col t)) eqn:Hhas.
  - destruct (Hnum t w) as [col Hcol]; [by left|done|].
    rewrite (add_weighted_present df t w acc col Hhas Hacc Hcol).
    cbn [mbind result_bind].
    set (acc1 := zip_with fadd acc (map (fmul (Some w)) col)).
    set (df1 := setitem df "PORTFOLIO_RET" (FloatCol acc1)).
    assert (Hcollen : length col = length acc).
    { apply (Hlen t w); [by left|done]. }
    assert (Hacc1len : length acc1 = length acc).
    { unfold acc1. rewrite length_zip_with, length_map. lia. }
    destruct (IH df1 acc1) as (df' & acc' & Hfold & Hidx & Hcols & Hacc' & Hl
                               & Hrows).
    + apply float_column_Some. unfold df1, setitem. simpl.
      by rewrite lookup_insert_eq.
    + done.
    + intros t' w' Hin Hhas'.
      assert (Hne' : "PORTFOLIO_RET"%string <> ret_col t')
        by exact (ret_col_ne_portfolio weights t' w' Hno Hin).
      unfold df1 in *. rewrite has_column_setitem_ne in Hhas' by done.
      rewrite float_column_setitem_ne by done.
      apply (Hnum t' w'); [by right|done].
    + intros t' w' col' Hin Hcol'.
      assert (Hne' : "PORTFOLIO_RET"%string <> ret_col t')
        by exact (ret_col_ne_portfolio weights t' w' Hno Hin).
      unfold df1 in Hcol'. rewrite float_column_setitem_ne in Hcol' by done.
      rewrite Hacc1len. apply (Hlen t' w'); [by right|done].
    + exists df', acc'. split; [exact Hfold|]. split; [exact Hidx|].
      split.
      { intros name Hname. rewrite Hcols by done. unfold df1, setitem. simpl.
        by rewrite lookup_insert_ne. }
      split; [exact Hacc'|]. split; [lia|].
      intros i a Hi.
      assert (Hlt : (i < length col)%nat).
      { rewrite Hcollen. by apply lookup_lt_Some in Hi. }
      destruct (lookup_lt_is_Some_2 col i Hlt) as [x Hx].
      rewrite (Hrows i (fadd a (fmul (Some w) x))).
      * unfold df1. rewrite weighted_returns_setitem by done.
        unfold weighted_returns at 2. cbn [omap list_omap fst snd].
        rewrite Hcol, Hx. done.
      * unfold acc1. rewrite lookup_zip_with, Hi. simpl.
        by rewrite list_lookup_fmap, Hx.
  - rewrite (add_weighted_absent df t w Hhas). cbn [mbind result_bind].
    destruct (IH df acc) as (df' & acc' & Hfold & Hidx & Hcols & Hacc' & Hl
                             & Hrows).
    + done.
    + done.
    + intros t' w' Hin. apply (Hnum t' w'). by right.
    + intros t' w' col' Hin. apply (Hlen t' w'). by right.
    + exists df', acc'. repeat (split; [done|]).
      intros i a Hi. rewrite (Hrows i a Hi).
      unfold weighted_returns at 2. cbn [omap list_omap fst snd].
      by rewrite (float_column_absent df (ret_col t)).
Qed.

(** [calculate_portfolio_returns] on the frame of returns. *)
Lemma calculate_portfolio_returns_rows (self : t)
    (weights : list (string * R)) (df : DataFrame) :
  returns_data self = Some df ->
  aligned df ->
  "PORTFOLIO"%string ∉ weights.*1 ->
  numeric_returns df weights ->
  exists df',
    calculate_portfolio_returns self (Some weights)
    = (Ok df', {| data := data self; config := config self;
                  returns_data := Some df' |}) /\
    index df' = index df /\
    (forall name, name <> "PORTFOLIO_RET"%string ->
       columns df' !! name = columns df !! name) /\
    (forall i, (i < len df)%nat ->
       portfolio_at df' i = foldl fadd (Some 0) (weighted_returns df weights i)).
Proof.
  intros Hdf Hal Hno Hnum.
  set (zeros := replicate (len df) (Some 0) : list float).
  set (df0 := setitem df "PORTFOLIO_RET" (FloatCol zeros)).
  assert (Hne : forall t w, (t, w) ∈ weights ->
                  "PORTFOLIO_RET"%string <> ret_col t)
    by (intros t w; exact (ret_col_ne_portfolio weights t w Hno)).
  destruct (add_weighted_fold weights df0 zeros)
    as (df' & acc' & Hfold & Hidx & Hcols & Hacc' & Hl & Hrows).
  - apply float_column_Some. unfold df0, setitem. simpl.
    by rewrite lookup_insert_eq.
  - done.
  - intros t w Hin Hhas. unfold df0 in *.
    rewrite has_column_setitem_ne in Hhas by eauto.
    rewrite float_column_setitem_ne by eauto. by apply (Hnum t w).
  - intros t w col Hin Hcol. unfold df0 in Hcol.
    rewrite float_column_setitem_ne in Hcol by eauto.
    unfold zeros. rewrite length_replicate. by apply (Hal (ret_col t)).
  - exists df'. unfold calculate_portfolio_returns. rewrite Hdf.
    fold zeros. fold df0. rewrite Hfold.
    split; [done|]. split; [done|].
    split.
    { intros name Hname. rewrite Hcols by done. unfold df0, setitem. simpl.
      by rewrite lookup_insert_ne. }
    intros i Hi. unfold portfolio_at. rewrite Hacc'.
    rewrite (Hrows i (Some 0)).
    + simpl. unfold df0. by rewrite weighted_returns_setitem.
    + unfold zeros. by apply lookup_replicate_2.
Qed.

(** Weighted returns without a gap add up to a number between the
    weighted bounds. *)
Lemma weighted_sum_bounds (df : DataFrame) (weights : list (string * R))
    (i : nat) (lo hi a : R) :
  Forall (fun entry : string * R => 0 <= entry.2) weights ->
  (forall ticker weight, (ticker, weight) ∈ weights ->
     exists r, return_at df ticker i = Some r /\ lo <= r <= hi) ->
  exists p,
    foldl fadd (Some a) (weighted_returns df weights i) = Some p /\
    a + Rsum (map snd weights) * lo <= p <= a + Rsum (map snd weights) * hi.
Proof.
  intros Hw. revert a.
  induction Hw as [|[t w] weights Hw0 Hw IH]; intros a Hr.
  { exists a. simpl. split; [done|lra]. }
  destruct (Hr t w) as (r & Hrt & Hlo & Hhi); [by left|].
  unfold return_at in Hrt.
  destruct (float_column df (ret_col t)) as [col|] eqn:Hcol; [|done].
  unfold weighted_returns. cbn [omap list_omap fst snd]. rewrite Hcol, Hrt.
  cbn [foldl fmul fadd].
  destruct (IH (a + w * r)) as (p & Hp & Hplo & Hphi).
  { intros t' w' Hin. apply (Hr t' w'). by right. }
  exists p. split; [exact Hp|].
  cbn [map snd Rsum foldr]. unfold Rsum in Hplo, Hphi. simpl in Hw0.
  split; nra.
Qed.

Lemma foldl_fadd_None (xs : list float) : foldl fadd None xs = None.
Proof. induction xs as [|x xs IH]; [done|]. exact IH. Qed.

Lemma foldl_fadd_nan (xs : list float) (a : R) :
  foldl fadd (Some a) xs = None <-> None ∈ xs.
Proof.
  revert a. induction xs as [|[x|] xs IH]; intros a; cbn [foldl fadd].
  - split; [done|]. intros H. by apply elem_of_nil in H.
  - rewrite IH. split; [by right|].
    intros H. by apply elem_of_cons in H as [H|H].
  - rewrite foldl_fadd_None. split; [by left|done].
Qed.

Lemma elem_of_weighted_returns (df : DataFrame) (weights : list (string * R))
    (i : nat) (x : float) :
  x ∈ weighted_returns df weights i <->
  exists ticker weight col,
    (ticker, weight) ∈ weights /\
    float_column df (ret_col ticker) = Ok col /\
    x = fmul (Some weight) (mjoin (col !! i)).
Proof.
  unfold weighted_returns. rewrite list_elem_of_omap. split.
  - intros ([t w] & Hin & Hx). cbn [fst snd] in Hx.
    destruct (float_column df (ret_col t)) as [col|] eqn:Hcol; [|done].
    inversion Hx. by exists t, w, col.
  - intros (t & w & col & Hin & Hcol & ->). exists (t, w).
    split; [done|]. cbn [fst snd]. by rewrite Hcol.
Qed.
End PortfolioReturns.

Lemma two_asset_returns_aligned : aligned two_asset_returns.
Proof.
  intros name col Hcol. apply float_column_Some in Hcol.
  unfold two_asset_returns in Hcol. simpl in Hcol.
  apply lookup_insert_Some in Hcol as [[_ Heq]|[_ Hcol]];
    [by inversion Heq|].
  apply lookup_insert_Some in Hcol as [[_ Heq]|[_ Hcol]];
    [by inversion Heq|done].
Qed.

Lemma equal_weights_no_portfolio : "PORTFOLIO"%string ∉ equal_weights.*1.
Proof.
  unfold equal_weights. simpl. intros H.
  repeat (apply elem_of_cons in H as [H|H]; [discriminate|]).
  by apply elem_of_nil in H.
Qed.

Lemma equal_weights_numeric : numeric_returns two_asset_returns equal_weights.
Proof.
  intros t w Hin _. unfold equal_weights in Hin.
  repeat (apply elem_of_cons in Hin as [Hin|Hin];
          [inversion Hin; subst; eexists; reflexivity|]).
  by apply elem_of_nil in Hin.
Qed.

(** X16. [calculate_portfolio_returns] on a frame of returns whose
    numeric columns have a cell for every row, with weights that hold no
    asset called PORTFOLIO and whose return columns are numeric: it
    succeeds, stores the frame it returns (so [get_data] yields it), keeps
    the dates and every column but PORTFOLIO_RET, and the portfolio return
    of a row is 0 plus, in the order of the weights, weight times return
    of the assets that have a return column; an asset without one is
    skipped and the other weights are not rescaled. *)
Theorem portfolio_return_is_weighted_sum (self : PerformanceAnalyzer.t)
    (weights : list (string * R)) (df : DataFrame) :
  PerformanceAnalyzer.returns_data self = Some df ->
  aligned df ->
  "PORTFOLIO"%string ∉ weights.*1 ->
  numeric_returns df weights ->
  exists df',
    (PerformanceAnalyzer.calculate_portfolio_returns self (Some weights)).1
    = Ok df' /\
    PerformanceAnalyzer.get_data
      (PerformanceAnalyzer.calculate_portfolio_returns self (Some weights)).2
    = Ok df' /\
    index df' = index df /\
    (forall name, name <> "PORTFOLIO_RET"%string ->
       columns df' !! name = columns df !! name) /\
    (forall i, (i < len df)%nat ->
       portfolio_at df' i = foldl fadd (Some 0) (weighted_returns df weights i)).
Proof.
  intros Hdf Hal Hno Hnum.
  destruct (calculate_portfolio_returns_rows self weights df Hdf Hal Hno Hnum)
    as (df' & Hrun & Hidx & Hcols & Hrows).
  exists df'. rewrite Hrun. by repeat (split; [done|]).
Qed.

(** Half SPY, half TLT, on [two_asset_returns]. *)
Lemma portfolio_return_is_weighted_sum_witness :
  exists df',
    (PerformanceAnalyzer.calculate_portfolio_returns two_asset_analyzer
       (Some equal_weights)).1 = Ok df' /\
    PerformanceAnalyzer.get_data
      (PerformanceAnalyzer.calculate_portfolio_returns two_asset_analyzer
         (Some equal_weights)).2 = Ok df' /\
    index df' = index two_asset_returns /\
    (forall name, name <> "PORTFOLIO_RET"%string ->
       columns df' !! name = columns two_asset_returns !! name) /\
    (forall i, (i < len two_asset_returns)%nat ->
       portfolio_at df' i
       = foldl fadd (Some 0) (weighted_returns two_asset_returns equal_weights i)).
Proof.
  apply (portfolio_return_is_weighted_sum two_asset_analyzer equal_weights
           two_asset_returns).
  - reflexivity.
  - exact two_asset_returns_aligned.
  - exact equal_weights_no_portfolio.
  - exact equal_weights_numeric.
Defined.



(** X18. A gap in one asset is a gap in the portfolio: the portfolio
    return of row [i] is NaN exactly when an asset of the weights that has
    a return column has NaN in row [i]. *)
Theorem portfolio_return_is_nan_iff (self : PerformanceAnalyzer.t)
    (weights : list (string * R)) (df df' : DataFrame) (i : nat) :
  PerformanceAnalyzer.returns_data self = Some df ->
  aligned df ->
  "PORTFOLIO"%string ∉ weights.*1 ->
  numeric_returns df weights ->
  (i < len df)%nat ->
  (PerformanceAnalyzer.calculate_portfolio_returns self (Some weights)).1
  = Ok df' ->
  portfolio_at df' i = NaN <->
  exists ticker weight,
    (ticker, weight) ∈ weights /\
    has_column df (PerformanceAnalyzer.ret_col ticker) = true /\
    return_at df ticker i = NaN.
Proof.
  intros Hdf Hal Hno Hnum Hi Hrun.
  destruct (calculate_portfolio_returns_rows self weights df Hdf Hal Hno Hnum)
    as (df1 & Hrun1 & _ & _ & Hrows).
  rewrite Hrun1 in Hrun. simpl in Hrun. inversion Hrun; subst df1. clear Hrun.
  rewrite (Hrows i Hi), foldl_fadd_nan, elem_of_weighted_returns.
  split.
  - intros (t & w & col & Hin & Hcol & Hx). exists t, w.
    split; [done|]. split; [by apply (has_column_float df _ col)|].
    unfold return_at. rewrite Hcol.
    destruct (mjoin (col !! i)); [discriminate|done].
  - intros (t & w & Hin & Hhas & Hnan).
    destruct (Hnum t w Hin Hhas) as [col Hcol].
    exists t, w, col. split; [done|]. split; [done|].
    unfold return_at in Hnan. rewrite Hcol in Hnan. by rewrite Hnan.
Qed.

(** The first day of [two_asset_returns]. *)
Lemma portfolio_return_is_nan_iff_witness :
  portfolio_at
    (setitem two_asset_returns "PORTFOLIO_RET"
       (FloatCol [None; Some (0 + 1 / 2 * (2 / 100) + 1 / 2 * (-1 / 100));
                  Some (0 + 1 / 2 * (-4 / 100) + 1 / 2 * (2 / 100))])) 0
  = NaN <->
  exists ticker weight,
    (ticker, weight) ∈ equal_weights /\
    has_column two_asset_returns (PerformanceAnalyzer.ret_col ticker) = true /\
    return_at two_asset_returns ticker 0 = NaN.
Proof.
  apply (portfolio_return_is_nan_iff two_asset_analyzer equal_weights
           two_asset_returns).
  - reflexivity.
  - exact two_asset_returns_aligned.
  - exact equal_weights_no_portfolio.
  - exact equal_weights_numeric.
  - unfold len, two_asset_returns. simpl. lia.
  - reflexivity.
Defined.

(** ** Shock candidates and measured events *)

Section ShockEvents.
Import RateShockAnalyzer.

Lemma elem_of_select {A} (mask : list bool) (xs : list A) (x : A) :
  x ∈ select mask xs ->
  exists i, mask !! i = Some true /\ xs !! i = Some x.
Proof.
  revert xs. induction mask as [|b mask IH]; intros [|y xs] Hx; simpl in Hx;
    try by apply elem_of_nil in Hx.
  destruct b.
  - apply elem_of_cons in Hx as [->|Hx]; [by exists 0%nat|].
    destruct (IH xs Hx) as (i & Hm & Hi). by exists (S i).
  - destruct (IH xs Hx) as (i & Hm & Hi). by exists (S i).
Qed.

(** A row whose trailing difference is a number has a number now and
    [k] rows earlier. *)
Lemma diff_lookup_Some (k i : nat) (xs : list float) (c : R) :
  diff k xs !! i = Some (Some c) ->
  exists y y0,
    (k <= i)%nat /\ xs !! i = Some (Some y) /\
    xs !! (i - k)%nat = Some (Some y0) /\ c = y - y0.
Proof.
  unfold diff. intros H.
  apply lookup_zip_with_Some in H as (x & x0 & Hc & Hx & Hx0).
  destruct x as [y|], x0 as [y0|]; try discriminate.
  inversion Hc; subst c. exists y, y0.
  assert (Hi : (i < length xs)%nat) by (by apply lookup_lt_Some in Hx).
  destruct (decide (k <= i)%nat) as [Hk|Hk].
  - rewrite shift_lookup_ge in Hx0 by done. done.
  - rewrite shift_lookup_lt in Hx0 by lia. discriminate.
Qed.

Lemma shock_candidates_jump (config : Config) (df : DataFrame)
    (candidates : list Timestamp) (d : Timestamp) :
  shock_candidates config df = Ok candidates -> d ∈ candidates ->
  exists i treasury y y0,
    index df !! i = Some d /\
    float_column df "TREASURY_10Y" = Ok treasury /\
    (SHOCK_LOOKBACK config <= i)%nat /\
    treasury !! i = Some (Some y) /\
    treasury !! (i - SHOCK_LOOKBACK config)%nat = Some (Some y0) /\
    y - y0 > SHOCK_YIELD_THRESHOLD config.
Proof.
  unfold shock_candidates.
  destruct (float_column df "TREASURY_10Y") as [treasury|]; simpl; [|done].
  intros [= <-] Hd.
  apply elem_of_select in Hd as (i & Hmask & Hi).
  change (map ?f ?l) with (f <$> l) in Hmask.
  rewrite list_lookup_fmap in Hmask.
  destruct (diff (SHOCK_LOOKBACK config) treasury !! i) as [[c|]|] eqn:Hdiff;
    simpl in Hmask; try discriminate.
  inversion Hmask as [Hgt]. apply bool_decide_eq_true in Hgt.
  destruct (diff_lookup_Some _ _ _ _ Hdiff) as (y & y0 & Hk & Hy & Hy0 & ->).
  by exists i, treasury, y, y0.
Qed.

Lemma filter_shocks_sublist (candidates : list Timestamp) :
  filter_shocks candidates `sublist_of` candidates.
Proof.
  unfold filter_shocks.
  pose proof (scan_invariant candidates) as (_ & _ & Hsub & _). exact Hsub.
Qed.

Lemma identify_shocks_events (self : t) (events : list Timestamp) :
  (identify_shocks self).1 = Ok events ->
  exists candidates,
    shock_candidates (config self) (data self) = Ok candidates /\
    events = filter_shocks candidates.
Proof.
  unfold identify_shocks.
  destruct (shock_candidates (config self) (data self)) as [candidates|];
    [|done].
  destruct (report_ok (data self) (filter_shocks candidates)); simpl; [|done].
  intros [= <-]. by exists candidates.
Qed.

Lemma mapM_is_Ok {A B} (f : A -> result B) (xs : list A) :
  (forall x, x ∈ xs -> is_Ok (f x)) -> is_Ok (mapM f xs).
Proof.
  induction xs as [|x xs IH]; intros Hf; simpl; [by eexists|].
  destruct (Hf x) as [y Hy]; [by left|]. rewrite Hy. simpl.
  destruct IH as [ys Hys]; [intros z Hz; apply Hf; by right|].
  rewrite Hys. simpl. by eexists.
Qed.

Lemma ticker_return_is_Ok (config : Config) (df : DataFrame)
    (shock_idx : nat) (ticker : string) :
  aligned df -> shock_columns config df -> ticker ∈ TICKERS config ->
  (shock_idx + SHOCK_HORIZON config < len df)%nat ->
  is_Ok (ticker_return df shock_idx (SHOCK_HORIZON config) ticker).
Proof.
  intros Hal [_ Hcols] Hin Hrange. unfold ticker_return.
  destruct (has_column df ticker) eqn:Hhas; simpl; [|by eexists].
  destruct (Hcols ticker Hin Hhas) as [prices Hprices]. rewrite Hprices.
  simpl. pose proof (Hal ticker prices Hprices) as Hlen.
  destruct (lookup_lt_is_Some_2 prices shock_idx) as [s Hs]; [lia|].
  destruct (lookup_lt_is_Some_2 prices (shock_idx + SHOCK_HORIZON config))
    as [e He]; [lia|].
  apply iloc_checked_Ok in Hs, He. rewrite Hs. simpl. rewrite He. simpl.
  by eexists.
Qed.

(** On a panel whose series are in place an event is measured when, and
    only when, it is a row with the whole horizon below it. *)
Lemma measure_event_measurable (config : Config) (df : DataFrame)
    (d : Timestamp) :
  aligned df -> shock_columns config df ->
  if measurable config df d
  then exists r, measure_event config df d = Some r /\ shock_date r = d
  else measure_event config df d = None.
Proof.
  intros Hal Hcols. unfold measurable, measure_event, measure_one.
  destruct (get_loc (index df) d) as [i|]; simpl; [|done].
  case_bool_decide as Hrange.
  - rewrite decide_False by lia.
    destruct Hcols as [[tsy Htsy] Hassets]. rewrite Htsy. simpl.
    pose proof (Hal _ tsy Htsy) as Hlen.
    destruct (lookup_lt_is_Some_2 tsy i) as [s Hs]; [lia|].
    destruct (lookup_lt_is_Some_2 tsy (i + SHOCK_HORIZON config))
      as [e He]; [lia|].
    apply iloc_checked_Ok in Hs, He. rewrite Hs. simpl. rewrite He. simpl.
    destruct (mapM_is_Ok (ticker_return df i (SHOCK_HORIZON config))
                (TICKERS config)) as [cells Hcells].
    { intros ticker Hin. apply ticker_return_is_Ok; try done.
      split; [by exists tsy|done]. }
    rewrite Hcells. simpl. by eexists.
  - by rewrite decide_True by lia.
Qed.

(** An exception in the body of the loop leaves no response. *)
Lemma measure_event_without_yield (config : Config) (df : DataFrame)
    (d : Timestamp) :
  is_Raise (float_column df "TREASURY_10Y") -> measure_event config df d = None.
Proof.
  intros [e He]. unfold measure_event, measure_one.
  destruct (get_loc (index df) d) as [i|]; simpl; [|done].
  destruct (decide (len df <= i + SHOCK_HORIZON config)%nat); [done|].
  by rewrite He.
Qed.
End ShockEvents.

Lemma shock_panel_aligned : aligned shock_panel.
Proof.
  intros name col Hcol. apply float_column_Some in Hcol.
  unfold shock_panel in Hcol. simpl in Hcol.
  apply lookup_insert_Some in Hcol as [[_ Heq]|[_ Hcol]];
    [by inversion Heq|].
  apply lookup_insert_Some in Hcol as [[_ Heq]|[_ Hcol]];
    [by inversion Heq|done].
Qed.

Lemma shock_panel_columns : shock_columns one_day_lookback shock_panel.
Proof.
  split; [eexists; reflexivity|].
  intros ticker Hin _. simpl in Hin.
  apply list_elem_of_singleton in Hin. subst. eexists. reflexivity.
Qed.

(** X19. Every event [identify_shocks] returns is a yield jump: it is the
    date of a row, at least [SHOCK_LOOKBACK] rows into the panel, on which
    the long yield and the long yield [SHOCK_LOOKBACK] rows earlier are
    both numbers and differ by more than [SHOCK_YIELD_THRESHOLD].  So no
    event lies in the first [SHOCK_LOOKBACK] rows, and a gap in the yield
    series is never taken for a jump. *)
Theorem events_are_yield_jumps (self : RateShockAnalyzer.t)
    (events : list Timestamp) (e : Timestamp) :
  (RateShockAnalyzer.identify_shocks self).1 = Ok events ->
  e ∈ events ->
  exists i treasury y y0,
    index (RateShockAnalyzer.data self) !! i = Some e /\
    float_column (RateShockAnalyzer.data self) "TREASURY_10Y" = Ok treasury /\
    (SHOCK_LOOKBACK (RateShockAnalyzer.config self) <= i)%nat /\
    treasury !! i = Some (Some y) /\
    treasury !! (i - SHOCK_LOOKBACK (RateShockAnalyzer.config self))%nat
      = Some (Some y0) /\
    y - y0 > SHOCK_YIELD_THRESHOLD (RateShockAnalyzer.config self).
Proof.
  intros Hrun He.
  destruct (identify_shocks_events self events Hrun) as (cands & Hc & ->).
  apply (shock_candidates_jump _ _ cands e Hc).
  by apply (elem_of_sublist _ _ _ He), filter_shocks_sublist.
Qed.

(** The one event of [shock_panel]. *)
Lemma events_are_yield_jumps_witness :
  exists i treasury y y0,
    index shock_panel !! i = Some 86400000000000%Z /\
    float_column shock_panel "TREASURY_10Y" = Ok treasury /\
    (1 <= i)%nat /\
    treasury !! i = Some (Some y) /\
    treasury !! (i - 1)%nat = Some (Some y0) /\
    y - y0 > 70 / 100.
Proof.
  apply (events_are_yield_jumps shock_analyzer [86400000000000%Z]).
  - exact shock_panel_events.
  - by left.
Defined.

(** X20. On a panel whose numeric columns have a cell for every row, with
    the long yield and the price columns numeric,
    [measure_shock_response] answers exactly the dates it can: the
    responses are, in the order asked, for the dates that are a row of the
    panel with [SHOCK_HORIZON] rows below it.  A date that is not in the
    panel, or too close to its end, is left out without an error. *)
Theorem responses_are_the_measurable_dates (self : RateShockAnalyzer.t)
    (dates : list Timestamp) :
  aligned (RateShockAnalyzer.data self) ->
  shock_columns (RateShockAnalyzer.config self) (RateShockAnalyzer.data self) ->
  exists responses,
    (RateShockAnalyzer.measure_shock_response self (Some dates)).1
    = Ok responses /\
    RateShockAnalyzer.shock_responses
      (RateShockAnalyzer.measure_shock_response self (Some dates)).2
    = Some responses /\
    map RateShockAnalyzer.shock_date responses
    = filter (fun d => measurable (RateShockAnalyzer.config self)
                         (RateShockAnalyzer.data self) d = true) dates.
Proof.
  intros Hal Hcols. eexists. split; [reflexivity|]. split; [reflexivity|].
  induction dates as [|d dates IH]; [done|].
  pose proof (measure_event_measurable _ _ d Hal Hcols) as Hd.
  cbn [omap list_omap].
  destruct (measurable _ _ d) eqn:Hm.
  - destruct Hd as (r & -> & Hdate). rewrite filter_cons_True by done.
    cbn [map]. by rewrite Hdate, IH.
  - rewrite Hd. rewrite filter_cons_False; [done|]. by rewrite Hm.
Qed.

(** The three days of [shock_panel] and a date outside of it, with a
    horizon of one day. *)
Lemma responses_are_the_measurable_dates_witness :
  exists responses,
    (RateShockAnalyzer.measure_shock_response shock_analyzer
       (Some [0; 86400000000000; 172800000000000; 5]%Z)).1 = Ok responses /\
    RateShockAnalyzer.shock_responses
      (RateShockAnalyzer.measure_shock_response shock_analyzer
         (Some [0; 86400000000000; 172800000000000; 5]%Z)).2
    = Some responses /\
    map RateShockAnalyzer.shock_date responses
    = filter (fun d => measurable one_day_lookback shock_panel d = true)
        [0; 86400000000000; 172800000000000; 5]%Z.
Proof.
  apply (responses_are_the_measurable_dates shock_analyzer
           [0; 86400000000000; 172800000000000; 5]%Z).
  - exact shock_panel_aligned.
  - exact shock_panel_columns.
Defined.



(** ** Order statistics *)

Section Percentiles.

#[local] Instance Rle_total : Total Rle.
Proof. intros x y. destruct (Rle_dec x y); [by left|right; lra]. Qed.

#[local] Instance Rle_trans' : Transitive Rle.
Proof. intros x y z. apply Rle_trans. Qed.

Lemma sorted_lookup_le (s : list R) (i j : nat) :
  StronglySorted Rle s -> (i <= j)%nat -> (j < length s)%nat ->
  s !!! i <= s !!! j.
Proof.
  intros Hs Hij Hj.
  destruct (decide (i = j)) as [->|Hne]; [lra|].
  apply (StronglySorted_lookup Rle s i j); try done; try lia.
  - apply list_lookup_lookup_total_lt. lia.
  - by apply list_lookup_lookup_total_lt.
Qed.

Lemma length_merge_sort (xs : list R) :
  length (merge_sort Rle xs) = length xs.
Proof. by rewrite (merge_sort_Permutation Rle xs). Qed.

(** The position a percentile is read at lies inside the array. *)
Lemma percentile_position (q : R) (n : nat) :
  (0 < n)%nat -> 0 <= q <= 100 ->
  let pos := q / 100 * (INR n - 1) in
  0 <= pos /\ (Z.to_nat (Zfloor pos) < n)%nat /\
  0 <= pos - IZR (Zfloor pos) < 1 /\ (0 <= Zfloor pos)%Z.
Proof.
  intros Hn Hq pos.
  assert (Hn1 : 1 <= INR n) by (apply (le_INR 1); lia).
  assert (Hpos : 0 <= pos <= INR n - 1) by (unfold pos; nra).
  pose proof (Zfloor_bound pos) as [Hlo Hhi].
  assert (Hf0 : (0 <= Zfloor pos)%Z) by (apply Zfloor_lub; lra).
  assert (Hfn : (Zfloor pos < Z.of_nat n)%Z).
  { apply lt_IZR. rewrite <- INR_IZR_INZ. lra. }
  repeat split; try lra; try lia.
Qed.

(** A percentile lies between two values of the array. *)
Lemma percentile_R_between (q : R) (xs : list R) :
  (0 < length xs)%nat -> 0 <= q <= 100 ->
  exists a b, a ∈ xs /\ b ∈ xs /\ a <= np.percentile_R q xs <= b.
Proof.
  intros Hn Hq. unfold np.percentile_R.
  destruct (percentile_position q (length xs) Hn Hq)
    as (Hpos & Hlo & Hfrac & Hf0).
  set (pos := q / 100 * (INR (length xs) - 1)) in *.
  set (s := merge_sort Rle xs).
  set (lo := Z.to_nat (Zfloor pos)) in *.
  set (hi := Nat.min (S lo) (length xs - 1)).
  assert (Hlen : length s = length xs) by apply length_merge_sort.
  assert (Hsorted : StronglySorted Rle s)
    by (apply StronglySorted_merge_sort; apply _).
  assert (Hhi : (hi < length s)%nat) by (unfold hi; lia).
  assert (Hab : s !!! lo <= s !!! hi).
  { apply sorted_lookup_le; try done. unfold hi. lia. }
  assert (Hin : forall i, (i < length s)%nat -> s !!! i ∈ xs).
  { intros i Hi. rewrite <- (merge_sort_Permutation Rle xs).
    apply list_elem_of_lookup_2 with i.
    by apply list_lookup_lookup_total_lt. }
  exists (s !!! lo), (s !!! hi).
  split; [apply Hin; lia|]. split; [by apply Hin|]. nra.
Qed.

(** A higher percentile is not lower. *)
Lemma percentile_R_mono (q1 q2 : R) (xs : list R) :
  (0 < length xs)%nat -> 0 <= q1 -> q1 <= q2 -> q2 <= 100 ->
  np.percentile_R q1 xs <= np.percentile_R q2 xs.
Proof.
  intros Hn Hq1 Hq12 Hq2. unfold np.percentile_R.
  destruct (percentile_position q1 (length xs) Hn ltac:(lra))
    as (Hpos1 & Hlo1 & Hfrac1 & Hf1).
  destruct (percentile_position q2 (length xs) Hn ltac:(lra))
    as (Hpos2 & Hlo2 & Hfrac2 & Hf2).
  assert (Hn1 : 1 <= INR (length xs)) by (apply (le_INR 1); lia).
  set (pos1 := q1 / 100 * (INR (length xs) - 1)) in *.
  set (pos2 := q2 / 100 * (INR (length xs) - 1)) in *.
  assert (Hpos : pos1 <= pos2) by (unfold pos1, pos2; nra).
  pose proof (Zfloor_le pos1 pos2 Hpos) as Hfl.
  set (s := merge_sort Rle xs).
  set (lo1 := Z.to_nat (Zfloor pos1)) in *.
  set (lo2 := Z.to_nat (Zfloor pos2)) in *.
  assert (Hlen : length s = length xs) by apply length_merge_sort.
  assert (Hsorted : StronglySorted Rle s)
    by (apply StronglySorted_merge_sort; apply _).
  set (hi1 := Nat.min (S lo1) (length xs - 1)).
  set (hi2 := Nat.min (S lo2) (length xs - 1)).
  assert (Hab1 : s !!! lo1 <= s !!! hi1).
  { apply sorted_lookup_le; try done; unfold hi1; lia. }
  assert (Hab2 : s !!! lo2 <= s !!! hi2).
  { apply sorted_lookup_le; try done; unfold hi2; lia. }
  destruct (decide (Zfloor pos1 = Zfloor pos2)) as [Heq|Hne].
  - assert (Hlo : lo1 = lo2) by (unfold lo1, lo2; by rewrite Heq).
    unfold hi1, hi2 in *. rewrite Hlo in *. rewrite Heq in *. nra.
  - assert (Hlt : (S lo1 <= lo2)%nat) by (unfold lo1, lo2; lia).
    assert (Hmid : s !!! hi1 <= s !!! lo2).
    { apply sorted_lookup_le; try done; unfold hi1; lia. }
    nra.
Qed.

Lemma Rlist_min_le (y : R) (ys : list R) (x : R) :
  x ∈ y :: ys -> np.Rlist_min y ys <= x.
Proof.
  unfold np.Rlist_min. induction ys as [|v ys IH]; simpl; intros Hx.
  - apply list_elem_of_singleton in Hx. lra.
  - pose proof (Rmin_l v (foldr Rmin y ys)).
    pose proof (Rmin_r v (foldr Rmin y ys)).
    apply elem_of_cons in Hx as [->|Hx].
    + assert (np.Rlist_min y ys <= y) by (apply IH; by left).
      unfold np.Rlist_min in *. lra.
    + apply elem_of_cons in Hx as [->|Hx]; [lra|].
      assert (foldr Rmin y ys <= x) by (apply IH; by right). lra.
Qed.

Lemma Rlist_max_ge (y : R) (ys : list R) (x : R) :
  x ∈ y :: ys -> x <= np.Rlist_max y ys.
Proof.
  unfold np.Rlist_max. induction ys as [|v ys IH]; simpl; intros Hx.
  - apply list_elem_of_singleton in Hx. lra.
  - pose proof (Rmax_l v (foldr Rmax y ys)).
    pose proof (Rmax_r v (foldr Rmax y ys)).
    apply elem_of_cons in Hx as [->|Hx].
    + assert (y <= foldr Rmax y ys) by (apply IH; by left). lra.
    + apply elem_of_cons in Hx as [->|Hx]; [lra|].
      assert (x <= foldr Rmax y ys) by (apply IH; by right). lra.
Qed.

Lemma all_Some_fmap {A} (xs : list (option A)) :
  Forall is_Some xs -> exists vals, xs = Some <$> vals.
Proof.
  induction 1 as [|x xs [v ->] _ [vals ->]]; [by exists []|].
  by exists (v :: vals).
Qed.

Lemma finite_fmap_Some (vals : list R) : np.finite (Some <$> vals) = Some vals.
Proof. unfold np.finite. by apply mapM_fmap_Some. Qed.
End Percentiles.

Section StressSummary.
Import RateShockAnalyzer.
Variable percentile_of_empty : result (option R).

Lemma dict_get_is_Some (key : string) (cells : list (string * option R)) :
  Forall (fun cell : string * option R => is_Some cell.2) cells ->
  is_Some (dict_get key cells (Some 0)).
Proof.
  induction 1 as [|[k v] cells Hv _ IH]; simpl; [by eexists|].
  by destruct (decide (k = key)).
Qed.

Lemma foldl_fadd_is_Some (a : R) (xs : list float) :
  Forall is_Some xs -> is_Some (foldl fadd (Some a) xs).
Proof.
  intros Hxs. revert a. induction Hxs as [|x xs [v ->] _ IH]; intros a;
    simpl; [by eexists|]. apply IH.
Qed.

Lemma portfolio_return_is_Some (weights : list (string * R))
    (row : ShockResponse) :
  Forall (fun cell : string * option R => is_Some cell.2) (rets row) ->
  is_Some (portfolio_return weights row).
Proof.
  intros Hrow. unfold portfolio_return. apply foldl_fadd_is_Some.
  apply Forall_forall. intros x Hx.
  change (map ?f ?l) with (f <$> l) in Hx.
  apply list_elem_of_fmap in Hx as (t & -> & _).
  destruct (dict_get_is_Some (ret_key t) (rets row) Hrow) as [v ->].
  by eexists.
Qed.

Lemma percentile_nonempty (xs : list float) (q : R) :
  xs <> [] ->
  np.percentile percentile_of_empty xs q
  = Ok (np.percentile_R q <$> np.finite xs).
Proof. by destruct xs. Qed.

Lemma min_finite (xs : list float) (y : R) (ys : list R) :
  xs <> [] -> np.finite xs = Some (y :: ys) ->
  np.min xs = Ok (Some (np.Rlist_min y ys)).
Proof. intros Hne Hfin. unfold np.min. rewrite Hfin. by destruct xs. Qed.

Lemma max_finite (xs : list float) (y : R) (ys : list R) :
  xs <> [] -> np.finite xs = Some (y :: ys) ->
  np.max xs = Ok (Some (np.Rlist_max y ys)).
Proof. intros Hne Hfin. unfold np.max. rewrite Hfin. by destruct xs. Qed.

Lemma median_finite (xs : list float) (y : R) (ys : list R) :
  xs <> [] -> np.finite xs = Some (y :: ys) ->
  np.median xs = Some (np.percentile_R 50 (y :: ys)).
Proof. intros Hne Hfin. unfold np.median. rewrite Hfin. by destruct xs. Qed.

Lemma table_asset_is_Ok (responses : list ShockResponse) (pct : R)
    (ticker : string) :
  responses <> [] -> is_Ok (table_asset percentile_of_empty responses pct ticker).
Proof.
  intros Hne. unfold table_asset.
  destruct (responses_has_column responses (ret_key ticker)); [|by eexists].
  rewrite percentile_nonempty; [by eexists|].
  unfold responses_column. by destruct responses.
Qed.

Lemma table_row_Ok (config : Config) (responses : list ShockResponse)
    (portfolio_rets : list float) (pct : R) (label : string) :
  responses <> [] -> portfolio_rets <> [] ->
  exists cells,
    table_row percentile_of_empty config responses portfolio_rets pct label
    = Ok {| Scenario := label; assets := cells;
            Portfolio := np.percentile_R pct <$> np.finite portfolio_rets |}.
Proof.
  intros Hrs Hps. unfold table_row.
  destruct (mapM_is_Ok (table_asset percentile_of_empty responses pct)
              (TICKERS config)) as [cells Hcells].
  { intros t _. by apply table_asset_is_Ok. }
  rewrite Hcells. simpl. rewrite percentile_nonempty by done. simpl.
  by eexists.
Qed.

(** The stress test on responses that are all numbers. *)
Lemma stress_test_finite (self : t) (weights_arg : option (list (string * R)))
    (responses : list ShockResponse) :
  shock_responses self = Some responses ->
  responses <> [] ->
  finite_responses responses ->
  exists y ys cells10 cells50 cells90,
    length (y :: ys) = length responses /\
    portfolio_stress_test percentile_of_empty self weights_arg None
    = Ok ({| median := Some (np.percentile_R 50 (y :: ys));
             p10 := Some (np.percentile_R 10 (y :: ys));
             p90 := Some (np.percentile_R 90 (y :: ys));
             mean := np.mean_R (y :: ys);
             std := np.std_R 0 (y :: ys);
             min := Some (np.Rlist_min y ys);
             max := Some (np.Rlist_max y ys);
             count := length responses |},
          [ {| Scenario := "Tail (10th pct)"; assets := cells10;
               Portfolio := Some (np.percentile_R 10 (y :: ys)) |};
            {| Scenario := "Median"; assets := cells50;
               Portfolio := Some (np.percentile_R 50 (y :: ys)) |};
            {| Scenario := "Best (90th pct)"; assets := cells90;
               Portfolio := Some (np.percentile_R 90 (y :: ys)) |} ]).
Proof.
  intros Hself Hne Hfin. unfold portfolio_stress_test. rewrite Hself.
  rewrite decide_False by (by destruct responses).
  cbn [mbind result_bind].
  set (weights := match weights_arg with
                  | Some w => w
                  | None => PORTFOLIO_WEIGHTS (config self)
                  end).
  set (prets := map (portfolio_return weights) responses).
  destruct (all_Some_fmap prets) as [vals Hvals].
  { unfold prets. apply Forall_forall. intros x Hx.
    change (map ?f ?l) with (f <$> l) in Hx.
    apply list_elem_of_fmap in Hx as (row & -> & Hrow).
    apply portfolio_return_is_Some.
    unfold finite_responses in Hfin. rewrite Forall_forall in Hfin.
    by apply Hfin. }
  assert (Hlen : length vals = length responses).
  { apply (f_equal length) in Hvals. unfold prets in Hvals.
    rewrite length_map, length_fmap in Hvals. done. }
  assert (Hpne : prets <> []).
  { unfold prets. by destruct responses. }
  destruct vals as [|y ys]; [by destruct responses|].
  destruct (table_row_Ok (config self) responses prets 10 "Tail (10th pct)"
              Hne Hpne) as [c10 H10].
  destruct (table_row_Ok (config self) responses prets 50 "Median"
              Hne Hpne) as [c50 H50].
  destruct (table_row_Ok (config self) responses prets 90 "Best (90th pct)"
              Hne Hpne) as [c90 H90].
  exists y, ys, c10, c50, c90. split; [done|].
  rewrite !percentile_nonempty by done. cbn [mbind result_bind].
  cbn [mapM]. rewrite H10, H50, H90.
  assert (Hfinite : np.finite prets = Some (y :: ys)).
  { rewrite Hvals. apply finite_fmap_Some. }
  rewrite (min_finite prets y ys), (max_finite prets y ys) by done.
  rewrite (median_finite prets y ys) by done.
  unfold np.mean, np.std. rewrite Hfinite.
  cbn [mbind result_bind option_bind fmap option_fmap option_map].
  unfold prets. by rewrite length_map.
Qed.
End StressSummary.

Lemma measured_responses (self : RateShockAnalyzer.t)
    (dates : list Timestamp)
    (responses : list RateShockAnalyzer.ShockResponse) :
  (RateShockAnalyzer.measure_shock_response self (Some dates)).1
  = Ok responses ->
  RateShockAnalyzer.shock_responses
    (RateShockAnalyzer.measure_shock_response self (Some dates)).2
  = Some responses.
Proof.
  unfold RateShockAnalyzer.measure_shock_response. simpl. by intros [= ->].
Qed.

Lemma shock_panel_measured :
  (RateShockAnalyzer.measure_shock_response shock_analyzer
     (Some [86400000000000; 172800000000000]%Z)).1
  = Ok [second_day_response].
Proof.
  unfold RateShockAnalyzer.measure_shock_response. simpl.
  unfold RateShockAnalyzer.measure_event, RateShockAnalyzer.measure_one.
  simpl. unfold RateShockAnalyzer.ticker_return.
  change (float_column shock_panel "TREASURY_10Y")
    with (Ok [Some 1; Some 2; Some 3]).
  change (has_column shock_panel "SPY") with true.
  change (float_column shock_panel "SPY")
    with (Ok [Some 100; Some 110; Some 121]).
  simpl. rewrite decide_False by lra. reflexivity.
Qed.

Lemma second_day_response_finite : finite_responses [second_day_response].
Proof. repeat constructor. by eexists. Qed.



(** ** The rate shock scenario of the pipeline *)

Section Scenario.
Import RateShockAnalyzer.
Variable percentile_of_empty : result (option R).

Lemma min_nonempty (xs : list float) : xs <> [] -> is_Ok (np.min xs).
Proof. destruct xs; [done|]. intros _. by eexists. Qed.

Lemma max_nonempty (xs : list float) : xs <> [] -> is_Ok (np.max xs).
Proof. destruct xs; [done|]. intros _. by eexists. Qed.

(** With a response to work on the stress test raises nothing. *)
Lemma stress_test_nonempty_is_Ok (self : t)
    (weights_arg : option (list (string * R)))
    (responses : list ShockResponse) :
  shock_responses self = Some responses -> responses <> [] ->
  is_Ok (portfolio_stress_test percentile_of_empty self weights_arg None).
Proof.
  intros Hself Hne. unfold portfolio_stress_test. rewrite Hself.
  rewrite decide_False by (by destruct responses).
  cbn [mbind result_bind].
  set (weights := match weights_arg with
                  | Some w => w
                  | None => PORTFOLIO_WEIGHTS (config self)
                  end).
  set (prets := map (portfolio_return weights) responses).
  assert (Hpne : prets <> []) by (unfold prets; by destruct responses).
  destruct (table_row_Ok percentile_of_empty (config self) responses prets 10
              "Tail (10th pct)" Hne Hpne) as [c10 H10].
  destruct (table_row_Ok percentile_of_empty (config self) responses prets 50
              "Median" Hne Hpne) as [c50 H50].
  destruct (table_row_Ok percentile_of_empty (config self) responses prets 90
              "Best (90th pct)" Hne Hpne) as [c90 H90].
  rewrite !percentile_nonempty by done. cbn [mbind result_bind].
  destruct (min_nonempty prets Hpne) as [mn ->].
  destruct (max_nonempty prets Hpne) as [mx ->].
  cbn [mbind result_bind mapM]. rewrite H10, H50, H90.
  cbn [mbind result_bind mret result_ret]. by eexists.
Qed.

Lemma identify_shocks_increasing (self : t) (treasury : list float) :
  increasing (index (data self)) ->
  float_column (data self) "TREASURY_10Y" = Ok treasury ->
  exists events,
    identify_shocks self
    = (Ok events, {| data := data self; config := config self;
                     shock_dates := Some events;
                     shock_responses := shock_responses self |}).
Proof.
  intros Hinc Htsy. unfold identify_shocks, shock_candidates.
  rewrite Htsy. cbn [mbind result_bind].
  set (candidates := select _ (index (data self))).
  rewrite report_ok_unique.
  - by eexists.
  - by apply increasing_NoDup.
  - intros d Hd. apply (elem_of_sublist candidates); [|apply select_sublist].
    by apply (elem_of_sublist _ _ _ Hd), filter_shocks_sublist.
Qed.

Lemma identify_shocks_without_yield (self : t) (e : exn) :
  float_column (data self) "TREASURY_10Y" = Raise e ->
  identify_shocks self = (Raise e, self).
Proof.
  intros Htsy. unfold identify_shocks, shock_candidates. by rewrite Htsy.
Qed.

(** The scan accepts again what it accepted. *)
Lemma filter_shocks_fixed (events : list Timestamp) :
  StronglySorted far_after events ->
  foldl filter_step ([], None) events = (events, last events).
Proof.
  induction events as [|c events IH] using rev_ind; intros Hs; [done|].
  rewrite foldl_app. cbn [foldl].
  pose proof (StronglySorted_app_1_l _ _ _ Hs) as Hs'.
  rewrite (IH Hs'). rewrite last_snoc. unfold filter_step.
  destruct (last events) as [l|] eqn:Hl; [|done].
  rewrite decide_True; [done|].
  apply last_Some in Hl as [events' ->].
  apply (StronglySorted_app_1_elem_of _ _ _ l c) in Hs; [done| |by left].
  apply elem_of_app. right. by left.
Qed.
End Scenario.



(** X24. The events [identify_shocks] returns are a fixed point of its
    spacing filter: run over its own result, the scan of lines 37-43
    accepts every event again and drops none. *)
Theorem accepted_events_are_accepted_again (self : RateShockAnalyzer.t)
    (events : list Timestamp) :
  (RateShockAnalyzer.identify_shocks self).1 = Ok events ->
  RateShockAnalyzer.filter_shocks events = events.
Proof.
  intros Hrun.
  destruct (identify_shocks_events self events Hrun) as (cands & _ & ->).
  pose proof (scan_invariant cands) as (_ & Hsorted & _).
  unfold RateShockAnalyzer.filter_shocks at 1.
  by rewrite filter_shocks_fixed.
Qed.

(** The one event of [shock_panel]. *)
Lemma accepted_events_are_accepted_again_witness :
  RateShockAnalyzer.filter_shocks [86400000000000%Z] = [86400000000000%Z].
Proof.
  apply (accepted_events_are_accepted_again shock_analyzer).
  exact shock_panel_events.
Defined.

Section SingleResponse.
Import RateShockAnalyzer.

Lemma percentile_R_single (q v : R) : np.percentile_R q [v] = v.
Proof.
  unfold np.percentile_R. cbn [length].
  replace (q / 100 * (INR 1 - 1)) with (IZR 0) by (simpl; lra).
  rewrite ZfloorZ. change (Z.to_nat 0) with 0%nat.
  change (merge_sort Rle [v]) with [v]. cbn. lra.
Qed.

Lemma std_R_0_single (v : R) : np.std_R 0 [v] = Some 0.
Proof.
  unfold np.std_R. rewrite mean_R_Some by (simpl; lia).
  rewrite decide_False by (simpl; lia). f_equal.
  transitivity (sqrt 0); [|apply sqrt_0]. f_equal.
  unfold Rsum. simpl. field.
Qed.
End SingleResponse.

(** X25. A single scenario is its own distribution: when
    [measure_shock_response] produced exactly one response and its
    returns are numbers, the stress test reports the portfolio return of
    that response as minimum, 10th percentile, median, 90th percentile,
    maximum and mean, with a standard deviation of 0 and a count of 1. *)
Theorem single_response_summary (percentile_of_empty : result (option R))
    (self : RateShockAnalyzer.t) (dates : list Timestamp)
    (weights : list (string * R))
    (response : RateShockAnalyzer.ShockResponse) :
  (RateShockAnalyzer.measure_shock_response self (Some dates)).1
  = Ok [response] ->
  finite_responses [response] ->
  exists summary table v,
    RateShockAnalyzer.portfolio_stress_test percentile_of_empty
      (RateShockAnalyzer.measure_shock_response self (Some dates)).2
      (Some weights) None = Ok (summary, table) /\
    RateShockAnalyzer.portfolio_return weights response = Some v /\
    RateShockAnalyzer.count summary = 1%nat /\
    RateShockAnalyzer.min summary = Some v /\
    RateShockAnalyzer.p10 summary = Some v /\
    RateShockAnalyzer.median summary = Some v /\
    RateShockAnalyzer.p90 summary = Some v /\
    RateShockAnalyzer.max summary = Some v /\
    RateShockAnalyzer.mean summary = Some v /\
    RateShockAnalyzer.std summary = Some 0 /\
    map RateShockAnalyzer.Portfolio table = [Some v; Some v; Some v].
Proof.
  intros Hrun Hfin. apply measured_responses in Hrun.
  destruct (RateShockAnalyzer.portfolio_return weights response) as [v|]
    eqn:Hv.
  2:{ apply Forall_cons in Hfin as [Hrow _].
      destruct (portfolio_return_is_Some weights response Hrow) as [v Hv'].
      congruence. }
  unfold RateShockAnalyzer.portfolio_stress_test. rewrite Hrun.
  cbn [length]. rewrite decide_False by lia.
  cbn [mbind result_bind].
  change (map (RateShockAnalyzer.portfolio_return weights) [response])
    with [RateShockAnalyzer.portfolio_return weights response].
  rewrite Hv.
  destruct (table_row_Ok percentile_of_empty
              (RateShockAnalyzer.config
                 (RateShockAnalyzer.measure_shock_response self (Some dates)).2)
              [response] [Some v] 10 "Tail (10th pct)"
              ltac:(done) ltac:(done)) as [c10 H10].
  destruct (table_row_Ok percentile_of_empty
              (RateShockAnalyzer.config
                 (RateShockAnalyzer.measure_shock_response self (Some dates)).2)
              [response] [Some v] 50 "Median"
              ltac:(done) ltac:(done)) as [c50 H50].
  destruct (table_row_Ok percentile_of_empty
              (RateShockAnalyzer.config
                 (RateShockAnalyzer.measure_shock_response self (Some dates)).2)
              [response] [Some v] 90 "Best (90th pct)"
              ltac:(done) ltac:(done)) as [c90 H90].
  cbn [mapM]. rewrite H10, H50, H90.
  eexists _, _, v. split; [reflexivity|]. split; [done|].
  cbn [RateShockAnalyzer.count RateShockAnalyzer.min
    RateShockAnalyzer.p10 RateShockAnalyzer.median RateShockAnalyzer.p90
    RateShockAnalyzer.max RateShockAnalyzer.mean RateShockAnalyzer.std
    RateShockAnalyzer.Portfolio map].
  change (np.finite [Some v]) with (Some [v]).
  cbn [fmap option_fmap option_map].
  rewrite !percentile_R_single.
  split; [done|]. split; [done|]. split; [done|].
  split.
  { rewrite (median_finite [Some v] v []) by done.
    by rewrite percentile_R_single. }
  split; [done|]. split; [done|].
  split.
  { unfold np.mean. change (np.finite [Some v]) with (Some [v]).
    cbn [mbind option_bind]. rewrite mean_R_Some by (simpl; lia).
    f_equal. unfold Rsum. simpl. field. }
  split; [|done].
  unfold np.std. change (np.finite [Some v]) with (Some [v]).
  cbn [mbind option_bind]. apply std_R_0_single.
Qed.

(** The stress test on the response to the second day of [shock_panel],
    all in SPY. *)
Lemma single_response_summary_witness :
  exists summary table v,
    RateShockAnalyzer.portfolio_stress_test (Ok NaN)
      (RateShockAnalyzer.measure_shock_response shock_analyzer
         (Some [86400000000000; 172800000000000]%Z)).2
      (Some [("SPY"%string, 1)]) None = Ok (summary, table) /\
    RateShockAnalyzer.portfolio_return [("SPY"%string, 1)] second_day_response
    = Some v /\
    RateShockAnalyzer.count summary = 1%nat /\
    RateShockAnalyzer.min summary = Some v /\
    RateShockAnalyzer.p10 summary = Some v /\
    RateShockAnalyzer.median summary = Some v /\
    RateShockAnalyzer.p90 summary = Some v /\
    RateShockAnalyzer.max summary = Some v /\
    RateShockAnalyzer.mean summary = Some v /\
    RateShockAnalyzer.std summary = Some 0 /\
    map RateShockAnalyzer.Portfolio table = [Some v; Some v; Some v].
Proof.
  apply (single_response_summary (Ok NaN) shock_analyzer
           [86400000000000; 172800000000000]%Z [("SPY"%string, 1)]
           second_day_response).
  - exact shock_panel_measured.
  - exact second_day_response_finite.
Defined.
